(** * Sentinel Stream: the fraud-detection consumer

    A shallow embedding of [consumer/fraud_detector.py] (the sliding
    velocity window, feature engineering, scoring, alert construction and
    the janitor) and of the message pipeline of [consumer/main.py]
    (decode, validate, detect, dead-letter routing).

    Conventions of the embedding:
    - a Python [float] is an exact rational ([Q]); equalities between
      scores are [Qeq] ([==]);
    - a [datetime] is an integer count of microseconds ([Z]), and a
      [timedelta] is a difference of such counts; whether a [datetime] is
      naive or aware is kept apart, where the code subtracts its naive
      clock from a stored timestamp ([cleanup_old_windows_tz]);
    - a Python [str] is a list of Unicode code points, except for the
      identifiers the code compares literally (card ids, locations,
      merchant categories, error types), which are [string];
    - a raised exception is the [Raise] constructor of [result];
    - the mutable detector object is a record threaded through the calls. *)

From Stdlib Require Import ZArith QArith Qminmax Qabs Qround Lqa Lia.
From Stdlib Require Import List String Ascii.
From stdpp Require Import base option list sorting gmap strings fin_maps.

Local Open Scope Z_scope.

(** ** Exceptions *)

Inductive exn : Type :=
| IndexError
| PydanticValidationError
| UnicodeDecodeError
| JSONDecodeError
| KafkaError
| TypeError
| OSError.

Inductive result (A : Type) : Type :=
| Ok (a : A)
| Raise (e : exn).
Arguments Ok {A} a.
Arguments Raise {A} e.

(** [result] is the exception monad; stdpp's [x ← r; k] is its bind. *)
#[global] Instance result_ret : MRet result := fun A a => Ok a.
#[global] Instance result_bind : MBind result := fun A B k r =>
  match r with
  | Ok a => k a
  | Raise e => Raise e
  end.

(** ** Time *)

Abbreviation datetime := Z (only parsing).
Definition usec_per_second : Z := 1000000.
Definition timedelta_seconds (s : Z) : Z := s * usec_per_second.
Definition timedelta_minutes (m : Z) : Z := m * 60 * usec_per_second.

(** [datetime.hour] and [datetime.weekday()] (Monday = 0); the epoch,
    1970-01-01, was a Thursday. *)
Definition hour (ts : datetime) : Z := (ts / (3600 * usec_per_second)) mod 24.
Definition weekday (ts : datetime) : Z := (ts / (86400 * usec_per_second) + 3) mod 7.

(** ** TransactionWindow *)

Record TransactionWindow : Type := {
  timestamps : list datetime;
  amounts : list Q
}.

(** [field(default_factory=list)] for both fields. *)
Definition new_window : TransactionWindow :=
  {| timestamps := []; amounts := [] |}.

Definition add_transaction (w : TransactionWindow) (timestamp : datetime) (amount : Q)
  : TransactionWindow :=
  {| timestamps := timestamps w ++ [timestamp];
     amounts := amounts w ++ [amount] |}.

Fixpoint enumerate_from {A : Type} (i : nat) (l : list A) : list (nat * A) :=
  match l with
  | [] => []
  | x :: l' => (i, x) :: enumerate_from (S i) l'
  end.

Definition enumerate {A : Type} (l : list A) : list (nat * A) := enumerate_from 0 l.

(** [[l[i] for i in idxs]]: an index out of range raises [IndexError]. *)
Fixpoint select {A : Type} (l : list A) (idxs : list nat) : result (list A) :=
  match idxs with
  | [] => Ok []
  | i :: idxs' =>
      match l !! i with
      | Some x => xs ← select l idxs'; Ok (x :: xs)
      | None => Raise IndexError
      end
  end.

Definition valid_indices (cutoff : datetime) (tss : list datetime) : list nat :=
  List.map fst (List.filter (fun p => cutoff <=? snd p) (enumerate tss)).

(** [cleanup] assigns [self.timestamps] before it builds the new
    [self.amounts]; an [IndexError] in the second comprehension leaves the
    first assignment in place.

    Timestamps are instants here.  A Python [datetime] also is naive or
    aware, and [ts >= cutoff] between a naive and an aware value raises
    [TypeError]; [current_time - timedelta(...)] raises [OverflowError]
    below [datetime.min].  Neither is part of this definition: what is
    proved of [cleanup] is about the calls that return.  The janitor, where
    the clock is always naive, has its raising path in
    [cleanup_old_windows_tz]. *)
Definition cleanup (w : TransactionWindow) (window_seconds : Z) (current_time : datetime)
  : result unit * TransactionWindow :=
  let cutoff := current_time - timedelta_seconds window_seconds in
  let valid := valid_indices cutoff (timestamps w) in
  match select (timestamps w) valid with
  | Raise e => (Raise e, w)
  | Ok tss =>
      let w1 := {| timestamps := tss; amounts := amounts w |} in
      match select (amounts w1) valid with
      | Raise e => (Raise e, w1)
      | Ok ams => (Ok tt, {| timestamps := tss; amounts := ams |})
      end
  end.

Definition get_count (w : TransactionWindow) : Z := Z.of_nat (length (timestamps w)).

Definition sum_Q (l : list Q) : Q := fold_left Qplus l 0%Q.

Definition get_total_amount (w : TransactionWindow) : Q :=
  match amounts w with
  | [] => 0%Q
  | _ => sum_Q (amounts w)
  end.

(** [np.mean(self.amounts) if self.amounts else 0.0] *)
Definition get_mean_amount (w : TransactionWindow) : Q :=
  match amounts w with
  | [] => 0%Q
  | _ => (sum_Q (amounts w) / inject_Z (Z.of_nat (length (amounts w))))%Q
  end.

(** The retained (timestamp, amount) pairs of a window. *)
Definition entries (w : TransactionWindow) : list (datetime * Q) :=
  combine (timestamps w) (amounts w).

Definition window_wf (w : TransactionWindow) : Prop :=
  length (timestamps w) = length (amounts w).

(** ** Comparisons and clipping on floats *)

Definition Qleb (x y : Q) : bool := Qle_bool x y.
Definition Qltb (x y : Q) : bool := negb (Qle_bool y x).

(** [np.clip(x, lo, hi)] *)
Definition np_clip (x lo hi : Q) : Q := Qmin (Qmax x lo) hi.

(** ** config.py *)

Record Settings : Type := {
  kafka_transactions_topic : string;
  kafka_alerts_topic : string;
  kafka_dlq_topic : string;
  velocity_window_seconds : Z;
  velocity_threshold : Z;
  fraud_score_threshold : Q
}.

Definition default_settings : Settings :=
  {| kafka_transactions_topic := "transactions";
     kafka_alerts_topic := "fraud_alerts";
     kafka_dlq_topic := "dead_letter_queue";
     velocity_window_seconds := 60;
     velocity_threshold := 5;
     fraud_score_threshold := (7 # 10)%Q |}.

(** ** models.py *)

Record Transaction : Type := {
  transaction_id : string;
  card_id : string;
  amount : Q;
  timestamp : datetime;
  location : string;
  merchant_category : string
}.

Record TransactionFeatures : Type := {
  amount_normalized : Q;
  hour_of_day : Z;
  day_of_week : Z;
  is_weekend : bool;
  merchant_category_encoded : Z;
  velocity_count : Z;
  amount_deviation : Q;
  location_risk : Q
}.

(** The [Field(..., ge=, le=)] constraints of [TransactionFeatures]. *)
Definition features_valid (f : TransactionFeatures) : bool :=
  (0 <=? hour_of_day f) && (hour_of_day f <=? 23)
  && (0 <=? day_of_week f) && (day_of_week f <=? 6)
  && (0 <=? velocity_count f)
  && Qleb 0 (location_risk f) && Qleb (location_risk f) 1.

(** Constructing a pydantic model validates it. *)
Definition TransactionFeatures_new (f : TransactionFeatures) : result TransactionFeatures :=
  if features_valid f then Ok f else Raise PydanticValidationError.

Inductive RiskLevel : Type := LOW | MEDIUM | HIGH | CRITICAL.

(** The clauses of [fraud_reason], before they are formatted and joined
    with ["; "]. *)
Inductive ReasonClause : Type :=
| VelocityViolation (count : Z)
| UnusualAmount (deviation : Q)
| HighRiskLocation
| SuspiciousTime
| ModelHighConfidence
| MultipleRiskFactors.

Record FraudAlert : Type := {
  alert_transaction_id : string;
  alert_card_id : string;
  alert_amount : Q;
  alert_timestamp : datetime;
  alert_location : string;
  alert_merchant_category : string;
  fraud_score : Q;
  fraud_reason : list ReasonClause;
  risk_level : RiskLevel;
  velocity_triggered : bool;
  alert_velocity_count : Z;
  latency_ms : Q
}.

(** [fraud_score: float = Field(..., ge=0, le=1)] *)
Definition alert_valid (a : FraudAlert) : bool :=
  Qleb 0 (fraud_score a) && Qleb (fraud_score a) 1.

Definition FraudAlert_new (a : FraudAlert) : result FraudAlert :=
  if alert_valid a then Ok a else Raise PydanticValidationError.

(** ** Strings: [str.lower()] and the substring test [a in b]

    [lower] maps the ASCII capitals and leaves every other byte as it is:
    it is [str.lower()] on the strings of ASCII characters ([is_ascii]),
    and not beyond them (Python also folds capitals outside ASCII, and
    U+212A KELVIN SIGN to the letter k). *)

Definition lower_ascii (c : ascii) : ascii :=
  let n := nat_of_ascii c in
  if ((65 <=? n) && (n <=? 90))%nat then ascii_of_nat (n + 32) else c.

Fixpoint lower (s : string) : string :=
  match s with
  | EmptyString => EmptyString
  | String c s' => String (lower_ascii c) (lower s')
  end.

(** [str.isascii()] *)
Fixpoint is_ascii (s : string) : bool :=
  match s with
  | EmptyString => true
  | String c s' => (nat_of_ascii c <? 128)%nat && is_ascii s'
  end.

Fixpoint contains (needle hay : string) : bool :=
  String.prefix needle hay
  || match hay with
     | EmptyString => false
     | String _ hay' => contains needle hay'
     end.

(** ** FraudDetector *)

Definition MERCHANT_CATEGORIES : list (string * Z) :=
  [ ("grocery", 0); ("gas_station", 1); ("restaurant", 2); ("online", 3);
    ("retail", 4); ("travel", 5); ("entertainment", 6); ("healthcare", 7);
    ("education", 8); ("utilities", 9); ("other", 10) ]%string.

Definition HIGH_RISK_LOCATIONS : list string :=
  [ "unknown"; "vpn"; "tor"; "proxy" ]%string.

(** [dict.get(key, default)] on the category table. *)
Fixpoint dict_get (table : list (string * Z)) (key : string) (default : Z) : Z :=
  match table with
  | [] => default
  | (k, v) :: table' => if String.eqb k key then v else dict_get table' key default
  end.

(** The loaded model, by the capability that [_predict] probes first:
    [predict_proba], else [decision_function], else [predict].  Each call
    is made on the one-row feature matrix and read at row 0; it may raise. *)
Inductive Model : Type :=
| WithPredictProba (predict_proba : list Q -> result (list Q))
| WithDecisionFunction (decision_function : list Q -> result Q)
| WithPredict (predict : list Q -> result Z).

Definition Scaler : Type := list Q -> result (list Q).

Record FraudDetector : Type := {
  settings : Settings;
  model : option Model;
  scaler : option Scaler;
  model_loaded : bool;
  velocity_windows : gmap string TransactionWindow;
  transactions_processed : Z;
  alerts_generated : Z;
  velocity_violations : Z
}.

(** [FraudDetector.__init__] *)
Definition FraudDetector_init (s : Settings) : FraudDetector :=
  {| settings := s; model := None; scaler := None; model_loaded := false;
     velocity_windows := ∅;
     transactions_processed := 0; alerts_generated := 0; velocity_violations := 0 |}.

Definition _initialize_fallback_model (d : FraudDetector) : FraudDetector :=
  {| settings := settings d; model := None; scaler := None; model_loaded := true;
     velocity_windows := velocity_windows d;
     transactions_processed := transactions_processed d;
     alerts_generated := alerts_generated d;
     velocity_violations := velocity_violations d |}.

Definition set_velocity_windows (d : FraudDetector) (vw : gmap string TransactionWindow)
  : FraudDetector :=
  {| settings := settings d; model := model d; scaler := scaler d;
     model_loaded := model_loaded d;
     velocity_windows := vw;
     transactions_processed := transactions_processed d;
     alerts_generated := alerts_generated d;
     velocity_violations := velocity_violations d |}.

Definition incr_transactions_processed (d : FraudDetector) : FraudDetector :=
  {| settings := settings d; model := model d; scaler := scaler d;
     model_loaded := model_loaded d;
     velocity_windows := velocity_windows d;
     transactions_processed := transactions_processed d + 1;
     alerts_generated := alerts_generated d;
     velocity_violations := velocity_violations d |}.

Definition incr_alerts_generated (d : FraudDetector) : FraudDetector :=
  {| settings := settings d; model := model d; scaler := scaler d;
     model_loaded := model_loaded d;
     velocity_windows := velocity_windows d;
     transactions_processed := transactions_processed d;
     alerts_generated := alerts_generated d + 1;
     velocity_violations := velocity_violations d |}.

Definition incr_velocity_violations (d : FraudDetector) : FraudDetector :=
  {| settings := settings d; model := model d; scaler := scaler d;
     model_loaded := model_loaded d;
     velocity_windows := velocity_windows d;
     transactions_processed := transactions_processed d;
     alerts_generated := alerts_generated d;
     velocity_violations := velocity_violations d + 1 |}.

(** [_check_velocity]: [self.velocity_windows] is a [defaultdict], so the
    lookup creates the card's window when it is missing; the window object
    is then mutated in place. *)
Definition _check_velocity (d : FraudDetector) (card : string)
    (ts : datetime) (amt : Q) : result (bool * Z) * FraudDetector :=
  let window := default new_window (velocity_windows d !! card) in
  match cleanup window (velocity_window_seconds (settings d)) ts with
  | (Raise e, window') =>
      (Raise e, set_velocity_windows d (<[card := window']> (velocity_windows d)))
  | (Ok _, window') =>
      let window'' := add_transaction window' ts amt in
      let count := get_count window'' in
      let triggered := velocity_threshold (settings d) <? count in
      (Ok (triggered, count),
       set_velocity_windows d (<[card := window'']> (velocity_windows d)))
  end.

Definition _engineer_features (d : FraudDetector) (transaction : Transaction)
    (velocity_count : Z) : result TransactionFeatures :=
  let hour := hour (timestamp transaction) in
  let day_of_week := weekday (timestamp transaction) in
  let is_weekend := 5 <=? day_of_week in
  let amount_normalized := Qmin (amount transaction / 10000) 1 in
  let category_lower := lower (merchant_category transaction) in
  let merchant_encoded :=
    dict_get MERCHANT_CATEGORIES category_lower
      (dict_get MERCHANT_CATEGORIES "other" 10) in
  let location_lower := lower (location transaction) in
  let location_risk :=
    if existsb (fun risk => contains risk location_lower) HIGH_RISK_LOCATIONS
    then (8 # 10)%Q else (2 # 10)%Q in
  let amount_deviation :=
    match velocity_windows d !! card_id transaction with
    | Some window =>
        if 1 <? get_count window then
          let mean_amount := get_mean_amount window in
          if Qltb 0 mean_amount
          then (Qabs (amount transaction - mean_amount) / mean_amount)%Q
          else 0%Q
        else 0%Q
    | None => 0%Q
    end in
  TransactionFeatures_new
    {| amount_normalized := amount_normalized;
       hour_of_day := hour;
       day_of_week := day_of_week;
       is_weekend := is_weekend;
       merchant_category_encoded := merchant_encoded;
       velocity_count := velocity_count;
       amount_deviation := Qmin amount_deviation 5;
       location_risk := location_risk |}.

Definition _rule_based_score (features : TransactionFeatures) : Q :=
  let score := (1 # 10)%Q in
  let score :=
    if 3 <? velocity_count features then (score + (3 # 10))%Q
    else if 5 <? velocity_count features then (score + (5 # 10))%Q
    else score in
  let score :=
    if (2 <=? hour_of_day features) && (hour_of_day features <=? 5)
    then (score + (15 # 100))%Q else score in
  let score :=
    if Qltb 2 (amount_deviation features) then (score + (2 # 10))%Q else score in
  let score := (score + location_risk features * (2 # 10))%Q in
  let score :=
    if Qltb (5 # 10) (amount_normalized features) then (score + (1 # 10))%Q else score in
  Qmin score 1.

(** [l[i]] for a non-negative index. *)
Definition getitem {A : Type} (l : list A) (i : nat) : result A :=
  match l !! i with
  | Some x => Ok x
  | None => Raise IndexError
  end.

Definition _determine_fraud_reason (fraud_score : Q) (velocity_triggered : bool)
    (velocity_count : Z) (features : TransactionFeatures) : list ReasonClause :=
  let reasons := [] in
  let reasons :=
    if velocity_triggered then reasons ++ [VelocityViolation velocity_count] else reasons in
  let reasons :=
    if Qltb 2 (amount_deviation features)
    then reasons ++ [UnusualAmount (amount_deviation features)] else reasons in
  let reasons :=
    if Qltb (5 # 10) (location_risk features) then reasons ++ [HighRiskLocation] else reasons in
  let reasons :=
    if (2 <=? hour_of_day features) && (hour_of_day features <=? 5)
    then reasons ++ [SuspiciousTime] else reasons in
  let reasons :=
    if Qleb (8 # 10) fraud_score && bool_decide (reasons = [])
    then reasons ++ [ModelHighConfidence] else reasons in
  match reasons with
  | [] => [MultipleRiskFactors]
  | _ => reasons
  end.

Definition _get_risk_level (score : Q) : RiskLevel :=
  if Qleb (9 # 10) score then CRITICAL
  else if Qleb (75 # 100) score then HIGH
  else if Qleb (5 # 10) score then MEDIUM
  else LOW.

(** [max(window.timestamps)] on a non-empty list. *)
Definition latest_timestamp (w : TransactionWindow) : option datetime :=
  match timestamps w with
  | [] => None
  | t :: ts => Some (fold_left Z.max ts t)
  end.

(** [cleanup_old_windows] on timestamps that [datetime.utcnow()] can be
    subtracted from (naive ones); [current_time] is the reading of
    [datetime.utcnow()].  [cleanup_old_windows_tz] below adds the UTC
    offsets and the exception. *)
Definition cleanup_old_windows (d : FraudDetector) (current_time : datetime)
  : FraudDetector :=
  let stale_threshold := timedelta_minutes 5 in
  let cards_to_remove :=
    flat_map
      (fun item : string * TransactionWindow =>
         match latest_timestamp (snd item) with
         | Some latest =>
             if stale_threshold <? current_time - latest then [fst item] else []
         | None => []
         end)
      (map_to_list (velocity_windows d)) in
  set_velocity_windows d
    (fold_left (fun vw card => delete card vw) cards_to_remove (velocity_windows d)).

(** [cleanup_old_windows] with the UTC offsets of the stored timestamps.
    [aware card] tells whether the timestamps kept for [card] carry an
    offset: pydantic parses a timestamp with a trailing Z or an offset, the
    form the producer writes, to an aware [datetime], and one without to a
    naive one.  [datetime.utcnow()] is naive, and [current_time - latest]
    between a naive and an aware value raises [TypeError].  The exception
    leaves the loop that collects [cards_to_remove], before any [del]: the
    detector is as it was. *)
Definition cleanup_old_windows_tz (aware : string -> bool) (d : FraudDetector)
    (current_time : datetime) : result unit * FraudDetector :=
  if existsb
       (fun item : string * TransactionWindow =>
          match latest_timestamp (snd item) with
          | Some _ => aware (fst item)
          | None => false
          end)
       (map_to_list (velocity_windows d))
  then (Raise TypeError, d)
  else (Ok tt, cleanup_old_windows d current_time).

(** One turn of the loop of [cleanup_velocity_windows] in main.py: the
    exception is logged and the loop goes on. *)
Definition cleanup_velocity_windows (aware : string -> bool) (d : FraudDetector)
    (current_time : datetime) : FraudDetector :=
  snd (cleanup_old_windows_tz aware d current_time).

(** The vector [_predict] hands to the scaler and the model. *)
Definition feature_vector (features : TransactionFeatures) : list Q :=
  [ amount_normalized features;
    (inject_Z (hour_of_day features) / 23)%Q;
    (inject_Z (day_of_week features) / 6)%Q;
    if is_weekend features then 1%Q else 0%Q;
    (inject_Z (merchant_category_encoded features) / 10)%Q;
    Qmin (inject_Z (velocity_count features) / 10) 1;
    Qmin (amount_deviation features) 1;
    location_risk features ].

Section Detector.

(** [numpy.exp], of which the embedding assumes nothing. *)
Variable np_exp : Q -> Q.

Definition _predict (d : FraudDetector) (features : TransactionFeatures) : Q :=
  match model d with
  | None => _rule_based_score features
  | Some m =>
      let attempt : result Q :=
        let feature_vector :=
          [ amount_normalized features;
            (inject_Z (hour_of_day features) / 23)%Q;
            (inject_Z (day_of_week features) / 6)%Q;
            if is_weekend features then 1%Q else 0%Q;
            (inject_Z (merchant_category_encoded features) / 10)%Q;
            Qmin (inject_Z (velocity_count features) / 10) 1;
            Qmin (amount_deviation features) 1;
            location_risk features ] in
        feature_vector ←
          match scaler d with
          | Some transform => transform feature_vector
          | None => Ok feature_vector
          end;
        fraud_score ←
          match m with
          | WithPredictProba predict_proba =>
              proba ← predict_proba feature_vector;
              if (1 <? length proba)%nat then getitem proba 1 else getitem proba 0
          | WithDecisionFunction decision_function =>
              score ← decision_function feature_vector;
              Ok (1 / (1 + np_exp score))%Q
          | WithPredict predict =>
              prediction ← predict feature_vector;
              Ok (if prediction =? 1 then (9 # 10)%Q else (1 # 10)%Q)
          end;
        Ok (np_clip fraud_score 0 1) in
      match attempt with
      | Ok fraud_score => fraud_score
      | Raise _ => _rule_based_score features
      end
  end.

(** [process_transaction]; [latency_ms] is the clock difference the code
    measures.  The detector returned next to a [Raise] holds the mutations
    made before the exception. *)
Definition process_transaction (d : FraudDetector) (transaction : Transaction)
    (latency : Q) : result (option FraudAlert) * FraudDetector :=
  match _check_velocity d (card_id transaction) (timestamp transaction)
          (amount transaction) with
  | (Raise e, d) => (Raise e, d)
  | (Ok (triggered, count), d) =>
      match _engineer_features d transaction count with
      | Raise e => (Raise e, d)
      | Ok features =>
          let score := _predict d features in
          let d := incr_transactions_processed d in
          if Qleb (fraud_score_threshold (settings d)) score || triggered then
            let d := if triggered then incr_velocity_violations d else d in
            let reason := _determine_fraud_reason score triggered count features in
            let final_score := if triggered then Qmax score (85 # 100) else score in
            match FraudAlert_new
                    {| alert_transaction_id := transaction_id transaction;
                       alert_card_id := card_id transaction;
                       alert_amount := amount transaction;
                       alert_timestamp := timestamp transaction;
                       alert_location := location transaction;
                       alert_merchant_category := merchant_category transaction;
                       fraud_score := final_score;
                       fraud_reason := reason;
                       risk_level := _get_risk_level final_score;
                       velocity_triggered := triggered;
                       alert_velocity_count := count;
                       latency_ms := latency |} with
            | Raise e => (Raise e, d)
            | Ok alert => (Ok (Some alert), incr_alerts_generated d)
            end
          else (Ok None, d)
      end
  end.

(** ** main.py: the message pipeline *)

(** A [str] is a list of code points, [bytes] a list of bytes. *)
Definition pystr : Type := list N.
Definition bytes : Type := list Byte.byte.

(** Size of the UTF-8 encoding of a [str]. *)
Definition utf8_width (c : N) : nat :=
  if (c <? 128)%N then 1 else if (c <? 2048)%N then 2
  else if (c <? 65536)%N then 3 else 4.

Definition utf8_size (s : pystr) : nat := list_sum (List.map utf8_width s).

(** A consumed Kafka record. *)
Record Msg : Type := {
  value : bytes;
  msg_partition : Z;
  msg_offset : Z
}.

Record DeadLetterMessage : Type := {
  original_message : pystr;
  error_type : string;
  error_message : exn;
  topic : string;
  partition : option Z;
  offset : option Z
}.

Inductive Payload : Type :=
| AlertJson (alert : FraudAlert)
| DeadLetterJson (dlq_message : DeadLetterMessage).

(** [AIOKafkaProducer.send_and_wait(topic, value)], which may raise. *)
Definition Producer : Type := string -> Payload -> result unit.

(** The module-level state of [main.py], with the records the broker
    accepted and the alerts handed to [ws_manager.broadcast], oldest first. *)
Record App : Type := {
  fraud_detector : FraudDetector;
  kafka_producer : option Producer;
  latencies : list Q;
  dlq_count : Z;
  delivered : list (string * Payload);
  broadcasts : list FraudAlert
}.

Definition set_fraud_detector (app : App) (d : FraudDetector) : App :=
  {| fraud_detector := d; kafka_producer := kafka_producer app;
     latencies := latencies app; dlq_count := dlq_count app;
     delivered := delivered app; broadcasts := broadcasts app |}.

Definition set_latencies (app : App) (l : list Q) : App :=
  {| fraud_detector := fraud_detector app; kafka_producer := kafka_producer app;
     latencies := l; dlq_count := dlq_count app;
     delivered := delivered app; broadcasts := broadcasts app |}.

Definition deliver (app : App) (tp : string) (p : Payload) : App :=
  {| fraud_detector := fraud_detector app; kafka_producer := kafka_producer app;
     latencies := latencies app; dlq_count := dlq_count app;
     delivered := delivered app ++ [(tp, p)]; broadcasts := broadcasts app |}.

Definition incr_dlq_count (app : App) : App :=
  {| fraud_detector := fraud_detector app; kafka_producer := kafka_producer app;
     latencies := latencies app; dlq_count := dlq_count app + 1;
     delivered := delivered app; broadcasts := broadcasts app |}.

Definition ws_broadcast (app : App) (alert : FraudAlert) : App :=
  {| fraud_detector := fraud_detector app; kafka_producer := kafka_producer app;
     latencies := latencies app; dlq_count := dlq_count app;
     delivered := delivered app; broadcasts := broadcasts app ++ [alert] |}.

Definition send_to_dead_letter_queue (app : App) (message : pystr)
    (error_type : string) (error_message : exn)
    (partition offset : option Z) : App :=
  match kafka_producer app with
  | None => app
  | Some send_and_wait =>
      let dlq_message :=
        {| original_message := take 1000 message;
           error_type := error_type;
           error_message := error_message;
           topic := kafka_transactions_topic (settings (fraud_detector app));
           partition := partition;
           offset := offset |} in
      let dlq_topic := kafka_dlq_topic (settings (fraud_detector app)) in
      match send_and_wait dlq_topic (DeadLetterJson dlq_message) with
      | Ok _ => incr_dlq_count (deliver app dlq_topic (DeadLetterJson dlq_message))
      | Raise _ => app
      end
  end.

Definition publish_fraud_alert (app : App) (alert : FraudAlert) : App :=
  let alerts_topic := kafka_alerts_topic (settings (fraud_detector app)) in
  match kafka_producer app with
  | Some send_and_wait =>
      match send_and_wait alerts_topic (AlertJson alert) with
      | Ok _ => ws_broadcast (deliver app alerts_topic (AlertJson alert)) alert
      | Raise _ => app
      end
  | None => ws_broadcast app alert
  end.

(** [metrics["latencies"]]: append, and keep the last 500 once the list
    is longer than 1000. *)
Definition track_latency (app : App) (alert : FraudAlert) : App :=
  let l := latencies app ++ [latency_ms alert] in
  set_latencies app (if (1000 <? length l)%nat then drop (length l - 500) l else l).

(** What [main.py] gets from its libraries: UTF-8 decoding, [json.loads],
    the validating constructor of [Transaction] applied to the parsed
    object, and [str] of a [bytes] object. *)
Variable JSON : Type.
Variable decode_utf8 : bytes -> result pystr.
Variable json_loads : pystr -> result JSON.
Variable Transaction_new : JSON -> result Transaction.
Variable bytes_str : bytes -> pystr.

(** The handler of the outer [except Exception]. *)
Definition processing_error (app : App) (msg : Msg) (e : exn) : App :=
  send_to_dead_letter_queue app (take 500 (bytes_str (value msg)))
    "ProcessingError" e (Some (msg_partition msg)) (Some (msg_offset msg)).

Definition process_message (app : App) (msg : Msg) (latency : Q) : App :=
  match decode_utf8 (value msg) with
  | Raise e => processing_error app msg e
  | Ok raw_message =>
      match json_loads raw_message with
      | Raise JSONDecodeError =>
          send_to_dead_letter_queue app raw_message "JSONDecodeError" JSONDecodeError
            (Some (msg_partition msg)) (Some (msg_offset msg))
      | Raise e => processing_error app msg e
      | Ok data =>
          match Transaction_new data with
          | Raise e =>
              send_to_dead_letter_queue app raw_message "ValidationError" e
                (Some (msg_partition msg)) (Some (msg_offset msg))
          | Ok transaction =>
              match process_transaction (fraud_detector app) transaction latency with
              | (Raise e, d) => processing_error (set_fraud_detector app d) msg e
              | (Ok None, d) => set_fraud_detector app d
              | (Ok (Some alert), d) =>
                  publish_fraud_alert (track_latency (set_fraud_detector app d) alert) alert
              end
          end
      end
  end.


(** The records that the pipeline does not turn into a detector result,
    with the [error_type] and the text that its dead-letter record carries:
    text that is not JSON; JSON that the [Transaction] schema rejects; and
    any other exception (bytes that are not UTF-8, another error of the
    JSON parser, an exception raised by [process_transaction]). *)
Inductive Rejected (app : App) (msg : Msg) (latency : Q) : string -> pystr -> Prop :=
| Rejected_json (raw : pystr) :
    decode_utf8 (value msg) = Ok raw ->
    json_loads raw = Raise JSONDecodeError ->
    Rejected app msg latency "JSONDecodeError" (take 1000 raw)
| Rejected_schema (raw : pystr) (data : JSON) (e : exn) :
    decode_utf8 (value msg) = Ok raw ->
    json_loads raw = Ok data ->
    Transaction_new data = Raise e ->
    Rejected app msg latency "ValidationError" (take 1000 raw)
| Rejected_bytes (e : exn) :
    decode_utf8 (value msg) = Raise e ->
    Rejected app msg latency "ProcessingError" (take 500 (bytes_str (value msg)))
| Rejected_parser (raw : pystr) (e : exn) :
    decode_utf8 (value msg) = Ok raw ->
    json_loads raw = Raise e -> e <> JSONDecodeError ->
    Rejected app msg latency "ProcessingError" (take 500 (bytes_str (value msg)))
| Rejected_detector (raw : pystr) (data : JSON) (t : Transaction)
    (e : exn) (d : FraudDetector) :
    decode_utf8 (value msg) = Ok raw ->
    json_loads raw = Ok data ->
    Transaction_new data = Ok t ->
    process_transaction (fraud_detector app) t latency = (Raise e, d) ->
    Rejected app msg latency "ProcessingError" (take 500 (bytes_str (value msg))).

(** The dead-letter records among the records the broker accepted. *)
Definition dead_letters (app : App) : list DeadLetterMessage :=
  flat_map
    (fun rec : string * Payload =>
       match snd rec with
       | DeadLetterJson m => [m]
       | AlertJson _ => []
       end)
    (delivered app).

Definition published_alerts (app : App) : list FraudAlert :=
  flat_map
    (fun rec : string * Payload =>
       match snd rec with
       | AlertJson a => [a]
       | DeadLetterJson _ => []
       end)
    (delivered app).

(** ** Scenario data

    Concrete detectors, transactions and records on which the definitions
    are evaluated. *)

(** 2025-01-03T14:30:00Z, a Friday afternoon. *)
Definition t_1430 : Z := 1735914600 * usec_per_second.

Definition card_A : string := "4532-7781-0093-1147".

(** A detector after a cold start without a model artifact. *)
Definition fallback_detector : FraudDetector :=
  _initialize_fallback_model (FraudDetector_init default_settings).

(** The same detector after one transaction of 100.00 on [card_A]. *)
Definition seen_detector : FraudDetector :=
  set_velocity_windows fallback_detector
    (<[card_A := {| timestamps := [t_1430]; amounts := [100%Q] |}]> ∅).

(** ... and after five transactions in five seconds. *)
Definition burst_detector : FraudDetector :=
  set_velocity_windows fallback_detector
    (<[card_A :=
         {| timestamps :=
              [t_1430; t_1430 + timedelta_seconds 1; t_1430 + timedelta_seconds 2;
               t_1430 + timedelta_seconds 3; t_1430 + timedelta_seconds 4];
            amounts := [10%Q; 20%Q; 30%Q; 40%Q; 50%Q] |}]> ∅).

(** A detector with a loaded binary predictor that flags everything. *)
(** A detector with a scaler and a classifier, as the trained artifact
    holds them; the scaler centres each feature, the classifier answers
    with the row (0.3, 0.7). *)
Definition scaled_detector : FraudDetector :=
  {| settings := default_settings;
     model := Some (WithPredictProba (fun _ => Ok [(3 # 10)%Q; (7 # 10)%Q]));
     scaler := Some (fun v => Ok (List.map (fun x => (x - (1 # 2))%Q) v));
     model_loaded := true;
     velocity_windows := ∅;
     transactions_processed := 0;
     alerts_generated := 0;
     velocity_violations := 0 |}.

Definition predictor_detector : FraudDetector :=
  {| settings := default_settings;
     model := Some (WithPredict (fun _ => Ok 1));
     scaler := None;
     model_loaded := true;
     velocity_windows := ∅;
     transactions_processed := 0;
     alerts_generated := 0;
     velocity_violations := 0 |}.

Definition purchase (ts : Z) (amt : Q) : Transaction :=
  {| transaction_id := "0b9f6c1e-5d0a-4c55-9a70-3f6d2a1c8e42";
     card_id := card_A;
     amount := amt;
     timestamp := ts;
     location := "Austin, TX";
     merchant_category := "grocery" |}.

(** A feature vector with six transactions in the window and nothing else
    unusual. *)
Definition six_in_window : TransactionFeatures :=
  {| amount_normalized := (25 # 10000)%Q;
     hour_of_day := 14;
     day_of_week := 4;
     is_weekend := false;
     merchant_category_encoded := 0;
     velocity_count := 6;
     amount_deviation := 0%Q;
     location_risk := (2 # 10)%Q |}.

Definition four_in_window : TransactionFeatures :=
  {| amount_normalized := (30 # 10000)%Q;
     hour_of_day := 14;
     day_of_week := 4;
     is_weekend := false;
     merchant_category_encoded := 0;
     velocity_count := 4;
     amount_deviation := 0%Q;
     location_risk := (8 # 10)%Q |}.

(** Stand-ins for the library functions, exact on the records below: a
    decoder for ASCII bytes, a JSON parser that is only given text that is
    not JSON, a schema that is never reached, and a printer of bytes
    objects that holds only ASCII letters, digits, spaces and braces. *)
Definition ascii_decode (b : bytes) : result pystr :=
  if forallb (fun x => (Byte.to_N x <? 128)%N) b
  then Ok (List.map Byte.to_N b)
  else Raise UnicodeDecodeError.

Definition not_json (s : pystr) : result unit := Raise JSONDecodeError.

Definition no_schema (data : unit) : result Transaction := Raise PydanticValidationError.

Definition ascii_repr (b : bytes) : pystr :=
  [98%N; 39%N] ++ List.map Byte.to_N b ++ [39%N].

Definition constant_exp (x : Q) : Q := 1%Q.

(** The bytes of [not json {]. *)
Definition malformed : Msg :=
  {| value := [Byte.x6e; Byte.x6f; Byte.x74; Byte.x20; Byte.x6a; Byte.x73;
               Byte.x6f; Byte.x6e; Byte.x20; Byte.x7b];
     msg_partition := 0;
     msg_offset := 42 |}.

Definition accepting_producer : Producer := fun _ _ => Ok tt.

Definition app_with (producer : option Producer) : App :=
  {| fraud_detector := fallback_detector;
     kafka_producer := producer;
     latencies := [];
     dlq_count := 0;
     delivered := [];
     broadcasts := [] |}.

(** ** Specification-side definitions

    The two formulas below follow the wording of the specification; they
    are compared with [_rule_based_score] and [_engineer_features]. *)

(** "Score starts at 0.1 and accumulates: +0.3 if velocity_count > 3,
    additionally +0.5 if velocity_count > 5 (both may apply); ..." *)
Definition spec_rule_based_score (features : TransactionFeatures) : Q :=
  Qmin
    ((1 # 10)
     + (if 3 <? velocity_count features then 3 # 10 else 0)
     + (if 5 <? velocity_count features then 5 # 10 else 0)
     + (if (2 <=? hour_of_day features) && (hour_of_day features <=? 5)
        then 15 # 100 else 0)
     + (if Qltb 2 (amount_deviation features) then 2 # 10 else 0)
     + (2 # 10) * location_risk features
     + (if Qltb (5 # 10) (amount_normalized features) then 1 # 10 else 0))%Q
    1.

(** The same sum without the second velocity bonus. *)
Definition single_bonus_score (features : TransactionFeatures) : Q :=
  Qmin
    ((1 # 10)
     + (if 3 <? velocity_count features then 3 # 10 else 0)
     + (if (2 <=? hour_of_day features) && (hour_of_day features <=? 5)
        then 15 # 100 else 0)
     + (if Qltb 2 (amount_deviation features) then 2 # 10 else 0)
     + (2 # 10) * location_risk features
     + (if Qltb (5 # 10) (amount_normalized features) then 1 # 10 else 0))%Q
    1.

(** [|amount - m| / m] capped at 5, or 0 when [m] is absent or not
    positive. *)
Definition deviation_from (m : option Q) (amt : Q) : Q :=
  match m with
  | Some m => if Qltb 0 m then Qmin (Qabs (amt - m) / m) 5 else 0%Q
  | None => 0%Q
  end.

(** "Read prior_mean from the Velocity Store for this card (may be
    absent)", before the event is observed. *)
Definition prior_mean (d : FraudDetector) (card : string) : option Q :=
  match velocity_windows d !! card with
  | Some w => match amounts w with [] => None | _ => Some (get_mean_amount w) end
  | None => None
  end.

Definition spec_amount_deviation (d : FraudDetector) (transaction : Transaction) : Q :=
  deviation_from (prior_mean d (card_id transaction)) (amount transaction).

(** ** Drivers: sequences of calls *)

(** The events of one card observed in order through [_check_velocity]. *)
Fixpoint observe_all (d : FraudDetector) (card : string)
    (events : list (Z * Q)) : result unit * FraudDetector :=
  match events with
  | [] => (Ok tt, d)
  | (ts, amt) :: events' =>
      match _check_velocity d card ts amt with
      | (Ok _, d') => observe_all d' card events'
      | (Raise e, d') => (Raise e, d')
      end
  end.

(** The alert that [process_transaction] builds from the intermediate
    results. *)
Definition alert_of (t : Transaction) (triggered : bool) (count : Z)
    (f : TransactionFeatures) (score latency : Q) : FraudAlert :=
  let final_score := if triggered then Qmax score (85 # 100) else score in
  {| alert_transaction_id := transaction_id t;
     alert_card_id := card_id t;
     alert_amount := amount t;
     alert_timestamp := timestamp t;
     alert_location := location t;
     alert_merchant_category := merchant_category t;
     fraud_score := final_score;
     fraud_reason := _determine_fraud_reason score triggered count f;
     risk_level := _get_risk_level final_score;
     velocity_triggered := triggered;
     alert_velocity_count := count;
     latency_ms := latency |}.

(** ** Well-formed detectors: every stored window pairs its two lists *)

Definition detector_wf (d : FraudDetector) : Prop :=
  forall card w, velocity_windows d !! card = Some w -> window_wf w.

(** ** The rest of the detector and of the service

    The functions of [fraud_detector.py], [models.py] and [main.py] that
    the pipeline above does not call. *)

(** [FraudAlert.get_risk_level] of [models.py]. *)
Definition get_risk_level (a : FraudAlert) : RiskLevel :=
  if Qleb (9 # 10) (fraud_score a) then CRITICAL
  else if Qleb (75 # 100) (fraud_score a) then HIGH
  else if Qleb (5 # 10) (fraud_score a) then MEDIUM
  else LOW.

(** The order LOW < MEDIUM < HIGH < CRITICAL. *)
Definition risk_rank (r : RiskLevel) : Z :=
  match r with
  | LOW => 0
  | MEDIUM => 1
  | HIGH => 2
  | CRITICAL => 3
  end.

(** [str.isspace] on one code point: the white space of Unicode. *)
Definition isspace (c : N) : bool :=
  ((9 <=? c) && (c <=? 13) || (28 <=? c) && (c <=? 32)
   || (c =? 133) || (c =? 160) || (c =? 5760)
   || (8192 <=? c) && (c <=? 8202)
   || (c =? 8232) || (c =? 8233) || (c =? 8239) || (c =? 8287) || (c =? 12288))%N.

Fixpoint lstrip (s : list N) : list N :=
  match s with
  | [] => []
  | c :: s' => if isspace c then lstrip s' else s
  end.

Definition rstrip (s : list N) : list N := rev (lstrip (rev s)).

(** [str.strip()] *)
Definition strip (s : list N) : list N := rstrip (lstrip s).

(** [Transaction.validate_card_id]; the [ValueError] of a field validator
    reaches the caller as the validation error of pydantic. *)
Definition validate_card_id (v : list N) : result (list N) :=
  if bool_decide (v = []) || bool_decide (strip v = [])
  then Raise PydanticValidationError
  else Ok (strip v).

(** [round(v, 2)]: to the nearest hundredth, a tie going to the even
    one. *)
Definition round2 (v : Q) : Q :=
  let x := (v * 100)%Q in
  let n := Qfloor x in
  let r := (x - inject_Z n)%Q in
  if Qltb r (1 # 2) then (inject_Z n / 100)%Q
  else if Qltb (1 # 2) r then (inject_Z (n + 1) / 100)%Q
  else if Z.even n then (inject_Z n / 100)%Q
  else (inject_Z (n + 1) / 100)%Q.

(** [Transaction.validate_amount], after the [ge=0] of the field. *)
Definition validate_amount (v : Q) : result Q :=
  if Qltb v 0 then Raise PydanticValidationError
  else if Qltb 1000000 v then Raise PydanticValidationError
  else Ok (round2 v).

(** What [joblib.load] returns: a dictionary, read with
    [.get('model')] and [.get('scaler')], or any other object, taken as
    the model itself. *)
Inductive ModelData : Type :=
| ModelDict (m : option Model) (s : option Scaler)
| ModelObject (m : option Model).

Definition set_model (d : FraudDetector) (m : option Model) (s : option Scaler)
  : FraudDetector :=
  {| settings := settings d; model := m; scaler := s; model_loaded := true;
     velocity_windows := velocity_windows d;
     transactions_processed := transactions_processed d;
     alerts_generated := alerts_generated d;
     velocity_violations := velocity_violations d |}.

(** [_load_model]; [artifact] is what the file system answers.
    [model_path.exists()] stands before the [try] and may raise
    ([Raise e]: the exception leaves [_load_model] with the detector as it
    was); otherwise the file does not exist ([Ok None]) or [joblib.load]
    is called, and raises or returns the stored object. *)
Definition _load_model (d : FraudDetector)
    (artifact : result (option (result ModelData)))
  : result unit * FraudDetector :=
  match artifact with
  | Raise e => (Raise e, d)
  | Ok (Some (Ok (ModelDict m s))) => (Ok tt, set_model d m s)
  | Ok (Some (Ok (ModelObject m))) => (Ok tt, set_model d m None)
  | Ok (Some (Raise _)) => (Ok tt, _initialize_fallback_model d)
  | Ok None => (Ok tt, _initialize_fallback_model d)
  end.

(** [initialize]: [True], and [False] when [_load_model] raises. *)
Definition initialize (d : FraudDetector)
    (artifact : result (option (result ModelData)))
  : bool * FraudDetector :=
  match _load_model d artifact with
  | (Ok _, d) => (true, d)
  | (Raise _, d) => (false, d)
  end.

(** [get_stats] *)
Record Stats : Type := {
  stats_transactions_processed : Z;
  stats_alerts_generated : Z;
  stats_velocity_violations : Z;
  active_cards_tracked : nat;
  stats_model_loaded : bool
}.

Definition get_stats (d : FraudDetector) : Stats :=
  {| stats_transactions_processed := transactions_processed d;
     stats_alerts_generated := alerts_generated d;
     stats_velocity_violations := velocity_violations d;
     active_cards_tracked := size (velocity_windows d);
     stats_model_loaded := model_loaded d |}.

(** The [status] of [health_check]; [kafka_consumer] says whether the
    global of that name is set. *)
Inductive HealthStatus : Type := healthy | degraded | unhealthy.

Definition health_status (app : App) (kafka_consumer : bool) : HealthStatus :=
  let stats := get_stats (fraud_detector app) in
  let kafka_connected :=
    kafka_consumer && match kafka_producer app with Some _ => true | None => false end in
  let status := healthy in
  let status := if negb kafka_connected then degraded else status in
  let status := if negb (stats_model_loaded stats) then unhealthy else status in
  status.

(** [WebSocketManager]: the set of connections, a connection being known
    by a number; [send_text] says which sends raise. *)
Definition ws_connect (active_connections : gset nat) (websocket : nat) : gset nat :=
  active_connections ∪ {[websocket]}.

Definition ws_disconnect (active_connections : gset nat) (websocket : nat) : gset nat :=
  active_connections ∖ {[websocket]}.

(** [WebSocketManager.broadcast]: the connections left, and those that
    were sent the message. *)
Definition broadcast (active_connections : gset nat) (send_text : nat -> result unit)
  : gset nat * gset nat :=
  if bool_decide (active_connections = ∅) then (active_connections, ∅)
  else
    let '(sent, disconnected) :=
      fold_left
        (fun (acc : gset nat * gset nat) websocket =>
           match send_text websocket with
           | Ok _ => (fst acc ∪ {[websocket]}, snd acc)
           | Raise _ => (fst acc, snd acc ∪ {[websocket]})
           end)
        (elements active_connections) (∅, ∅) in
    (active_connections ∖ disconnected, sent).

(** The body of the consumer loop: the records of a partition handled in
    order, each with the latency measured for it. *)
Fixpoint consume (app : App) (msgs : list (Msg * Q)) : App :=
  match msgs with
  | [] => app
  | (msg, latency) :: msgs' => consume (process_message app msg latency) msgs'
  end.

(** [get_metrics]; [service_start_time] is the global of that name and
    [now] the reading of the clock. *)
Record MetricsResponse : Type := {
  transactions_per_second : Q;
  average_latency_ms : Q;
  fraud_rate : Q;
  metrics_velocity_violations : Z;
  dlq_messages : Z
}.

Definition get_metrics (app : App) (service_start_time : option Z) (now : Z)
  : MetricsResponse :=
  let stats := get_stats (fraud_detector app) in
  let uptime :=
    match service_start_time with
    | Some start => (inject_Z (now - start) / inject_Z usec_per_second)%Q
    | None => 1%Q
    end in
  let tps :=
    if Qltb 0 uptime
    then (inject_Z (stats_transactions_processed stats) / uptime)%Q else 0%Q in
  let avg_latency :=
    match latencies app with
    | [] => 0%Q
    | _ => (sum_Q (latencies app) / inject_Z (Z.of_nat (length (latencies app))))%Q
    end in
  let rate :=
    if 0 <? stats_transactions_processed stats
    then (inject_Z (stats_alerts_generated stats)
          / inject_Z (stats_transactions_processed stats) * 100)%Q
    else 0%Q in
  {| transactions_per_second := round2 tps;
     average_latency_ms := round2 avg_latency;
     fraud_rate := round2 rate;
     metrics_velocity_violations := stats_velocity_violations stats;
     dlq_messages := dlq_count app |}.

(** More scenario data: a purchase through an anonymising network, a
    window of three amounts, and the stand-ins of a record that parses
    and validates. *)
Definition tor_travel : Transaction :=
  {| transaction_id := "7c1d2e3f-8a9b-4c0d-9e1f-2a3b4c5d6e7f";
     card_id := card_A;
     amount := 30%Q;
     timestamp := t_1430;
     location := "TOR Exit Node";
     merchant_category := "Travel" |}.

Definition three_amounts : TransactionWindow :=
  {| timestamps := [t_1430; t_1430 + timedelta_seconds 1; t_1430 + timedelta_seconds 2];
     amounts := [10%Q; 20%Q; 30%Q] |}.

Definition any_json (s : pystr) : result unit := Ok tt.

Definition fixed_schema (data : unit) : result Transaction := Ok (purchase t_1430 25).

(** The bytes of an empty JSON object. *)
Definition wellformed : Msg :=
  {| value := [Byte.x7b; Byte.x7d]; msg_partition := 0; msg_offset := 43 |}.

(** ** Lemmas on windows *)

Lemma select_enumerate_filter {A B : Type} (f : nat * A -> bool) (g : A -> bool)
    (pre l : list A) (pre' l' : list B) :
  length pre = length pre' ->
  length l = length l' ->
  (forall i x, f (i, x) = g x) ->
  let idxs := List.map fst (List.filter f (enumerate_from (length pre) l)) in
  select (pre ++ l) idxs = Ok (List.filter g l) /\
  select (pre' ++ l') idxs
    = Ok (List.map snd (List.filter (fun p => g (fst p)) (combine l l'))).
Proof.
  intros Hpre Hl Hfg. revert pre pre' l' Hpre Hl.
  induction l as [|x l IH]; intros pre pre' l' Hpre Hl; destruct l' as [|y l'];
    simpl in Hl; try discriminate; simpl.
  - split; reflexivity.
  - injection Hl as Hl.
    specialize (IH (pre ++ [x]) (pre' ++ [y]) l').
    rewrite !length_app in IH. simpl in IH.
    rewrite !Nat.add_1_r in IH.
    rewrite <- !app_assoc in IH. simpl in IH.
    destruct IH as [IH1 IH2]; [lia | assumption |].
    rewrite Hfg. destruct (g x); simpl.
    + rewrite IH1, IH2.
      rewrite (list_lookup_middle pre l x (length pre) eq_refl).
      rewrite (list_lookup_middle pre' l' y (length pre) Hpre).
      split; reflexivity.
    + split; assumption.
Qed.

Lemma combine_filter_fst {A B : Type} (g : A -> bool) (l : list A) (l' : list B) :
  length l = length l' ->
  combine (List.filter g l)
          (List.map snd (List.filter (fun p => g (fst p)) (combine l l')))
  = List.filter (fun p => g (fst p)) (combine l l').
Proof.
  revert l'. induction l as [|x l IH]; intros [|y l'] Hlen; simpl in *;
    try discriminate; try reflexivity.
  injection Hlen as Hlen. destruct (g x); simpl; rewrite IH; auto.
Qed.

Lemma filter_fst_combine_length {A B : Type} (g : A -> bool) (l : list A) (l' : list B) :
  length l = length l' ->
  length (List.filter g l)
  = length (List.map snd (List.filter (fun p => g (fst p)) (combine l l'))).
Proof.
  revert l'. induction l as [|x l IH]; intros [|y l'] Hlen; simpl in *;
    try discriminate; try reflexivity.
  injection Hlen as Hlen. destruct (g x); simpl; rewrite (IH l'); auto.
Qed.

(** On a well-formed window [cleanup] does not raise, and it filters the
    (timestamp, amount) pairs by the timestamp. *)
Lemma cleanup_ok (w : TransactionWindow) (W now : Z) :
  window_wf w ->
  let keep := fun ts : datetime => now - timedelta_seconds W <=? ts in
  exists w',
    cleanup w W now = (Ok tt, w') /\
    timestamps w' = List.filter keep (timestamps w) /\
    entries w' = List.filter (fun p => keep (fst p)) (entries w) /\
    window_wf w'.
Proof.
  intros Hwf keep. unfold cleanup, valid_indices, enumerate.
  destruct (select_enumerate_filter
              (fun p : nat * datetime => now - timedelta_seconds W <=? snd p)
              keep [] (timestamps w) [] (amounts w) eq_refl Hwf)
    as [Hts Ham]; [reflexivity |].
  simpl in Hts, Ham. cbv zeta. rewrite Hts. cbn [amounts timestamps]. rewrite Ham.
  eexists. split; [reflexivity |]. unfold entries, window_wf. simpl.
  split; [reflexivity |]. split.
  - apply combine_filter_fst, Hwf.
  - apply filter_fst_combine_length, Hwf.
Qed.

Lemma combine_snoc {A B : Type} (l : list A) (l' : list B) (x : A) (y : B) :
  length l = length l' ->
  combine (l ++ [x]) (l' ++ [y]) = combine l l' ++ [(x, y)].
Proof.
  revert l'. induction l as [|a l IH]; intros [|b l'] Hlen; simpl in *;
    try discriminate; try reflexivity.
  injection Hlen as Hlen. now rewrite IH.
Qed.

Lemma combine_projections {A B : Type} (l : list A) (l' : list B) :
  length l = length l' ->
  List.map fst (combine l l') = l /\ List.map snd (combine l l') = l'.
Proof.
  revert l'. induction l as [|a l IH]; intros [|b l'] Hlen; simpl in *;
    try discriminate; [split; reflexivity |].
  injection Hlen as Hlen. destruct (IH l' Hlen) as [-> ->]. split; reflexivity.
Qed.

Lemma add_transaction_wf (w : TransactionWindow) (ts : Z) (a : Q) :
  window_wf w -> window_wf (add_transaction w ts a).
Proof.
  unfold window_wf, add_transaction. simpl. intros H.
  rewrite !length_app, H. reflexivity.
Qed.

(** ** The window keeps its two lists paired *)

(** C9: the timestamps list and the amounts list of a window have equal
    length: this holds of a new window and is preserved by
    [add_transaction] and by [cleanup].  [add_transaction] appends one
    pair; [cleanup] does not raise and keeps exactly the pairs whose
    timestamp is at least the cutoff, in their original order, dropping the
    timestamp and the amount of an evicted pair together.  Hence
    [get_count] is the number of retained pairs, and the list of amounts
    that [get_mean_amount] averages is the list of their second
    components. *)
Theorem window_lists_stay_paired (w : TransactionWindow) (Hwf : window_wf w) :
  window_wf new_window /\
  (forall ts a,
      window_wf (add_transaction w ts a) /\
      entries (add_transaction w ts a) = entries w ++ [(ts, a)]) /\
  (forall W now, exists w',
      cleanup w W now = (Ok tt, w') /\
      window_wf w' /\
      entries w'
      = List.filter (fun p => now - timedelta_seconds W <=? fst p) (entries w)) /\
  get_count w = Z.of_nat (length (entries w)) /\
  timestamps w = List.map fst (entries w) /\
  amounts w = List.map snd (entries w).
Proof.
  split; [reflexivity |]. split; [| split; [| split]].
  - intros ts a. split; [now apply add_transaction_wf |].
    unfold entries, add_transaction. simpl. now apply combine_snoc.
  - intros W now. destruct (cleanup_ok w W now Hwf) as (w' & Hc & _ & He & Hw).
    exists w'. auto.
  - unfold get_count, entries. rewrite length_combine, <- Hwf, Nat.min_id.
    reflexivity.
  - destruct (combine_projections (timestamps w) (amounts w) Hwf) as [H1 H2].
    unfold entries. rewrite H1, H2. split; reflexivity.
Qed.

(** ** The velocity check *)

Lemma default_window_wf (d : FraudDetector) (card : string) :
  detector_wf d -> window_wf (default new_window (velocity_windows d !! card)).
Proof.
  intros Hwf. destruct (velocity_windows d !! card) as [w|] eqn:E; simpl.
  - exact (Hwf card w E).
  - reflexivity.
Qed.

(** On a well-formed detector [_check_velocity] does not raise: it evicts,
    appends the event, counts, and stores the window back. *)
Lemma check_velocity_ok (d : FraudDetector) (card : string) (ts : Z) (amt : Q) :
  detector_wf d ->
  let w0 := default new_window (velocity_windows d !! card) in
  let keep := fun e : Z => ts - timedelta_seconds (velocity_window_seconds (settings d)) <=? e in
  exists w1,
    window_wf w1 /\
    timestamps w1 = List.filter keep (timestamps w0) /\
    entries w1 = List.filter (fun p => keep (fst p)) (entries w0) /\
    let w2 := add_transaction w1 ts amt in
    _check_velocity d card ts amt
    = (Ok (velocity_threshold (settings d) <? get_count w2, get_count w2),
       set_velocity_windows d (<[card := w2]> (velocity_windows d))).
Proof.
  intros Hwf w0 keep.
  destruct (cleanup_ok w0 (velocity_window_seconds (settings d)) ts
              (default_window_wf d card Hwf)) as (w1 & Hc & Hts & He & Hw1).
  exists w1. repeat split; try assumption.
  unfold _check_velocity. fold w0. rewrite Hc. reflexivity.
Qed.

Lemma check_velocity_wf (d d' : FraudDetector) (card : string) (ts : Z) (amt : Q)
    (r : result (bool * Z)) :
  detector_wf d -> _check_velocity d card ts amt = (r, d') ->
  detector_wf d' /\ settings d' = settings d.
Proof.
  intros Hwf Hcv.
  destruct (check_velocity_ok d card ts amt Hwf) as (w1 & Hw1 & _ & _ & Heq).
  simpl in Heq. rewrite Heq in Hcv. injection Hcv as _ <-.
  split; [| reflexivity].
  intros c w. simpl. rewrite lookup_insert. case_decide.
  - intros [= <-]. now apply add_transaction_wf.
  - apply Hwf.
Qed.

Lemma FraudDetector_init_wf (s : Settings) : detector_wf (FraudDetector_init s).
Proof. intros card w. simpl. rewrite lookup_empty. discriminate. Qed.

Lemma observe_all_ok (d : FraudDetector) (card : string) (events : list (Z * Q)) :
  detector_wf d ->
  exists d', observe_all d card events = (Ok tt, d') /\
             detector_wf d' /\ settings d' = settings d.
Proof.
  revert d. induction events as [|[ts amt] events IH]; intros d Hwf; simpl.
  - exists d. auto.
  - destruct (check_velocity_ok d card ts amt Hwf) as (w1 & _ & _ & _ & Heq).
    simpl in Heq.
    destruct (check_velocity_wf _ _ _ _ _ _ Hwf Heq) as [Hwf' Hs].
    rewrite Heq. destruct (IH _ Hwf') as (d' & Ho & Hwf'' & Hs').
    exists d'. split; [assumption |]. split; [assumption | congruence].
Qed.

(** C6: for every sequence of observations of one card (here from any
    well-formed detector state, and whatever the order of the timestamps,
    so in particular for non-decreasing ones) and a window length [W >= 0],
    observing [(ts_n, a_n)] afterwards succeeds and leaves in the card's
    window only entries with [entry_ts >= ts_n - W]; the window is the
    previous one filtered by [entry_ts >= ts_n - W] followed by the new
    entry, so an entry with [entry_ts = ts_n - W] is kept. *)
Theorem window_time_bound (d : FraudDetector) (card : string)
    (events : list (Z * Q)) (ts_n : Z) (a_n : Q)
    (Hwf : detector_wf d)
    (HW : 0 <= velocity_window_seconds (settings d)) :
  let cutoff := ts_n - timedelta_seconds (velocity_window_seconds (settings d)) in
  exists d1 triggered count d2 w,
    observe_all d card events = (Ok tt, d1) /\
    _check_velocity d1 card ts_n a_n = (Ok (triggered, count), d2) /\
    velocity_windows d2 !! card = Some w /\
    Forall (fun entry_ts => cutoff <= entry_ts) (timestamps w) /\
    entries w
    = List.filter (fun p => cutoff <=? fst p)
        (entries (default new_window (velocity_windows d1 !! card)))
      ++ [(ts_n, a_n)] /\
    (forall w1 entry_ts a,
        velocity_windows d1 !! card = Some w1 ->
        In (entry_ts, a) (entries w1) -> entry_ts = cutoff ->
        In (entry_ts, a) (entries w)).
Proof.
  intros cutoff.
  destruct (observe_all_ok d card events Hwf) as (d1 & Ho & Hwf1 & Hs).
  destruct (check_velocity_ok d1 card ts_n a_n Hwf1) as (w1 & Hw1 & Hts & He & Heq).
  simpl in Heq. rewrite Hs in *. fold cutoff in Hts, He.
  exists d1. do 3 eexists. exists (add_transaction w1 ts_n a_n).
  assert (Hent : entries (add_transaction w1 ts_n a_n)
                 = List.filter (fun p => cutoff <=? fst p)
                     (entries (default new_window (velocity_windows d1 !! card)))
                   ++ [(ts_n, a_n)]).
  { unfold entries at 1, add_transaction. simpl.
    rewrite combine_snoc by exact Hw1. fold (entries w1). now rewrite He. }
  split; [exact Ho |]. split; [exact Heq |]. split; [| split; [| split]].
  - simpl. apply lookup_insert_eq.
  - simpl. rewrite Hts. apply Forall_app. split.
    + apply List.Forall_forall. intros e He'. apply List.filter_In in He'.
      destruct He' as [_ He']. now apply Z.leb_le in He'.
    + constructor; [| constructor]. unfold cutoff, timedelta_seconds, usec_per_second. lia.
  - exact Hent.
  - intros w0 e a Hlk Hin ->. rewrite Hent, Hlk. simpl.
    apply List.in_or_app. left. apply List.filter_In. split; [assumption |].
    simpl. apply Z.leb_refl.
Qed.

(** ** The janitor *)

Lemma fold_left_max_spec (l : list Z) (t : Z) :
  let m := fold_left Z.max l t in
  (m = t \/ In m l) /\ t <= m /\ Forall (fun e => e <= m) l.
Proof.
  revert t. induction l as [|x l IH]; intros t; simpl.
  - split; [now left |]. split; [lia | constructor].
  - destruct (IH (Z.max t x)) as (Hin & Hle & Hall).
    split; [| split].
    + destruct Hin as [Heq | Hin]; [| now right; right].
      destruct (Z.max_spec t x) as [[_ Hm] | [_ Hm]]; rewrite Hm in *.
      * right. left. congruence.
      * now left.
    + lia.
    + constructor; [lia | assumption].
Qed.

(** [latest_timestamp] is the greatest timestamp of the window. *)
Lemma latest_timestamp_max (w : TransactionWindow) (latest : Z) :
  latest_timestamp w = Some latest ->
  In latest (timestamps w) /\ Forall (fun e => e <= latest) (timestamps w).
Proof.
  unfold latest_timestamp. destruct (timestamps w) as [|t ts]; [discriminate |].
  intros [= <-]. destruct (fold_left_max_spec ts t) as (Hin & Hle & Hall).
  split.
  - destruct Hin as [-> | Hin]; [now left | now right].
  - constructor; assumption.
Qed.

Lemma fold_left_delete_lookup (cards : list string)
    (vw : gmap string TransactionWindow) (card : string) :
  fold_left (fun vw c => delete c vw) cards vw !! card
  = if decide (card ∈ cards) then None else vw !! card.
Proof.
  revert vw. induction cards as [|c cards IH]; intros vw; cbn [fold_left].
  - destruct (decide (card ∈ [])) as [H | _]; [inversion H | reflexivity].
  - rewrite IH. destruct (decide (c = card)) as [-> | Hne].
    + rewrite lookup_delete_eq.
      destruct (decide (card ∈ cards)) as [Hc | Hc],
               (decide (card ∈ card :: cards)) as [Hc' | Hc'];
        try reflexivity; exfalso; rewrite elem_of_cons in Hc'; intuition congruence.
    + rewrite lookup_delete_ne by assumption.
      destruct (decide (card ∈ cards)) as [Hc | Hc],
               (decide (card ∈ c :: cards)) as [Hc' | Hc'];
        try reflexivity; exfalso; rewrite elem_of_cons in Hc'; intuition congruence.
Qed.

(** What the janitor leaves of a card: nothing when the card's latest
    timestamp is more than five minutes before [now], its window
    otherwise. *)
Lemma cleanup_old_windows_lookup (d : FraudDetector) (now : Z) (card : string) :
  velocity_windows (cleanup_old_windows d now) !! card
  = match velocity_windows d !! card with
    | Some w =>
        match latest_timestamp w with
        | Some latest =>
            if timedelta_minutes 5 <? now - latest then None else Some w
        | None => Some w
        end
    | None => None
    end.
Proof.
  unfold cleanup_old_windows. simpl. rewrite fold_left_delete_lookup.
  case_decide as Hin.
  - apply list_elem_of_In, List.in_flat_map in Hin.
    destruct Hin as ([c w] & Hin & Hc).
    apply list_elem_of_In, elem_of_map_to_list in Hin. simpl in Hc.
    destruct (latest_timestamp w) as [latest|] eqn:El; [| destruct Hc].
    destruct (timedelta_minutes 5 <? now - latest) eqn:Es; [| destruct Hc].
    destruct Hc as [-> | []]. now rewrite Hin, El, Es.
  - destruct (velocity_windows d !! card) as [w|] eqn:Elk; [| reflexivity].
    destruct (latest_timestamp w) as [latest|] eqn:El; [| reflexivity].
    destruct (timedelta_minutes 5 <? now - latest) eqn:Es; [| reflexivity].
    exfalso. apply Hin. apply list_elem_of_In, List.in_flat_map.
    exists (card, w). split.
    + apply list_elem_of_In, elem_of_map_to_list. exact Elk.
    + simpl. rewrite El, Es. now left.
Qed.

Lemma cleanup_old_windows_wf (d : FraudDetector) (now : Z) :
  detector_wf d -> detector_wf (cleanup_old_windows d now).
Proof.
  intros Hwf card w. rewrite cleanup_old_windows_lookup.
  destruct (velocity_windows d !! card) as [w0|] eqn:E; [| discriminate].
  intros Hw. assert (w = w0) as ->; [| exact (Hwf card w0 E)].
  revert Hw. destruct (latest_timestamp w0); [destruct (_ <? _) |]; congruence.
Qed.

(** The janitor on naive timestamps: at a tick at time [now], a card whose
    most recent window entry is older than [now - 5 minutes] loses its
    whole window, and its next observation starts a new window with
    count 1; a card with an entry at or after [now - 5 minutes] keeps its
    window unchanged. *)
Lemma janitor_removes_stale_cards (d : FraudDetector) (now : Z)
    (card : string) (w : TransactionWindow) (latest : Z)
    (Hcard : velocity_windows d !! card = Some w)
    (Hlatest : latest_timestamp w = Some latest) :
  let d' := cleanup_old_windows d now in
  (latest < now - timedelta_minutes 5 ->
   velocity_windows d' !! card = None /\
   forall ts amt, exists d'',
     _check_velocity d' card ts amt
     = (Ok (velocity_threshold (settings d) <? 1, 1), d'') /\
     velocity_windows d'' !! card
     = Some {| timestamps := [ts]; amounts := [amt] |}) /\
  ((exists entry_ts, In entry_ts (timestamps w) /\
                     now - timedelta_minutes 5 <= entry_ts) ->
   velocity_windows d' !! card = Some w).
Proof.
  intros d'. split.
  - intros Hstale.
    assert (Hnone : velocity_windows d' !! card = None).
    { unfold d'. rewrite cleanup_old_windows_lookup, Hcard, Hlatest.
      replace (timedelta_minutes 5 <? now - latest) with true; [reflexivity |].
      symmetry. apply Z.ltb_lt. lia. }
    split; [exact Hnone |]. intros ts amt. eexists. split.
    + unfold _check_velocity. rewrite Hnone. simpl. reflexivity.
    + simpl. apply lookup_insert_eq.
  - intros (e & Hin & Hrecent).
    destruct (latest_timestamp_max w latest Hlatest) as [_ Hall].
    rewrite List.Forall_forall in Hall. specialize (Hall e Hin).
    unfold d'. rewrite cleanup_old_windows_lookup, Hcard, Hlatest.
    replace (timedelta_minutes 5 <? now - latest) with false; [reflexivity |].
    symmetry. apply Z.ltb_ge. lia.
Qed.

(** With naive timestamps only, the janitor returns and is
    [cleanup_old_windows]. *)
Lemma cleanup_old_windows_tz_naive (aware : string -> bool) (d : FraudDetector)
    (now : Z) :
  (forall card, aware card = false) ->
  cleanup_old_windows_tz aware d now = (Ok tt, cleanup_old_windows d now).
Proof.
  intros Hnaive. unfold cleanup_old_windows_tz.
  replace (existsb _ (map_to_list (velocity_windows d))) with false; [reflexivity |].
  symmetry. induction (map_to_list (velocity_windows d)) as [|item l IH];
    [reflexivity |].
  cbn [existsb]. rewrite IH, Hnaive. now destruct (latest_timestamp (snd item)).
Qed.

(** One card with a non-empty window of aware timestamps is enough for the
    janitor to raise, whatever the age of any window: no card is removed. *)
Lemma cleanup_old_windows_tz_aware (aware : string -> bool) (d : FraudDetector)
    (now : Z) (card : string) (w : TransactionWindow) :
  velocity_windows d !! card = Some w -> timestamps w <> [] -> aware card = true ->
  cleanup_old_windows_tz aware d now = (Raise TypeError, d).
Proof.
  intros Hcard Hne Haware. unfold cleanup_old_windows_tz.
  replace (existsb _ (map_to_list (velocity_windows d))) with true; [reflexivity |].
  symmetry. apply List.existsb_exists. exists (card, w). split.
  - apply list_elem_of_In, elem_of_map_to_list. exact Hcard.
  - cbn [fst snd]. unfold latest_timestamp.
    destruct (timestamps w); [congruence | exact Haware].
Qed.

(** ** Scoring *)

Lemma Qleb_le (x y : Q) : Qleb x y = true <-> (x <= y)%Q.
Proof. apply Qle_bool_iff. Qed.

Lemma Qltb_lt (x y : Q) : Qltb x y = true <-> (x < y)%Q.
Proof.
  unfold Qltb. rewrite negb_true_iff. split.
  - intros H. apply Qnot_le_lt. intros Hle. apply Qle_bool_iff in Hle. congruence.
  - intros H. destruct (Qle_bool y x) eqn:E; [| reflexivity].
    apply Qle_bool_iff in E. exfalso. exact (Qlt_not_le _ _ H E).
Qed.

Lemma Qmin_bounds (x lo : Q) :
  (lo <= x)%Q -> (lo <= 1)%Q -> (lo <= Qmin x 1 <= 1)%Q.
Proof.
  intros Hx H1. split.
  - apply Q.min_glb; assumption.
  - apply Q.le_min_r.
Qed.

Lemma np_clip_unit (x : Q) : (0 <= np_clip x 0 1 <= 1)%Q.
Proof.
  unfold np_clip. apply Qmin_bounds; [apply Q.le_max_r | discriminate].
Qed.

(** The code's score, for every feature vector: the second velocity bonus
    sits in the [elif] of the first and is never added. *)
Lemma rule_based_score_single_bonus (f : TransactionFeatures) :
  (_rule_based_score f == single_bonus_score f)%Q.
Proof.
  unfold _rule_based_score, single_bonus_score.
  apply Q.min_compat; [| reflexivity].
  destruct (3 <? velocity_count f) eqn:E3.
  - destruct ((2 <=? hour_of_day f) && (hour_of_day f <=? 5)),
             (Qltb 2 (amount_deviation f)),
             (Qltb (5 # 10) (amount_normalized f)); ring.
  - assert ((5 <? velocity_count f) = false) as ->.
    { apply Z.ltb_ge. apply Z.ltb_ge in E3. lia. }
    destruct ((2 <=? hour_of_day f) && (hour_of_day f <=? 5)),
             (Qltb 2 (amount_deviation f)),
             (Qltb (5 # 10) (amount_normalized f)); ring.
Qed.

Lemma rule_based_score_range (f : TransactionFeatures) :
  features_valid f = true -> (0 <= _rule_based_score f <= 1)%Q.
Proof.
  intros Hv. unfold features_valid in Hv.
  repeat (apply andb_prop in Hv; destruct Hv as [Hv ?]).
  assert (Hrisk : (0 <= location_risk f)%Q) by now apply Qleb_le.
  rewrite rule_based_score_single_bonus. unfold single_bonus_score.
  apply Qmin_bounds; [| discriminate].
  destruct (3 <? velocity_count f),
           ((2 <=? hour_of_day f) && (hour_of_day f <=? 5)),
           (Qltb 2 (amount_deviation f)),
           (Qltb (5 # 10) (amount_normalized f)); lra.
Qed.

(** Up to five transactions in the window the code and the formula of the
    specification agree: for every feature vector with
    [velocity_count <= 5] the rule-based score is 0.1, plus 0.3 when
    [velocity_count > 3], plus 0.15 when [2 <= hour_of_day <= 5], plus 0.2
    when [amount_deviation > 2], plus [0.2 * location_risk], plus 0.1 when
    [amount_normalized > 0.5], capped at 1.0. *)
Lemma rule_based_score_formula (f : TransactionFeatures)
    (Hcount : velocity_count f <= 5) :
  (_rule_based_score f == spec_rule_based_score f)%Q /\
  (_rule_based_score f
   == Qmin
        ((1 # 10)
         + (if 3 <? velocity_count f then 3 # 10 else 0)
         + (if (2 <=? hour_of_day f) && (hour_of_day f <=? 5) then 15 # 100 else 0)
         + (if Qltb 2 (amount_deviation f) then 2 # 10 else 0)
         + (2 # 10) * location_risk f
         + (if Qltb (5 # 10) (amount_normalized f) then 1 # 10 else 0))
        1)%Q.
Proof.
  split; [| apply rule_based_score_single_bonus].
  rewrite rule_based_score_single_bonus.
  unfold single_bonus_score, spec_rule_based_score.
  assert ((5 <? velocity_count f) = false) as -> by (apply Z.ltb_ge; lia).
  apply Q.min_compat; [| reflexivity]. ring.
Qed.

Lemma predict_range (d : FraudDetector) (f : TransactionFeatures) :
  features_valid f = true -> (0 <= _predict d f <= 1)%Q.
Proof.
  intros Hvalid.
  unfold _predict. destruct (model d) as [m|]; [| now apply rule_based_score_range].
  cbv zeta. unfold mbind, result_bind.
  destruct (match scaler d with Some t => _ | None => _ end) as [fv|];
    [| now apply rule_based_score_range].
  destruct (match m with
            | WithPredictProba _ => _
            | WithDecisionFunction _ => _
            | WithPredict _ => _
            end) as [x|];
    [apply np_clip_unit | now apply rule_based_score_range].
Qed.

(** C7: for every feature vector (one that satisfies the field constraints
    of [TransactionFeatures]) the score returned by [_predict] lies in
    [0, 1], both when a model is loaded (its output is clipped to [0, 1],
    and a failing model falls back to the rules) and on the rule-based
    path, which is capped at 1.0 and never below 0. *)
Theorem score_range (d : FraudDetector) (f : TransactionFeatures)
    (Hvalid : features_valid f = true) :
  (0 <= _predict d f <= 1)%Q /\ (0 <= _rule_based_score f <= 1)%Q.
Proof.
  split; [now apply predict_range | now apply rule_based_score_range].
Qed.

(** ** The detection pipeline *)

(** What a returning [_check_velocity] has done, with no assumption on the
    detector. *)
Lemma check_velocity_inv (d d1 : FraudDetector) (card : string) (ts : Z) (amt : Q)
    (triggered : bool) (count : Z) :
  _check_velocity d card ts amt = (Ok (triggered, count), d1) ->
  exists w,
    velocity_windows d1 !! card = Some w /\
    count = get_count w /\
    triggered = (velocity_threshold (settings d) <? count) /\
    1 <= count /\
    settings d1 = settings d /\ model d1 = model d /\ scaler d1 = scaler d /\
    transactions_processed d1 = transactions_processed d /\
    alerts_generated d1 = alerts_generated d /\
    velocity_violations d1 = velocity_violations d.
Proof.
  unfold _check_velocity.
  destruct (cleanup _ _ _) as [[[]|e] w1]; [| discriminate].
  intros [= <- <- <-]. exists (add_transaction w1 ts amt).
  split; [simpl; apply lookup_insert_eq |].
  repeat split.
  unfold get_count, add_transaction. simpl. rewrite length_app. simpl. lia.
Qed.

Lemma hour_range (ts : Z) : 0 <= hour ts <= 23.
Proof. unfold hour. pose proof (Z.mod_pos_bound (ts / (3600 * usec_per_second)) 24). lia. Qed.

Lemma weekday_range (ts : Z) : 0 <= weekday ts <= 6.
Proof.
  unfold weekday.
  pose proof (Z.mod_pos_bound (ts / (86400 * usec_per_second) + 3) 7). lia.
Qed.

(** Feature engineering passes the validation of [TransactionFeatures]
    whenever the count it is given is not negative. *)
Lemma engineer_features_ok (d : FraudDetector) (t : Transaction) (count : Z) :
  0 <= count ->
  exists f, _engineer_features d t count = Ok f /\
            features_valid f = true /\ velocity_count f = count.
Proof.
  intros Hc. unfold _engineer_features. cbv zeta. unfold TransactionFeatures_new.
  match goal with
  | |- context [features_valid ?x] =>
      assert (Hv : features_valid x = true); [| rewrite Hv; exists x; auto]
  end.
  unfold features_valid. cbn [hour_of_day day_of_week velocity_count location_risk].
  pose proof (hour_range (timestamp t)). pose proof (weekday_range (timestamp t)).
  repeat (apply andb_true_intro; split); try (apply Z.leb_le; lia);
    destruct (existsb _ _); reflexivity.
Qed.

Lemma engineer_features_inv (d : FraudDetector) (t : Transaction) (count : Z)
    (f : TransactionFeatures) :
  _engineer_features d t count = Ok f ->
  features_valid f = true /\ velocity_count f = count /\
  amount_deviation f
  = Qmin
      match velocity_windows d !! card_id t with
      | Some window =>
          if 1 <? get_count window then
            if Qltb 0 (get_mean_amount window)
            then (Qabs (amount t - get_mean_amount window) / get_mean_amount window)%Q
            else 0%Q
          else 0%Q
      | None => 0%Q
      end 5.
Proof.
  unfold _engineer_features. cbv zeta. unfold TransactionFeatures_new.
  match goal with
  | |- context [features_valid ?x] => destruct (features_valid x) eqn:Hv
  end; [| discriminate].
  intros [= <-]. split; [exact Hv |]. split; reflexivity.
Qed.

(** The two ways in which [process_transaction] returns. *)
Lemma process_transaction_inv (d d' : FraudDetector) (t : Transaction) (latency : Q)
    (r : option FraudAlert) :
  process_transaction d t latency = (Ok r, d') ->
  exists triggered count d1 f,
    _check_velocity d (card_id t) (timestamp t) (amount t)
    = (Ok (triggered, count), d1) /\
    _engineer_features d1 t count = Ok f /\
    let score := _predict d1 f in
    let emit := Qleb (fraud_score_threshold (settings d)) score || triggered in
    (emit = false /\ r = None /\ d' = incr_transactions_processed d1) \/
    (emit = true /\ r = Some (alert_of t triggered count f score latency) /\
     d' = incr_alerts_generated
            (if triggered
             then incr_velocity_violations (incr_transactions_processed d1)
             else incr_transactions_processed d1)).
Proof.
  unfold process_transaction.
  destruct (_check_velocity d (card_id t) (timestamp t) (amount t))
    as [[[triggered count]|e] d1] eqn:Ecv; [| discriminate].
  destruct (check_velocity_inv _ _ _ _ _ _ _ Ecv) as (w & _ & _ & _ & _ & Hs & _).
  destruct (_engineer_features d1 t count) as [f|e] eqn:Ef; [| discriminate].
  cbv zeta. cbn [settings incr_transactions_processed]. rewrite Hs.
  intros H. exists triggered, count, d1, f.
  split; [reflexivity |]. split; [exact Ef |]. cbv zeta.
  destruct (Qleb (fraud_score_threshold (settings d)) (_predict d1 f) || triggered).
  - right. unfold FraudAlert_new in H.
    match type of H with
    | context [alert_valid ?a] => destruct (alert_valid a); [| discriminate]
    end.
    injection H as <- <-. split; [reflexivity |]. split; reflexivity.
  - left. injection H as <- <-. auto.
Qed.

(** On a well-formed detector [process_transaction] returns (it does not
    raise), and the detector stays well formed.  The timestamps are those
    of this model: they compare with each other and stay within the range
    of [datetime] (see [cleanup]). *)
Lemma process_transaction_total (d : FraudDetector) (t : Transaction) (latency : Q) :
  detector_wf d ->
  exists r d', process_transaction d t latency = (Ok r, d') /\ detector_wf d'.
Proof.
  intros Hwf.
  destruct (check_velocity_ok d (card_id t) (timestamp t) (amount t) Hwf)
    as (w1 & _ & _ & _ & Hcv).
  cbv zeta in Hcv.
  destruct (check_velocity_wf _ _ _ _ _ _ Hwf Hcv) as [Hwf1 _].
  destruct (check_velocity_inv _ _ _ _ _ _ _ Hcv) as (w & _ & _ & _ & Hpos & _).
  set (w2 := add_transaction w1 (timestamp t) (amount t)) in *.
  set (d1 := set_velocity_windows d _) in *.
  destruct (engineer_features_ok d1 t (get_count w2)) as (f & Hf & Hv & _); [lia |].
  unfold process_transaction. rewrite Hcv, Hf. cbv zeta.
  destruct (Qleb _ _ || _).
  - unfold FraudAlert_new.
    match goal with
    | |- context [alert_valid ?a] => assert (Ha : alert_valid a = true)
    end.
    { unfold alert_valid. cbn [fraud_score].
      destruct (predict_range d1 f Hv) as [H0 H1].
      apply andb_true_intro. split; apply Qleb_le;
        destruct (_ <? _); try assumption.
      - apply Q.max_le_iff. now left.
      - apply Q.max_lub; [assumption | discriminate]. }
    rewrite Ha. do 2 eexists. split; [reflexivity |].
    destruct (_ <? _); exact Hwf1.
  - do 2 eexists. split; [reflexivity | exact Hwf1].
Qed.


(** C5: an emitted alert with [velocity_triggered = true] carries
    [max(score, 0.85)], hence at least 0.85; with
    [velocity_triggered = false] it carries the score unchanged. *)
Theorem alert_score_floor (d d' : FraudDetector) (t : Transaction)
    (latency : Q) (alert : FraudAlert)
    (Hret : process_transaction d t latency = (Ok (Some alert), d')) :
  exists triggered count d1 f,
    _check_velocity d (card_id t) (timestamp t) (amount t)
    = (Ok (triggered, count), d1) /\
    _engineer_features d1 t count = Ok f /\
    velocity_triggered alert = triggered /\
    (velocity_triggered alert = true ->
     fraud_score alert = Qmax (_predict d1 f) (85 # 100) /\
     (85 # 100 <= fraud_score alert)%Q) /\
    (velocity_triggered alert = false -> fraud_score alert = _predict d1 f).
Proof.
  destruct (process_transaction_inv _ _ _ _ _ Hret)
    as (triggered & count & d1 & f & Hcv & Hf & Hcases).
  exists triggered, count, d1, f.
  cbv zeta in Hcases. destruct Hcases as [(_ & Hr & _) | (_ & Hr & _)];
    [discriminate |].
  injection Hr as ->. unfold alert_of. cbn [velocity_triggered fraud_score].
  repeat (split; [assumption || reflexivity |]). split.
  - intros ->. split; [reflexivity | apply Q.le_max_r].
  - intros ->. reflexivity.
Qed.

(** C10: a call of [process_transaction] that returns adds exactly 1 to
    [transactions_processed]; without an alert the other two counters are
    unchanged; with an alert [alerts_generated] grows by exactly 1 and
    [velocity_violations] by 1 exactly when the alert has
    [velocity_triggered = true]. *)
Theorem counters_after_process (d d' : FraudDetector) (t : Transaction)
    (latency : Q) (r : option FraudAlert)
    (Hret : process_transaction d t latency = (Ok r, d')) :
  transactions_processed d' = transactions_processed d + 1 /\
  match r with
  | None =>
      alerts_generated d' = alerts_generated d /\
      velocity_violations d' = velocity_violations d
  | Some alert =>
      alerts_generated d' = alerts_generated d + 1 /\
      velocity_violations d'
      = velocity_violations d + (if velocity_triggered alert then 1 else 0)
  end.
Proof.
  destruct (process_transaction_inv _ _ _ _ _ Hret)
    as (triggered & count & d1 & f & Hcv & Hf & Hcases).
  destruct (check_velocity_inv _ _ _ _ _ _ _ Hcv)
    as (w & _ & _ & _ & _ & _ & _ & _ & Htp & Hag & Hvv).
  cbv zeta in Hcases. destruct Hcases as [(_ & -> & ->) | (_ & -> & ->)].
  - simpl. rewrite Htp, Hag, Hvv. auto.
  - unfold alert_of. cbn [velocity_triggered].
    destruct triggered; simpl; rewrite Htp, Hag, Hvv; repeat split; lia.
Qed.

(** C2 (as amended): the [amount_deviation] of the built features is
    [|amount - m| / m] capped at 5, where [m] is the mean of the card's
    window after the eviction and after the current event has been
    inserted (the window that [_check_velocity] stored, which ends with the
    current amount); it is 0 when that window holds a single entry, in
    particular for the first transaction of a card, and when [m <= 0]. *)
Theorem amount_deviation_of_updated_window (d : FraudDetector) (t : Transaction)
    (Hwf : detector_wf d) :
  let cutoff := timestamp t - timedelta_seconds (velocity_window_seconds (settings d)) in
  exists triggered count d1 w f,
    _check_velocity d (card_id t) (timestamp t) (amount t)
    = (Ok (triggered, count), d1) /\
    velocity_windows d1 !! card_id t = Some w /\
    entries w
    = List.filter (fun p => cutoff <=? fst p)
        (entries (default new_window (velocity_windows d !! card_id t)))
      ++ [(timestamp t, amount t)] /\
    _engineer_features d1 t count = Ok f /\
    amount_deviation f
    = (if 1 <? get_count w
       then deviation_from (Some (get_mean_amount w)) (amount t)
       else 0%Q) /\
    (velocity_windows d !! card_id t = None -> amount_deviation f = 0%Q).
Proof.
  intros cutoff.
  destruct (check_velocity_ok d (card_id t) (timestamp t) (amount t) Hwf)
    as (w1 & Hw1 & Hts & He & Hcv).
  cbv zeta in Hcv. fold cutoff in Hts, He.
  set (w2 := add_transaction w1 (timestamp t) (amount t)) in *.
  set (d1 := set_velocity_windows d _) in *.
  assert (Hlk : velocity_windows d1 !! card_id t = Some w2)
    by (simpl; apply lookup_insert_eq).
  destruct (engineer_features_ok d1 t (get_count w2)) as (f & Hf & _).
  { unfold get_count. lia. }
  destruct (engineer_features_inv _ _ _ _ Hf) as (_ & _ & Hdev).
  rewrite Hlk in Hdev.
  exists (velocity_threshold (settings d) <? get_count w2), (get_count w2), d1, w2, f.
  split; [exact Hcv |]. split; [exact Hlk |]. split; [| split; [exact Hf |]].
  - unfold entries at 1, w2, add_transaction. simpl.
    rewrite combine_snoc by exact Hw1. fold (entries w1). now rewrite He.
  - assert (Hform : amount_deviation f
                    = (if 1 <? get_count w2
                       then deviation_from (Some (get_mean_amount w2)) (amount t)
                       else 0%Q)).
    { rewrite Hdev. unfold deviation_from.
      destruct (1 <? get_count w2); [| reflexivity].
      destruct (Qltb 0 (get_mean_amount w2)); reflexivity. }
    split; [exact Hform |].
    intros Hnone. rewrite Hform.
    replace (get_count w2) with 1; [reflexivity |].
    unfold get_count, w2, add_transaction. simpl.
    rewrite Hts, Hnone. reflexivity.
Qed.

(** ** Dead-letter routing *)

Lemma check_velocity_settings (d d1 : FraudDetector) (card : string) (ts : Z)
    (amt : Q) (r : result (bool * Z)) :
  _check_velocity d card ts amt = (r, d1) -> settings d1 = settings d.
Proof.
  unfold _check_velocity.
  destruct (cleanup _ _ _) as [[[]|e] w]; intros [= <- <-]; reflexivity.
Qed.

Lemma process_transaction_settings (d d' : FraudDetector) (t : Transaction)
    (latency : Q) (r : result (option FraudAlert)) :
  process_transaction d t latency = (r, d') -> settings d' = settings d.
Proof.
  unfold process_transaction.
  destruct (_check_velocity d (card_id t) (timestamp t) (amount t))
    as [[[triggered count]|e] d1] eqn:Ecv;
    apply check_velocity_settings in Ecv; [| now intros [= <- <-]].
  destruct (_engineer_features d1 t count); [| now intros [= <- <-]].
  cbv zeta. destruct (_ || _); [| now intros [= <- <-]].
  destruct (FraudAlert_new _); intros [= <- <-]; destruct triggered; exact Ecv.
Qed.

Lemma send_to_dead_letter_queue_delivers (app : App) (send : Producer)
    (message : pystr) (kind : string) (e : exn) (p o : option Z) :
  kafka_producer app = Some send ->
  (forall m, send (kafka_dlq_topic (settings (fraud_detector app))) (DeadLetterJson m)
             = Ok tt) ->
  let app' := send_to_dead_letter_queue app message kind e p o in
  exists m,
    delivered app'
    = delivered app ++ [(kafka_dlq_topic (settings (fraud_detector app)), DeadLetterJson m)] /\
    broadcasts app' = broadcasts app /\
    dlq_count app' = dlq_count app + 1 /\
    fraud_detector app' = fraud_detector app /\
    error_type m = kind /\ original_message m = take 1000 message /\
    partition m = p /\ offset m = o.
Proof.
  intros Hp Hs. unfold send_to_dead_letter_queue. rewrite Hp, Hs. simpl.
  eexists. repeat split.
Qed.

Lemma dead_letters_snoc (app app' : App) (tp : string) (m : DeadLetterMessage) :
  delivered app' = delivered app ++ [(tp, DeadLetterJson m)] ->
  dead_letters app' = dead_letters app ++ [m] /\
  published_alerts app' = published_alerts app.
Proof.
  intros H. unfold dead_letters, published_alerts.
  rewrite H, !List.flat_map_app. simpl. rewrite app_nil_r. auto.
Qed.

(** C3 (as amended): when the Kafka producer exists and accepts the
    record, every input record that is rejected produces exactly one
    dead-letter record and no alert (none published, none broadcast).  Text
    that is not JSON gives [error_type] ["JSONDecodeError"] and a schema
    failure gives ["ValidationError"], both with the decoded text cut to
    its first 1000 characters; any other exception gives
    ["ProcessingError"] with the printed form of the raw bytes cut to its
    first 500 characters.  Without a producer no dead-letter record is
    produced (and no alert either). *)
Theorem dead_letter_routing (app : App) (msg : Msg) (latency : Q)
    (kind : string) (text : pystr)
    (Hrejected : Rejected app msg latency kind text) :
  let app' := process_message app msg latency in
  let dlq_topic := kafka_dlq_topic (settings (fraud_detector app)) in
  (forall send : Producer,
      kafka_producer app = Some send ->
      (forall m, send dlq_topic (DeadLetterJson m) = Ok tt) ->
      exists m,
        delivered app' = delivered app ++ [(dlq_topic, DeadLetterJson m)] /\
        dead_letters app' = dead_letters app ++ [m] /\
        published_alerts app' = published_alerts app /\
        broadcasts app' = broadcasts app /\
        dlq_count app' = dlq_count app + 1 /\
        error_type m = kind /\
        original_message m = text /\
        (length (original_message m) <= 1000)%nat /\
        partition m = Some (msg_partition msg) /\
        offset m = Some (msg_offset msg)) /\
  (kafka_producer app = None ->
   delivered app' = delivered app /\ broadcasts app' = broadcasts app /\
   dlq_count app' = dlq_count app).
Proof.
  intros app' dlq_topic.
  assert (H500 : forall l : pystr, take 1000 (take 500 l) = take 500 l).
  { intros l. rewrite take_take. reflexivity. }
  split.
  - intros send Hproducer Hsend.
    assert (Hgoal : forall app0 message e,
               kafka_producer app0 = Some send ->
               settings (fraud_detector app0) = settings (fraud_detector app) ->
               delivered app0 = delivered app ->
               broadcasts app0 = broadcasts app ->
               dlq_count app0 = dlq_count app ->
               take 1000 message = text ->
               let app1 := send_to_dead_letter_queue app0 message kind e
                             (Some (msg_partition msg)) (Some (msg_offset msg)) in
               exists m,
                 delivered app1 = delivered app ++ [(dlq_topic, DeadLetterJson m)] /\
                 dead_letters app1 = dead_letters app ++ [m] /\
                 published_alerts app1 = published_alerts app /\
                 broadcasts app1 = broadcasts app /\
                 dlq_count app1 = dlq_count app + 1 /\
                 error_type m = kind /\
                 original_message m = text /\
                 (length (original_message m) <= 1000)%nat /\
                 partition m = Some (msg_partition msg) /\
                 offset m = Some (msg_offset msg)).
    { intros app0 message e Hp Hs Hd Hb Hc Ht app1.
      destruct (send_to_dead_letter_queue_delivers app0 send message kind e
                  (Some (msg_partition msg)) (Some (msg_offset msg)) Hp)
        as (m & Hdel & Hbr & Hcnt & _ & Hk & Hm & Hpa & Hof).
      { intros m. rewrite Hs. apply Hsend. }
      cbv zeta in Hdel, Hbr, Hcnt. fold app1 in Hdel, Hbr, Hcnt.
      rewrite Hs, Hd in Hdel. fold dlq_topic in Hdel.
      destruct (dead_letters_snoc app _ _ m Hdel) as [Hdl Hpub].
      exists m. rewrite Hm, Ht.
      repeat (split; [congruence |]).
      split; [| split; assumption].
      rewrite <- Ht, length_take. lia. }
    subst app'. unfold process_message, processing_error.
    destruct Hrejected as [raw Hd Hj | raw data e Hd Hj Hv | e Hd | raw e Hd Hj Hne
                          | raw data t e d Hd Hj Hv Hp].
    + rewrite Hd, Hj. now apply (Hgoal app).
    + rewrite Hd, Hj, Hv. now apply (Hgoal app).
    + rewrite Hd. now apply (Hgoal app).
    + rewrite Hd, Hj. destruct e; try contradiction; now apply (Hgoal app).
    + rewrite Hd, Hj, Hv, Hp.
      apply (Hgoal (set_fraud_detector app d)); auto.
      simpl. eapply process_transaction_settings. exact Hp.
  - intros Hnone. subst app'.
    unfold process_message, processing_error, send_to_dead_letter_queue.
    destruct Hrejected as [raw Hd Hj | raw data e Hd Hj Hv | e Hd | raw e Hd Hj Hne
                          | raw data t e d Hd Hj Hv Hp].
    + rewrite Hd, Hj, Hnone. auto.
    + rewrite Hd, Hj, Hv, Hnone. auto.
    + rewrite Hd, Hnone. auto.
    + rewrite Hd, Hj. destruct e; try contradiction; rewrite Hnone; auto.
    + rewrite Hd, Hj, Hv, Hp. simpl. rewrite Hnone. auto.
Qed.

(** Without a producer, or when the producer refuses the record, nothing
    reaches the dead-letter topic. *)
Lemma dead_letter_dropped (app : App) (message : pystr) (kind : string) (e : exn)
    (p o : option Z) :
  (kafka_producer app = None \/
   exists send, kafka_producer app = Some send /\
                forall tp m, send tp m = Raise KafkaError) ->
  send_to_dead_letter_queue app message kind e p o = app.
Proof.
  unfold send_to_dead_letter_queue. intros [-> | (send & -> & Hs)]; [reflexivity |].
  now rewrite Hs.
Qed.

(** ** Risk levels and fraud reasons *)

Lemma Qleb_gt (x y : Q) : Qleb x y = false <-> (y < x)%Q.
Proof.
  unfold Qleb. split.
  - intros H. apply Qnot_le_lt. intros Hle. apply Qle_bool_iff in Hle. congruence.
  - intros H. destruct (Qle_bool x y) eqn:E; [| reflexivity].
    apply Qle_bool_iff in E. exfalso. exact (Qlt_not_le _ _ H E).
Qed.

Lemma Qltb_ge (x y : Q) : Qltb x y = false <-> (y <= x)%Q.
Proof.
  unfold Qltb. rewrite negb_false_iff. apply Qle_bool_iff.
Qed.

(** Turns the boolean comparisons in the context into inequalities. *)
Ltac reflect_Q :=
  repeat match goal with
    | H : Qleb _ _ = true |- _ => apply Qleb_le in H
    | H : Qleb _ _ = false |- _ => apply Qleb_gt in H
    | H : Qltb _ _ = true |- _ => apply Qltb_lt in H
    | H : Qltb _ _ = false |- _ => apply Qltb_ge in H
    end.

(** X1: the risk level never decreases when the score grows (LOW below
    MEDIUM below HIGH below CRITICAL), and the steps are at 0.5, 0.75 and
    0.9, each bound belonging to the higher level. *)
Theorem risk_level_monotone (s1 s2 : Q) (Hle : (s1 <= s2)%Q) :
  risk_rank (_get_risk_level s1) <= risk_rank (_get_risk_level s2) /\
  (_get_risk_level s1 = CRITICAL <-> (9 # 10 <= s1)%Q) /\
  (_get_risk_level s1 = HIGH <-> (75 # 100 <= s1 < 9 # 10)%Q) /\
  (_get_risk_level s1 = MEDIUM <-> (5 # 10 <= s1 < 75 # 100)%Q) /\
  (_get_risk_level s1 = LOW <-> (s1 < 5 # 10)%Q).
Proof.
  unfold _get_risk_level.
  destruct (Qleb (9 # 10) s1) eqn:A1, (Qleb (75 # 100) s1) eqn:B1,
           (Qleb (5 # 10) s1) eqn:C1,
           (Qleb (9 # 10) s2) eqn:A2, (Qleb (75 # 100) s2) eqn:B2,
           (Qleb (5 # 10) s2) eqn:C2;
    reflect_Q; simpl;
    (split; [try lia; exfalso; lra |]);
    repeat split; intros; try discriminate; try reflexivity; try lra.
Qed.

(** X2: an alert returned by [process_transaction] copies the identifying
    fields of the transaction, carries a score in [0, 1] and a count of at
    least 1, and its stored [risk_level] is the one that
    [FraudAlert.get_risk_level] computes from its score; a velocity alert is
    HIGH or CRITICAL. *)
Theorem returned_alert_consistent (d d' : FraudDetector) (t : Transaction)
    (latency : Q) (alert : FraudAlert)
    (Hret : process_transaction d t latency = (Ok (Some alert), d')) :
  alert_transaction_id alert = transaction_id t /\
  alert_card_id alert = card_id t /\
  alert_amount alert = amount t /\
  alert_timestamp alert = timestamp t /\
  latency_ms alert = latency /\
  (0 <= fraud_score alert <= 1)%Q /\
  1 <= alert_velocity_count alert /\
  risk_level alert = get_risk_level alert /\
  (velocity_triggered alert = true ->
   risk_level alert = HIGH \/ risk_level alert = CRITICAL).
Proof.
  destruct (process_transaction_inv _ _ _ _ _ Hret)
    as (triggered & count & d1 & f & Hcv & Hf & Hcases).
  destruct (check_velocity_inv _ _ _ _ _ _ _ Hcv) as (w & _ & _ & _ & Hpos & _).
  destruct (engineer_features_inv _ _ _ _ Hf) as (Hv & _).
  destruct (predict_range d1 f Hv) as [H0 H1].
  cbv zeta in Hcases. destruct Hcases as [(_ & Hr & _) | (_ & Hr & _)];
    [discriminate |].
  injection Hr as ->. unfold alert_of, get_risk_level.
  cbn [alert_transaction_id alert_card_id alert_amount alert_timestamp latency_ms
       fraud_score alert_velocity_count risk_level velocity_triggered].
  repeat (split; [reflexivity |]).
  split; [| split; [exact Hpos | split; [reflexivity |]]].
  - destruct triggered; [| split; assumption]. split.
    + apply Q.max_le_iff. now left.
    + apply Q.max_lub; [assumption | discriminate].
  - intros ->. unfold _get_risk_level.
    assert (Hfloor : (85 # 100 <= Qmax (_predict d1 f) (85 # 100))%Q)
      by apply Q.le_max_r.
    destruct (Qleb (9 # 10) _) eqn:A; [now right |].
    destruct (Qleb (75 # 100) _) eqn:B; [now left |].
    reflect_Q. exfalso. lra.
Qed.

(** X3: the list of reason clauses is never empty; a velocity violation
    always comes first; the clauses for amount, location and time are
    present exactly when their tests hold; "ML model high confidence" and
    "Multiple risk factors" only ever stand alone, the first for a score of
    at least 0.8 and the second below it. *)
Theorem fraud_reason_structure (score : Q) (triggered : bool) (count : Z)
    (f : TransactionFeatures) :
  let reasons := _determine_fraud_reason score triggered count f in
  reasons <> [] /\
  (triggered = true <-> hd_error reasons = Some (VelocityViolation count)) /\
  (In (UnusualAmount (amount_deviation f)) reasons <-> (2 < amount_deviation f)%Q) /\
  (In HighRiskLocation reasons <-> (5 # 10 < location_risk f)%Q) /\
  (In SuspiciousTime reasons <-> 2 <= hour_of_day f <= 5) /\
  (In ModelHighConfidence reasons ->
   reasons = [ModelHighConfidence] /\ (8 # 10 <= score)%Q) /\
  (In MultipleRiskFactors reasons ->
   reasons = [MultipleRiskFactors] /\ (score < 8 # 10)%Q).
Proof.
  intros reasons. subst reasons. unfold _determine_fraud_reason.
  assert (Hhour : (2 <=? hour_of_day f) && (hour_of_day f <=? 5) = true
                  <-> 2 <= hour_of_day f <= 5).
  { rewrite andb_true_iff, !Z.leb_le. reflexivity. }
  destruct triggered,
           (Qltb 2 (amount_deviation f)) eqn:Edev,
           (Qltb (5 # 10) (location_risk f)) eqn:Eloc,
           ((2 <=? hour_of_day f) && (hour_of_day f <=? 5)) eqn:Ehour,
           (Qleb (8 # 10) score) eqn:Escore;
    cbn -[Qlt Qle];
    reflect_Q;
    (split; [discriminate |]);
    (split; [split; [reflexivity || discriminate | congruence] |]);
    (split; [split; [intros; assumption || (exfalso; tauto || (intuition discriminate))
                    | intros; auto 10 || (exfalso; lra)] |]);
    (split; [split; [intros; assumption || (exfalso; tauto || (intuition discriminate))
                    | intros; auto 10 || (exfalso; lra)] |]);
    (split; [split; [intros H; (apply Hhour; reflexivity) || (exfalso; intuition discriminate)
                    | intros H; auto 10 || (apply Hhour in H; discriminate)] |]);
    (split; intros H; [| ]);
    try (exfalso; simpl in H; intuition discriminate);
    (split; [reflexivity | assumption]).
Qed.

(** ** Feature engineering *)

(** The feature record that [_engineer_features] builds. *)
Lemma engineer_features_eq (d : FraudDetector) (t : Transaction) (count : Z)
    (f : TransactionFeatures) :
  _engineer_features d t count = Ok f ->
  amount_normalized f = Qmin (amount t / 10000) 1 /\
  hour_of_day f = hour (timestamp t) /\
  day_of_week f = weekday (timestamp t) /\
  is_weekend f = (5 <=? weekday (timestamp t)) /\
  merchant_category_encoded f
  = dict_get MERCHANT_CATEGORIES (lower (merchant_category t))
      (dict_get MERCHANT_CATEGORIES "other" 10) /\
  location_risk f
  = (if existsb (fun risk => contains risk (lower (location t))) HIGH_RISK_LOCATIONS
     then (8 # 10)%Q else (2 # 10)%Q).
Proof.
  unfold _engineer_features. cbv zeta. unfold TransactionFeatures_new.
  match goal with
  | |- context [features_valid ?x] => destruct (features_valid x)
  end; [| discriminate].
  intros [= <-]. repeat split.
Qed.

Lemma dict_get_range (table : list (string * Z)) (key : string) (default lo hi : Z) :
  Forall (fun entry => lo <= snd entry <= hi) table ->
  lo <= default <= hi ->
  lo <= dict_get table key default <= hi.
Proof.
  intros Htable Hd. induction Htable as [|[k v] table Hv _ IH]; simpl.
  - exact Hd.
  - destruct (String.eqb k key); [exact Hv | exact IH].
Qed.

Lemma dict_get_missing (table : list (string * Z)) (key : string) (default : Z) :
  (forall name code, In (name, code) table -> key <> name) ->
  dict_get table key default = default.
Proof.
  induction table as [|[k v] table IH]; intros Hmiss; simpl; [reflexivity |].
  destruct (String.eqb_spec k key) as [-> | _].
  - exfalso. apply (Hmiss key v); [now left | reflexivity].
  - apply IH. intros name code Hin. apply (Hmiss name code). now right.
Qed.

(** X4: for a transaction with a non-negative amount the engineered
    features are in their documented ranges: the normalised amount in
    [0, 1], the deviation in [0, 5], the location risk 0.2 or 0.8, the
    merchant code in [0, 10], the hour in [0, 23], the day in [0, 6], and
    [is_weekend] set exactly on days 5 and 6. *)
Theorem engineered_features_ranges (d : FraudDetector) (t : Transaction)
    (count : Z) (f : TransactionFeatures)
    (Hamount : (0 <= amount t)%Q)
    (Hf : _engineer_features d t count = Ok f) :
  (0 <= amount_normalized f <= 1)%Q /\
  (0 <= amount_deviation f <= 5)%Q /\
  (location_risk f = (2 # 10)%Q \/ location_risk f = (8 # 10)%Q) /\
  0 <= merchant_category_encoded f <= 10 /\
  0 <= hour_of_day f <= 23 /\
  0 <= day_of_week f <= 6 /\
  (is_weekend f = true <-> 5 <= day_of_week f) /\
  velocity_count f = count.
Proof.
  destruct (engineer_features_eq _ _ _ _ Hf) as (Hn & Hh & Hd & Hw & Hm & Hl).
  destruct (engineer_features_inv _ _ _ _ Hf) as (_ & Hc & Hdev).
  split; [| split; [| split; [| split; [| split; [| split; [| split]]]]]].
  - rewrite Hn. split; [| apply Q.le_min_r].
    apply Q.min_glb; [| discriminate].
    apply Qle_shift_div_l; [reflexivity | lra].
  - rewrite Hdev. split; [| apply Q.le_min_r].
    apply Q.min_glb; [| discriminate].
    destruct (velocity_windows d !! card_id t) as [w|]; [| discriminate].
    destruct (1 <? get_count w); [| discriminate].
    destruct (Qltb 0 (get_mean_amount w)) eqn:Em; [| discriminate].
    reflect_Q. apply Qle_shift_div_l; [exact Em |].
    rewrite Qmult_0_l. apply Qabs_nonneg.
  - rewrite Hl. destruct (existsb _ _); auto.
  - rewrite Hm. apply dict_get_range; [| reflexivity || (simpl; lia)].
    unfold MERCHANT_CATEGORIES. repeat constructor; simpl; lia.
  - rewrite Hh. apply hour_range.
  - rewrite Hd. apply weekday_range.
  - rewrite Hw, Hd. apply Z.leb_le.
  - exact Hc.
Qed.

(** X5: the merchant category is encoded without regard to case: a
    category whose lower-case form is one of the eleven names of the table
    gets the code of that name, and every other category gets 10, the code
    of "other". *)
Theorem merchant_category_encoding (d : FraudDetector) (t : Transaction)
    (count : Z) (f : TransactionFeatures)
    (Hf : _engineer_features d t count = Ok f) :
  (forall name code,
      In (name, code) MERCHANT_CATEGORIES ->
      lower (merchant_category t) = name ->
      merchant_category_encoded f = code) /\
  ((forall name code,
       In (name, code) MERCHANT_CATEGORIES ->
       lower (merchant_category t) <> name) ->
   merchant_category_encoded f = 10).
Proof.
  destruct (engineer_features_eq _ _ _ _ Hf) as (_ & _ & _ & _ & Hm & _).
  rewrite Hm. split.
  - intros name code Hin Hname. rewrite Hname.
    unfold MERCHANT_CATEGORIES in Hin. simpl in Hin.
    repeat (destruct Hin as [Hin | Hin]; [injection Hin as <- <-; reflexivity |]).
    destruct Hin.
  - intros Hmiss. now apply dict_get_missing.
Qed.

Lemma string_app_cons (c : ascii) (a b : string) :
  (String c a ++ b)%string = String c (a ++ b)%string.
Proof. reflexivity. Qed.

Lemma string_app_nil (b : string) : (EmptyString ++ b)%string = b.
Proof. reflexivity. Qed.

Lemma lower_app (a b : string) : lower (a ++ b) = (lower a ++ lower b)%string.
Proof.
  induction a as [|c a IH]; [reflexivity |].
  rewrite string_app_cons. cbn [lower]. rewrite string_app_cons. now rewrite IH.
Qed.

Lemma string_prefix_spec (a b : string) :
  String.prefix a b = true <-> exists post, b = (a ++ post)%string.
Proof.
  revert b. induction a as [|c a IH]; intros b.
  - split; [intros _; now exists b | intros _; destruct b; reflexivity].
  - destruct b as [|c' b]; simpl.
    { split; [discriminate | intros [post H]; discriminate]. }
    destruct (Ascii.ascii_dec c c') as [-> | Hne].
    + rewrite IH. split; intros [post H]; exists post;
        rewrite string_app_cons in *; congruence.
    + split; [discriminate |].
      intros [post H]. rewrite string_app_cons in H. congruence.
Qed.

(** [contains] is the substring test. *)
Lemma contains_spec (needle hay : string) :
  contains needle hay = true
  <-> exists pre post, hay = (pre ++ needle ++ post)%string.
Proof.
  induction hay as [|c hay IH].
  - cbn [contains]. rewrite orb_false_r, string_prefix_spec. split.
    + intros [post H]. now exists EmptyString, post.
    + intros (pre & post & H). destruct pre; [now exists post | discriminate].
  - cbn [contains]. rewrite orb_true_iff, string_prefix_spec, IH. split.
    + intros [[post H] | (pre & post & H)].
      * now exists EmptyString, post.
      * exists (String c pre), post. rewrite string_app_cons. now rewrite H.
    + intros (pre & post & H). destruct pre as [|c' pre].
      * left. now exists post.
      * right. rewrite string_app_cons in H. injection H as _ H.
        now exists pre, post.
Qed.

(** X6: for a location made of ASCII characters (on these [lower] is
    [str.lower()]) the location risk is 0.8 exactly when the lower-case
    form of the location has "unknown", "vpn", "tor" or "proxy" somewhere
    inside it, as a substring and not as a word (so a location that merely
    contains the letters "tor" is of high risk); otherwise it is 0.2. *)
Theorem location_risk_by_substring (d : FraudDetector) (t : Transaction)
    (count : Z) (f : TransactionFeatures)
    (Hascii : is_ascii (location t) = true)
    (Hf : _engineer_features d t count = Ok f) :
  (location_risk f = (8 # 10)%Q
   <-> exists risk pre post,
         In risk HIGH_RISK_LOCATIONS /\
         lower (location t) = (pre ++ risk ++ post)%string) /\
  (location_risk f = (2 # 10)%Q
   <-> ~ exists risk pre post,
           In risk HIGH_RISK_LOCATIONS /\
           lower (location t) = (pre ++ risk ++ post)%string) /\
  (forall risk pre post,
      In risk HIGH_RISK_LOCATIONS ->
      location t = (pre ++ risk ++ post)%string ->
      location_risk f = (8 # 10)%Q).
Proof.
  destruct (engineer_features_eq _ _ _ _ Hf) as (_ & _ & _ & _ & _ & Hl).
  assert (Hex : existsb (fun risk => contains risk (lower (location t)))
                  HIGH_RISK_LOCATIONS = true
                <-> exists risk pre post,
                      In risk HIGH_RISK_LOCATIONS /\
                      lower (location t) = (pre ++ risk ++ post)%string).
  { rewrite List.existsb_exists. split.
    - intros (risk & Hin & Hc). apply contains_spec in Hc.
      destruct Hc as (pre & post & Hc). now exists risk, pre, post.
    - intros (risk & pre & post & Hin & Hc). exists risk. split; [exact Hin |].
      apply contains_spec. now exists pre, post. }
  assert (Hhigh : location_risk f = (8 # 10)%Q
                  <-> exists risk pre post,
                        In risk HIGH_RISK_LOCATIONS /\
                        lower (location t) = (pre ++ risk ++ post)%string).
  { rewrite <- Hex, Hl. destruct (existsb _ _); split; auto; discriminate. }
  split; [exact Hhigh |]. split.
  - rewrite <- Hex, Hl. destruct (existsb _ _); split; auto; try discriminate.
    intros H. exfalso. now apply H.
  - intros risk pre post Hin Hloc. apply Hhigh.
    exists risk, (lower pre), (lower post). split; [exact Hin |].
    rewrite Hloc, !lower_app. f_equal. f_equal.
    unfold HIGH_RISK_LOCATIONS in Hin. simpl in Hin.
    repeat (destruct Hin as [<- | Hin]; [reflexivity |]). destruct Hin.
Qed.

(** ** The sliding window over a run of events *)

(** One observation on the list of retained pairs. *)
Lemma observe_all_entries (d : FraudDetector) (card : string) (events : list (Z * Q)) :
  detector_wf d ->
  let W := timedelta_seconds (velocity_window_seconds (settings d)) in
  exists d',
    observe_all d card events = (Ok tt, d') /\
    detector_wf d' /\ settings d' = settings d /\
    entries (default new_window (velocity_windows d' !! card))
    = fold_left
        (fun acc p => List.filter (fun q => fst p - W <=? fst q) acc ++ [p])
        events
        (entries (default new_window (velocity_windows d !! card))).
Proof.
  intros Hwf W. subst W. revert d Hwf.
  induction events as [|[ts amt] events IH]; intros d Hwf.
  - exists d. simpl. auto.
  - destruct (check_velocity_ok d card ts amt Hwf) as (w1 & Hw1 & _ & He & Heq).
    cbv zeta in Heq.
    destruct (check_velocity_wf _ _ _ _ _ _ Hwf Heq) as [Hwf' Hs].
    destruct (IH _ Hwf') as (d' & Ho & Hwf'' & Hs' & Hent).
    exists d'. cbn [observe_all fold_left]. rewrite Heq.
    split; [exact Ho |]. split; [exact Hwf'' |]. split; [congruence |].
    assert (Hinit : entries (add_transaction w1 ts amt)
                    = List.filter
                        (fun q => ts - timedelta_seconds
                                         (velocity_window_seconds (settings d))
                                  <=? fst q)
                        (entries (default new_window (velocity_windows d !! card)))
                      ++ [(ts, amt)]).
    { unfold entries at 1, add_transaction. cbn [timestamps amounts].
      rewrite combine_snoc by exact Hw1. fold (entries w1). now rewrite He. }
    rewrite Hent, Hs.
    cbn [velocity_windows set_velocity_windows]. rewrite lookup_insert_eq.
    cbn [default]. unfold id. rewrite Hinit. reflexivity.
Qed.

Lemma filter_filter_weaker {A : Type} (p q : A -> bool) (l : list A) :
  (forall x, p x = true -> q x = true) ->
  List.filter p (List.filter q l) = List.filter p l.
Proof.
  intros Hpq. induction l as [|x l IH]; simpl; [reflexivity |].
  destruct (q x) eqn:Eq; simpl.
  - now rewrite IH.
  - destruct (p x) eqn:Ep; [| exact IH].
    apply Hpq in Ep. congruence.
Qed.

(** For timestamps in non-decreasing order, evicting at every event is the
    same as filtering the whole run once, at the last event. *)
Lemma sliding_window_fold (W : Z) (events : list (Z * Q)) (last : Z * Q) :
  0 <= W ->
  StronglySorted Z.le (List.map fst (events ++ [last])) ->
  fold_left
    (fun acc p => List.filter (fun q => fst p - W <=? fst q) acc ++ [p])
    (events ++ [last]) []
  = List.filter (fun q => fst last - W <=? fst q) (events ++ [last]).
Proof.
  intros HW. revert last.
  induction events as [|prev events IH] using rev_ind; intros last Hs.
  - simpl. replace (fst last - W <=? fst last) with true; [reflexivity |].
    symmetry. apply Z.leb_le. lia.
  - rewrite fold_left_app. cbn [fold_left].
    rewrite List.map_app in Hs.
    assert (Hprev : fst prev <= fst last).
    { apply (StronglySorted_app_1_elem_of _ _ _ _ _ Hs).
      - rewrite List.map_app. apply elem_of_app. right. simpl. apply list_elem_of_here.
      - simpl. apply list_elem_of_here. }
    rewrite IH by exact (StronglySorted_app_1_l _ _ _ Hs).
    rewrite filter_filter_weaker.
    + rewrite (List.filter_app _ (events ++ [prev]) [last]). simpl.
      replace (fst last - W <=? fst last) with true; [reflexivity |].
      symmetry. apply Z.leb_le. lia.
    + intros x Hx. apply Z.leb_le. apply Z.leb_le in Hx. lia.
Qed.

(** X7: for a card not seen before and events that arrive with
    non-decreasing timestamps (and a window length [W >= 0]), the window
    after the last event holds exactly the events of the run that are at
    most [W] seconds older than the last one, in their order, and the
    count returned is their number: the velocity count is the number of
    transactions of the card within the last [W] seconds. *)
Theorem velocity_count_is_window_population (d : FraudDetector) (card : string)
    (events : list (Z * Q)) (ts_n : Z) (a_n : Q)
    (Hwf : detector_wf d)
    (Hnew : velocity_windows d !! card = None)
    (HW : 0 <= velocity_window_seconds (settings d))
    (Hsorted : StronglySorted Z.le (List.map fst (events ++ [(ts_n, a_n)]))) :
  let cutoff := ts_n - timedelta_seconds (velocity_window_seconds (settings d)) in
  let recent := List.filter (fun q => cutoff <=? fst q) (events ++ [(ts_n, a_n)]) in
  exists d1 triggered count d2 w,
    observe_all d card events = (Ok tt, d1) /\
    _check_velocity d1 card ts_n a_n = (Ok (triggered, count), d2) /\
    velocity_windows d2 !! card = Some w /\
    entries w = recent /\
    count = Z.of_nat (length recent) /\
    (triggered = true <-> velocity_threshold (settings d) < Z.of_nat (length recent)).
Proof.
  intros cutoff recent.
  destruct (observe_all_entries d card (events ++ [(ts_n, a_n)]) Hwf)
    as (d2 & Ho & Hwf2 & Hs2 & Hent).
  cbv zeta in Hent. rewrite Hnew in Hent. cbn [default] in Hent.
  change (entries new_window) with (@nil (Z * Q)) in Hent.
  rewrite sliding_window_fold in Hent; [| unfold timedelta_seconds, usec_per_second; lia
                                          | exact Hsorted].
  cbn [fst] in Hent. fold cutoff in Hent. fold recent in Hent.
  destruct (observe_all_ok d card events Hwf) as (d1 & Ho1 & Hwf1 & Hs1).
  destruct (check_velocity_ok d1 card ts_n a_n Hwf1) as (w1 & Hw1 & _ & _ & Hcv).
  cbv zeta in Hcv.
  assert (Hsplit : observe_all d card (events ++ [(ts_n, a_n)])
                   = (Ok tt, set_velocity_windows d1
                               (<[card := add_transaction w1 ts_n a_n]>
                                  (velocity_windows d1)))).
  { clear - Ho1 Hcv. revert d Ho1.
    induction events as [|[ts amt] events IH]; intros d Ho1; simpl in *.
    - injection Ho1 as ->. now rewrite Hcv.
    - destruct (_check_velocity d card ts amt) as [[r|e] d0]; [| discriminate].
      now apply IH. }
  rewrite Hsplit in Ho. injection Ho as <-.
  cbn [velocity_windows set_velocity_windows] in Hent.
  rewrite lookup_insert_eq in Hent. cbn [default] in Hent. unfold id in Hent.
  set (w := add_transaction w1 ts_n a_n) in *.
  assert (Hcount : get_count w = Z.of_nat (length recent)).
  { assert (Hw : window_wf w) by now apply add_transaction_wf.
    unfold window_wf in Hw.
    pose proof (length_combine (timestamps w) (amounts w)) as Hlen.
    fold (entries w) in Hlen. rewrite Hent in Hlen.
    unfold get_count. lia. }
  exists d1, (velocity_threshold (settings d1) <? get_count w), (get_count w),
    (set_velocity_windows d1 (<[card := w]> (velocity_windows d1))), w.
  split; [exact Ho1 |]. split; [exact Hcv |].
  split; [simpl; apply lookup_insert_eq |].
  split; [exact Hent |]. split; [exact Hcount |].
  rewrite Hs1, Hcount. apply Z.ltb_lt.
Qed.

(** X8: one observation, on any well-formed detector: the count is at
    least 1 and at most one more than the card had; with [W >= 0] the
    entries that are not older than the event are all kept, so an event
    that arrives late evicts nothing newer than itself; the windows of the
    other cards, the settings, the model and the counters are not
    touched. *)
Theorem velocity_check_step (d : FraudDetector) (card : string) (ts : Z) (amt : Q)
    (Hwf : detector_wf d) :
  let w0 := default new_window (velocity_windows d !! card) in
  exists triggered count d' w,
    _check_velocity d card ts amt = (Ok (triggered, count), d') /\
    velocity_windows d' !! card = Some w /\
    1 <= count <= get_count w0 + 1 /\
    (0 <= velocity_window_seconds (settings d) ->
     forall entry_ts a, In (entry_ts, a) (entries w0) -> ts <= entry_ts ->
                        In (entry_ts, a) (entries w)) /\
    (forall other, other <> card ->
                   velocity_windows d' !! other = velocity_windows d !! other) /\
    settings d' = settings d /\ model d' = model d /\ scaler d' = scaler d /\
    transactions_processed d' = transactions_processed d /\
    alerts_generated d' = alerts_generated d /\
    velocity_violations d' = velocity_violations d.
Proof.
  intros w0.
  destruct (check_velocity_ok d card ts amt Hwf) as (w1 & Hw1 & Hts & He & Hcv).
  cbv zeta in Hcv. fold w0 in Hts, He.
  do 3 eexists. exists (add_transaction w1 ts amt).
  split; [exact Hcv |]. split; [simpl; apply lookup_insert_eq |].
  split; [| split; [| split; [| repeat split]]].
  - unfold get_count, add_transaction. cbn [timestamps].
    rewrite length_app, Hts. simpl.
    pose proof (List.filter_length_le
                  (fun e => ts - timedelta_seconds (velocity_window_seconds (settings d))
                            <=? e)
                  (timestamps w0)). lia.
  - intros HW e a Hin Hle. unfold entries at 1, add_transaction.
    cbn [timestamps amounts]. rewrite combine_snoc by exact Hw1.
    fold (entries w1). rewrite He. apply List.in_or_app. left.
    apply List.filter_In. split; [exact Hin |]. simpl. apply Z.leb_le.
    unfold timedelta_seconds, usec_per_second. lia.
  - intros other Hne. simpl. now apply lookup_insert_ne.
Qed.

(** ** More on the janitor *)

Lemma cleanup_old_windows_eq (d : FraudDetector) (now : Z)
    (vw : gmap string TransactionWindow) :
  (forall card, velocity_windows (cleanup_old_windows d now) !! card = vw !! card) ->
  cleanup_old_windows d now = set_velocity_windows d vw.
Proof.
  intros H. unfold cleanup_old_windows in *. cbv zeta in *.
  unfold set_velocity_windows in *. cbn [velocity_windows] in H.
  f_equal. apply map_eq. exact H.
Qed.

(** X9: a run of the janitor only removes windows: a window that is left is
    the one that was there, unchanged, and the number of tracked cards does
    not grow; the settings, the model and the three counters are not
    touched; running it again at the same time changes nothing, and a run
    at a later time removes whatever an earlier run would have removed. *)
Theorem janitor_only_removes (d : FraudDetector) (now later : Z)
    (Hlater : now <= later) :
  let d' := cleanup_old_windows d now in
  (forall card w, velocity_windows d' !! card = Some w ->
                  velocity_windows d !! card = Some w) /\
  (active_cards_tracked (get_stats d') <= active_cards_tracked (get_stats d))%nat /\
  settings d' = settings d /\ model d' = model d /\ scaler d' = scaler d /\
  transactions_processed d' = transactions_processed d /\
  alerts_generated d' = alerts_generated d /\
  velocity_violations d' = velocity_violations d /\
  cleanup_old_windows d' now = d' /\
  cleanup_old_windows d' later = cleanup_old_windows d later.
Proof.
  intros d'.
  assert (Hsub : forall card w, velocity_windows d' !! card = Some w ->
                                velocity_windows d !! card = Some w).
  { intros card w. unfold d'. rewrite cleanup_old_windows_lookup.
    destruct (velocity_windows d !! card) as [w0|]; [| discriminate].
    destruct (latest_timestamp w0); [destruct (_ <? _) |]; congruence. }
  assert (Hagain : forall t, now <= t ->
             forall card,
               velocity_windows (cleanup_old_windows d' t) !! card
               = velocity_windows (cleanup_old_windows d t) !! card).
  { intros t Ht card. rewrite !cleanup_old_windows_lookup.
    unfold d'. rewrite cleanup_old_windows_lookup.
    destruct (velocity_windows d !! card) as [w0|]; [| reflexivity].
    destruct (latest_timestamp w0) as [latest|] eqn:El; [| now rewrite El].
    destruct (timedelta_minutes 5 <? now - latest) eqn:E1.
    - replace (timedelta_minutes 5 <? t - latest) with true; [reflexivity |].
      symmetry. apply Z.ltb_lt. apply Z.ltb_lt in E1. lia.
    - rewrite El. reflexivity. }
  split; [exact Hsub |]. split; [| repeat split].
  - cbn [get_stats active_cards_tracked]. apply map_subseteq_size.
    apply map_subseteq_spec. exact Hsub.
  - transitivity (set_velocity_windows d' (velocity_windows d')).
    + apply cleanup_old_windows_eq. intros card.
      rewrite (Hagain now (Z.le_refl now)). reflexivity.
    + reflexivity.
  - transitivity (set_velocity_windows d' (velocity_windows (cleanup_old_windows d later))).
    + apply cleanup_old_windows_eq. intros card. now apply Hagain.
    + reflexivity.
Qed.

(** [_check_velocity] looks at the detector through the settings and the
    cleaned window of the card only. *)
Lemma check_velocity_by_cleanup (d1 d2 : FraudDetector) (card : string)
    (ts : Z) (amt : Q) :
  settings d1 = settings d2 ->
  cleanup (default new_window (velocity_windows d1 !! card))
    (velocity_window_seconds (settings d2)) ts
  = cleanup (default new_window (velocity_windows d2 !! card))
      (velocity_window_seconds (settings d2)) ts ->
  fst (_check_velocity d1 card ts amt) = fst (_check_velocity d2 card ts amt) /\
  velocity_windows (snd (_check_velocity d1 card ts amt)) !! card
  = velocity_windows (snd (_check_velocity d2 card ts amt)) !! card.
Proof.
  intros Hs Hc. unfold _check_velocity. rewrite Hs, Hc. clear Hc.
  destruct (cleanup _ _ _) as [[[]|e] w];
    cbn [fst snd velocity_windows set_velocity_windows];
    rewrite !lookup_insert_eq; split; reflexivity.
Qed.

(** X10: when the window length is at most five minutes and the event is
    not older than the janitor's clock, a run of the janitor before an
    observation changes neither the count and the verdict of that
    observation nor the window that it leaves for the card: the janitor
    only frees memory. *)
Theorem janitor_is_transparent (d : FraudDetector) (now : Z) (card : string)
    (ts : Z) (amt : Q)
    (Hwf : detector_wf d)
    (HW : velocity_window_seconds (settings d) <= 300)
    (Hts : now <= ts) :
  let swept := _check_velocity (cleanup_old_windows d now) card ts amt in
  let plain := _check_velocity d card ts amt in
  fst swept = fst plain /\
  velocity_windows (snd swept) !! card = velocity_windows (snd plain) !! card.
Proof.
  intros swept plain. subst swept plain.
  apply check_velocity_by_cleanup; [reflexivity |].
  rewrite cleanup_old_windows_lookup.
  destruct (velocity_windows d !! card) as [w0|] eqn:Elk; [| reflexivity].
  destruct (latest_timestamp w0) as [latest|] eqn:El; [| reflexivity].
  destruct (timedelta_minutes 5 <? now - latest) eqn:Es; [| reflexivity].
  (* the janitor removed the card: all its entries are out of the window *)
  cbn [default]. unfold id.
  destruct (cleanup_ok w0 (velocity_window_seconds (settings d)) ts (Hwf card w0 Elk))
    as (w1 & Hc & Hts1 & _ & Hw1).
  rewrite Hc. change (cleanup new_window (velocity_window_seconds (settings d)) ts)
    with (Ok tt, new_window).
  f_equal.
  assert (Hnil : timestamps w1 = []).
  { rewrite Hts1.
    destruct (latest_timestamp_max w0 latest El) as [_ Hall].
    apply Z.ltb_lt in Es.
    clear - Hall Es HW Hts. induction Hall as [|e l He _ IH]; [reflexivity |].
    simpl.
    replace (ts - timedelta_seconds (velocity_window_seconds (settings d)) <=? e)
      with false; [exact IH |].
    symmetry. apply Z.leb_gt.
    unfold timedelta_seconds, timedelta_minutes, usec_per_second in *. lia. }
  clear Hts1 Hc. destruct w1 as [tss ams]. unfold window_wf in Hw1.
  simpl in Hnil, Hw1. subst tss. destruct ams; [reflexivity | discriminate].
Qed.

(** ** The message pipeline on accepted records *)

(** The counters after one call of [process_transaction], whatever its
    outcome. *)
Lemma process_transaction_counters (d d' : FraudDetector) (t : Transaction)
    (latency : Q) (r : result (option FraudAlert)) :
  process_transaction d t latency = (r, d') ->
  0 <= velocity_violations d' - velocity_violations d
  /\ velocity_violations d' - velocity_violations d
     <= alerts_generated d' - alerts_generated d
  /\ alerts_generated d' - alerts_generated d
     <= transactions_processed d' - transactions_processed d
  /\ transactions_processed d' - transactions_processed d <= 1
  /\ alerts_generated d' - alerts_generated d
     = match r with Ok (Some _) => 1 | _ => 0 end.
Proof.
  unfold process_transaction.
  destruct (_check_velocity d (card_id t) (timestamp t) (amount t))
    as [[[triggered count]|e] d1] eqn:Ecv.
  - destruct (check_velocity_inv _ _ _ _ _ _ _ Ecv)
      as (w & _ & _ & _ & _ & _ & _ & _ & Htp & Hag & Hvv).
    destruct (_engineer_features d1 t count) as [f|e] eqn:Ef.
    + destruct (engineer_features_inv _ _ _ _ Ef) as (Hv & _).
      destruct (predict_range d1 f Hv) as [H0 H1].
      cbv zeta. destruct (_ || _).
      * unfold FraudAlert_new.
        match goal with
        | |- context [alert_valid ?a] => assert (Ha : alert_valid a = true)
        end.
        { unfold alert_valid. cbn [fraud_score].
          apply andb_true_intro. split; apply Qleb_le; destruct triggered;
            try assumption.
          - apply Q.max_le_iff. now left.
          - apply Q.max_lub; [assumption | discriminate]. }
        rewrite Ha. intros [= <- <-]. destruct triggered; simpl; lia.
      * intros [= <- <-]. simpl. lia.
    + intros [= <- <-]. lia.
  - unfold _check_velocity in Ecv.
    destruct (cleanup _ _ _) as [[[]|e'] w]; [discriminate |].
    injection Ecv as _ <-. intros [= <- <-]. simpl. lia.
Qed.

Lemma process_transaction_wf (d d' : FraudDetector) (t : Transaction)
    (latency : Q) (r : result (option FraudAlert)) :
  detector_wf d -> process_transaction d t latency = (r, d') -> detector_wf d'.
Proof.
  intros Hwf H.
  destruct (process_transaction_total d t latency Hwf) as (r0 & d0 & H0 & Hwf0).
  rewrite H0 in H. now injection H as _ <-.
Qed.

Lemma last_snoc_drop {A : Type} (l : list A) (x : A) (n : nat) :
  (n <= length l)%nat -> last (drop n (l ++ [x])) = Some x.
Proof.
  intros Hn. rewrite drop_app_le by exact Hn. apply last_snoc.
Qed.

Lemma track_latency_last (app : App) (alert : FraudAlert) :
  last (latencies (track_latency app alert)) = Some (latency_ms alert).
Proof.
  unfold track_latency. cbn [latencies set_latencies].
  destruct (1000 <? length (latencies app ++ [latency_ms alert]))%nat eqn:E.
  - apply Nat.ltb_lt in E. rewrite length_app in *. simpl in *.
    apply last_snoc_drop. lia.
  - apply last_snoc.
Qed.

(** What [publish_fraud_alert] does, by the state of the producer. *)
Lemma publish_fraud_alert_cases (app : App) (alert : FraudAlert) :
  let app' := publish_fraud_alert app alert in
  let alerts_topic := kafka_alerts_topic (settings (fraud_detector app)) in
  fraud_detector app' = fraud_detector app /\
  kafka_producer app' = kafka_producer app /\
  latencies app' = latencies app /\
  dlq_count app' = dlq_count app /\
  dead_letters app' = dead_letters app /\
  match kafka_producer app with
  | None =>
      delivered app' = delivered app /\
      broadcasts app' = broadcasts app ++ [alert]
  | Some send_and_wait =>
      match send_and_wait alerts_topic (AlertJson alert) with
      | Ok _ =>
          delivered app' = delivered app ++ [(alerts_topic, AlertJson alert)] /\
          broadcasts app' = broadcasts app ++ [alert]
      | Raise _ =>
          delivered app' = delivered app /\ broadcasts app' = broadcasts app
      end
  end.
Proof.
  intros app' alerts_topic. subst app'. unfold publish_fraud_alert.
  fold alerts_topic.
  destruct (kafka_producer app) as [send|] eqn:Ep.
  - destruct (send alerts_topic (AlertJson alert)) as [[]|e].
    + unfold dead_letters. cbn. rewrite List.flat_map_app, app_nil_r. auto 10.
    + rewrite Ep. auto 10.
  - unfold dead_letters. cbn. auto 10.
Qed.

(** X11: the latency samples never number more than 1000: a sample is
    appended, and when that makes 1001 samples only the newest 500 are
    kept; the new sample is always the last one, and nothing else of the
    state changes. *)
Theorem latency_ring_bounded (app : App) (alert : FraudAlert) :
  let app' := track_latency app alert in
  (length (latencies app') <= 1000)%nat /\
  last (latencies app') = Some (latency_ms alert) /\
  ((length (latencies app) < 1000)%nat ->
   latencies app' = latencies app ++ [latency_ms alert]) /\
  (length (latencies app) = 1000%nat ->
   latencies app' = drop 501 (latencies app) ++ [latency_ms alert] /\
   length (latencies app') = 500%nat) /\
  fraud_detector app' = fraud_detector app /\
  kafka_producer app' = kafka_producer app /\
  delivered app' = delivered app /\ broadcasts app' = broadcasts app /\
  dlq_count app' = dlq_count app.
Proof.
  intros app'. subst app'. unfold track_latency.
  cbn [latencies set_latencies fraud_detector kafka_producer delivered broadcasts
       dlq_count].
  set (l := latencies app ++ [latency_ms alert]).
  assert (Hl : length l = S (length (latencies app)))
    by (unfold l; rewrite length_app; simpl; lia).
  split; [| split; [| split; [| split; [| repeat split]]]].
  - destruct (1000 <? length l)%nat eqn:E.
    + apply Nat.ltb_lt in E. rewrite length_drop. lia.
    + apply Nat.ltb_ge in E. exact E.
  - destruct (1000 <? length l)%nat eqn:E.
    + apply Nat.ltb_lt in E. rewrite Hl in *. unfold l. apply last_snoc_drop. lia.
    + unfold l. apply last_snoc.
  - intros Hlt. replace (1000 <? length l)%nat with false; [reflexivity |].
    symmetry. apply Nat.ltb_ge. lia.
  - intros Heq. replace (1000 <? length l)%nat with true
      by (symmetry; apply Nat.ltb_lt; lia).
    rewrite Hl, Heq. change (1001 - 500)%nat with 501%nat.
    unfold l. rewrite drop_app_le by lia. split; [reflexivity |].
    rewrite length_app, length_drop. simpl. lia.
Qed.

(** X12: a record that decodes, parses and validates, and on which
    [process_transaction] returns, leaves the detector as that call left
    it and is not dead-lettered.  Without an alert nothing is sent.  With
    an alert its latency is recorded, and the alert goes to the alerts
    topic and then to the WebSocket clients; when the producer refuses it,
    it is not broadcast either; without a producer it is only broadcast. *)
Theorem accepted_record_outcome (app : App) (msg : Msg) (latency : Q)
    (raw : pystr) (data : JSON) (t : Transaction)
    (r : option FraudAlert) (d' : FraudDetector)
    (Hdecode : decode_utf8 (value msg) = Ok raw)
    (Hjson : json_loads raw = Ok data)
    (Hschema : Transaction_new data = Ok t)
    (Hprocess : process_transaction (fraud_detector app) t latency = (Ok r, d')) :
  let app' := process_message app msg latency in
  let alerts_topic := kafka_alerts_topic (settings (fraud_detector app)) in
    fraud_detector app' = d' /\
    dead_letters app' = dead_letters app /\ dlq_count app' = dlq_count app /\
    match r with
    | None =>
        delivered app' = delivered app /\ broadcasts app' = broadcasts app /\
        latencies app' = latencies app
    | Some alert =>
        last (latencies app') = Some latency /\
        match kafka_producer app with
        | None =>
            delivered app' = delivered app /\
            broadcasts app' = broadcasts app ++ [alert]
        | Some send_and_wait =>
            match send_and_wait alerts_topic (AlertJson alert) with
            | Ok _ =>
                delivered app' = delivered app ++ [(alerts_topic, AlertJson alert)] /\
                broadcasts app' = broadcasts app ++ [alert]
            | Raise _ =>
                delivered app' = delivered app /\ broadcasts app' = broadcasts app
            end
        end
    end.
Proof.
  intros app' alerts_topic. pose proof Hprocess as Hp.
  pose proof (process_transaction_settings _ _ _ _ _ Hp) as Hs.
  subst app'. unfold process_message. rewrite Hdecode, Hjson, Hschema, Hp.
  destruct r as [alert|]; [| cbn; auto 10].
  assert (Hlat : latency_ms alert = latency).
  { destruct (process_transaction_inv _ _ _ _ _ Hp)
      as (tr & c & d1 & f & _ & _ & Hcases).
    cbv zeta in Hcases. destruct Hcases as [(_ & Hr & _) | (_ & Hr & _)];
      [discriminate |].
    injection Hr as ->. reflexivity. }
  set (app1 := track_latency (set_fraud_detector app d') alert).
  pose proof (track_latency_last (set_fraud_detector app d') alert) as Hlast.
  fold app1 in Hlast. rewrite Hlat in Hlast.
  destruct (publish_fraud_alert_cases app1 alert)
    as (Hfd & _ & Hl & Hc & Hdl & Hcases).
  cbv zeta in Hcases.
  change (fraud_detector app1) with d' in *.
  change (kafka_producer app1) with (kafka_producer app) in *.
  change (delivered app1) with (delivered app) in *.
  change (broadcasts app1) with (broadcasts app) in *.
  change (dlq_count app1) with (dlq_count app) in *.
  change (dead_letters app1) with (dead_letters app) in *.
  rewrite Hs in Hcases. fold alerts_topic in Hcases.
  rewrite Hl. repeat (split; [assumption |]). exact Hcases.
Qed.

(** ** Accounting over a run of the consumer *)

Lemma delivered_lengths (app app' : App) (more : list (string * Payload)) :
  delivered app' = delivered app ++ more ->
  length (dead_letters app')
  = (length (dead_letters app)
     + length (flat_map (fun rec : string * Payload =>
                           match snd rec with
                           | DeadLetterJson m => [m]
                           | AlertJson _ => []
                           end) more))%nat /\
  length (published_alerts app')
  = (length (published_alerts app)
     + length (flat_map (fun rec : string * Payload =>
                           match snd rec with
                           | AlertJson a => [a]
                           | DeadLetterJson _ => []
                           end) more))%nat.
Proof.
  intros H. unfold dead_letters, published_alerts.
  rewrite H, !List.flat_map_app, !length_app. split; reflexivity.
Qed.

(** What one dead-letter attempt leaves. *)
Lemma send_to_dead_letter_queue_shape (app : App) (message : pystr)
    (kind : string) (e : exn) (p o : option Z) :
  let app' := send_to_dead_letter_queue app message kind e p o in
  fraud_detector app' = fraud_detector app /\
  kafka_producer app' = kafka_producer app /\
  ((delivered app' = delivered app /\ dlq_count app' = dlq_count app) \/
   (exists tp m, delivered app' = delivered app ++ [(tp, DeadLetterJson m)] /\
                 dlq_count app' = dlq_count app + 1)).
Proof.
  intros app'. subst app'. unfold send_to_dead_letter_queue.
  destruct (kafka_producer app) as [send|] eqn:Ep; [| rewrite Ep; auto].
  destruct (send _ _) as [[]|e']; [| rewrite Ep; auto].
  cbn. split; [reflexivity |]. split; [exact Ep |]. right. eauto.
Qed.

(** One message: at most one record reaches Kafka, [dlq_count] counts the
    dead letters, and the counters of the detector move together. *)
Lemma process_message_accounting (app : App) (msg : Msg) (latency : Q) :
  let app' := process_message app msg latency in
  let d := fraud_detector app in
  let d' := fraud_detector app' in
  (exists more, delivered app' = delivered app ++ more /\ (length more <= 1)%nat) /\
  dlq_count app' - dlq_count app
  = Z.of_nat (length (dead_letters app')) - Z.of_nat (length (dead_letters app)) /\
  Z.of_nat (length (published_alerts app')) - Z.of_nat (length (published_alerts app))
  <= alerts_generated d' - alerts_generated d /\
  0 <= velocity_violations d' - velocity_violations d /\
  velocity_violations d' - velocity_violations d
  <= alerts_generated d' - alerts_generated d /\
  alerts_generated d' - alerts_generated d
  <= transactions_processed d' - transactions_processed d /\
  transactions_processed d' - transactions_processed d <= 1 /\
  kafka_producer app' = kafka_producer app /\
  settings d' = settings d /\
  (detector_wf d -> detector_wf d').
Proof.
  intros app' d d'.
  assert (Hdlq : forall app0 message kind e p o,
             kafka_producer app0 = kafka_producer app ->
             delivered app0 = delivered app ->
             dlq_count app0 = dlq_count app ->
             let a := send_to_dead_letter_queue app0 message kind e p o in
             fraud_detector a = fraud_detector app0 /\
             kafka_producer a = kafka_producer app /\
             (exists more, delivered a = delivered app ++ more /\
                           (length more <= 1)%nat) /\
             dlq_count a - dlq_count app
             = Z.of_nat (length (dead_letters a)) - Z.of_nat (length (dead_letters app)) /\
             length (published_alerts a) = length (published_alerts app)).
  { intros app0 message kind e p o Hp Hd Hc a.
    destruct (send_to_dead_letter_queue_shape app0 message kind e p o)
      as (Hfd & Hpr & [[Hdel Hcnt] | (tp & m & Hdel & Hcnt)]); fold a in Hfd, Hpr, Hdel, Hcnt.
    - rewrite Hd in Hdel.
      assert (Hdel' : delivered a = delivered app ++ []) by now rewrite app_nil_r.
      destruct (delivered_lengths app a [] Hdel') as [Hl1 Hl2]. simpl in Hl1, Hl2.
      repeat split; try congruence; [exists []; split; [assumption | simpl; lia] | lia | lia].
    - rewrite Hd in Hdel.
      destruct (delivered_lengths app a _ Hdel) as [Hl1 Hl2]. simpl in Hl1, Hl2.
      repeat split; try congruence; [eexists; split; [exact Hdel | simpl; lia] | lia | lia]. }
  subst app' d d'. unfold process_message, processing_error.
  assert (Hsame : forall a,
             fraud_detector a = fraud_detector app ->
             kafka_producer a = kafka_producer app ->
             (exists more, delivered a = delivered app ++ more /\
                           (length more <= 1)%nat) ->
             dlq_count a - dlq_count app
             = Z.of_nat (length (dead_letters a)) - Z.of_nat (length (dead_letters app)) ->
             length (published_alerts a) = length (published_alerts app) ->
             (exists more, delivered a = delivered app ++ more /\ (length more <= 1)%nat) /\
             dlq_count a - dlq_count app
             = Z.of_nat (length (dead_letters a)) - Z.of_nat (length (dead_letters app)) /\
             Z.of_nat (length (published_alerts a))
             - Z.of_nat (length (published_alerts app))
             <= alerts_generated (fraud_detector a) - alerts_generated (fraud_detector app) /\
             0 <= velocity_violations (fraud_detector a)
                  - velocity_violations (fraud_detector app) /\
             velocity_violations (fraud_detector a) - velocity_violations (fraud_detector app)
             <= alerts_generated (fraud_detector a) - alerts_generated (fraud_detector app) /\
             alerts_generated (fraud_detector a) - alerts_generated (fraud_detector app)
             <= transactions_processed (fraud_detector a)
                - transactions_processed (fraud_detector app) /\
             transactions_processed (fraud_detector a)
             - transactions_processed (fraud_detector app) <= 1 /\
             kafka_producer a = kafka_producer app /\
             settings (fraud_detector a) = settings (fraud_detector app) /\
             (detector_wf (fraud_detector app) -> detector_wf (fraud_detector a))).
  { intros a Hfd Hpr Hmore Hcnt Hpub. rewrite Hfd, Hpub.
    repeat split; try assumption; try reflexivity; try lia; auto. }
  destruct (decode_utf8 (value msg)) as [raw|e].
  2: { destruct (Hdlq app (take 500 (bytes_str (value msg))) "ProcessingError"%string e
                   (Some (msg_partition msg)) (Some (msg_offset msg))
                   eq_refl eq_refl eq_refl) as (H1 & H2 & H3 & H4 & H5).
       now apply Hsame. }
  destruct (json_loads raw) as [data|e].
  2: { destruct e;
         match goal with
         | |- context [send_to_dead_letter_queue app ?m ?k ?e ?p ?o] =>
             destruct (Hdlq app m k e p o eq_refl eq_refl eq_refl)
               as (H1 & H2 & H3 & H4 & H5); now apply Hsame
         end. }
  destruct (Transaction_new data) as [t|e].
  2: { destruct (Hdlq app raw "ValidationError"%string e
                   (Some (msg_partition msg)) (Some (msg_offset msg))
                   eq_refl eq_refl eq_refl) as (H1 & H2 & H3 & H4 & H5).
       now apply Hsame. }
  destruct (process_transaction (fraud_detector app) t latency) as [r d1] eqn:Hp.
  pose proof (process_transaction_counters _ _ _ _ _ Hp) as (C1 & C2 & C3 & C4 & C5).
  pose proof (process_transaction_settings _ _ _ _ _ Hp) as Hs.
  pose proof (fun H => process_transaction_wf _ _ _ _ _ H Hp) as Hwf.
  destruct r as [[alert|]|e].
  - set (app1 := track_latency (set_fraud_detector app d1) alert).
    destruct (publish_fraud_alert_cases app1 alert)
      as (Hfd & Hpr & _ & Hc & Hdl & Hcases).
    cbv zeta in Hcases.
    change (fraud_detector app1) with d1 in *.
    change (kafka_producer app1) with (kafka_producer app) in *.
    change (delivered app1) with (delivered app) in *.
    change (dlq_count app1) with (dlq_count app) in *.
    change (dead_letters app1) with (dead_letters app) in *.
    rewrite Hfd, Hc, Hdl, Hpr.
    assert (Hmore : exists more,
               delivered (publish_fraud_alert app1 alert) = delivered app ++ more /\
               (length more <= 1)%nat /\
               (length (published_alerts (publish_fraud_alert app1 alert))
                <= length (published_alerts app) + 1)%nat).
    { destruct (kafka_producer app) as [send|].
      - destruct (send _ _) as [[]|e]; destruct Hcases as [Hdel _].
        + eexists. split; [exact Hdel |]. split; [simpl; lia |].
          destruct (delivered_lengths app _ _ Hdel) as [_ Hl]. simpl in Hl. lia.
        + exists []. rewrite app_nil_r. split; [exact Hdel |]. split; [simpl; lia |].
          unfold published_alerts. rewrite Hdel. lia.
      - destruct Hcases as [Hdel _].
        exists []. rewrite app_nil_r. split; [exact Hdel |]. split; [simpl; lia |].
        unfold published_alerts. rewrite Hdel. lia. }
    destruct Hmore as (more & Hdel & Hlen & Hpub).
    repeat split; try assumption; try lia. eauto.
  - cbn [fraud_detector set_fraud_detector kafka_producer delivered dlq_count].
    assert (Hdl : dead_letters (set_fraud_detector app d1) = dead_letters app)
      by reflexivity.
    assert (Hpa : published_alerts (set_fraud_detector app d1) = published_alerts app)
      by reflexivity.
    rewrite Hdl, Hpa.
    repeat split; try assumption; try lia.
    exists []. rewrite app_nil_r. split; [reflexivity | simpl; lia].
  - destruct (Hdlq (set_fraud_detector app d1) (take 500 (bytes_str (value msg)))
                "ProcessingError"%string e
                (Some (msg_partition msg)) (Some (msg_offset msg))
                eq_refl eq_refl eq_refl) as (H1 & H2 & H3 & H4 & H5).
    cbv zeta in H1. rewrite H1, H5.
    cbn [fraud_detector set_fraud_detector].
    repeat split; try assumption; lia.
Qed.

(** X13: over any run of the consumer, whatever the records: at most one
    record per consumed message reaches Kafka and none is taken back;
    [dlq_count] grows by exactly the number of dead letters delivered; no
    alert is published that the detector did not count; the counters of
    the detector stay ordered (velocity violations at most alerts, alerts
    at most transactions processed, these at most the messages consumed);
    the producer and the settings are not replaced, and a well-formed
    detector stays well formed. *)
Theorem consume_accounting (app : App) (msgs : list (Msg * Q)) :
  let app' := consume app msgs in
  let d := fraud_detector app in
  let d' := fraud_detector app' in
  (exists more, delivered app' = delivered app ++ more /\
                (length more <= length msgs)%nat) /\
  dlq_count app' - dlq_count app
  = Z.of_nat (length (dead_letters app')) - Z.of_nat (length (dead_letters app)) /\
  Z.of_nat (length (published_alerts app')) - Z.of_nat (length (published_alerts app))
  <= alerts_generated d' - alerts_generated d /\
  0 <= velocity_violations d' - velocity_violations d /\
  velocity_violations d' - velocity_violations d
  <= alerts_generated d' - alerts_generated d /\
  alerts_generated d' - alerts_generated d
  <= transactions_processed d' - transactions_processed d /\
  transactions_processed d' - transactions_processed d <= Z.of_nat (length msgs) /\
  kafka_producer app' = kafka_producer app /\
  settings d' = settings d /\
  (detector_wf d -> detector_wf d').
Proof.
  revert app. induction msgs as [|[msg latency] msgs IH]; intros app.
  - cbn [consume]. cbv zeta. repeat split; try lia; try tauto.
    exists []. rewrite app_nil_r. split; [reflexivity | simpl; lia].
  - cbn [consume]. specialize (IH (process_message app msg latency)).
    pose proof (process_message_accounting app msg latency) as Hstep.
    cbv zeta in IH, Hstep |- *.
    destruct IH as ((m2 & D2 & L2) & A2 & B2 & C2 & E2 & F2 & G2 & P2 & S2 & W2).
    destruct Hstep as ((m1 & D1 & L1) & A1 & B1 & C1 & E1 & F1 & G1 & P1 & S1 & W1).
    split; [| repeat split; try lia; try congruence; auto].
    + exists (m1 ++ m2). rewrite D2, D1, app_assoc. split; [reflexivity |].
      rewrite length_app. simpl. lia.
    + cbn [length]. lia.
Qed.

(** ** WebSocket clients *)

Lemma broadcast_fold (send_text : nat -> result unit) (l : list nat)
    (sent disconnected : gset nat) :
  let acc :=
    fold_left
      (fun (acc : gset nat * gset nat) websocket =>
         match send_text websocket with
         | Ok _ => (fst acc ∪ {[websocket]}, snd acc)
         | Raise _ => (fst acc, snd acc ∪ {[websocket]})
         end)
      l (sent, disconnected) in
  (forall ws, ws ∈ fst acc <->
              ws ∈ sent \/ (ws ∈ l /\ exists u, send_text ws = Ok u)) /\
  (forall ws, ws ∈ snd acc <->
              ws ∈ disconnected \/ (ws ∈ l /\ exists e, send_text ws = Raise e)).
Proof.
  revert sent disconnected. induction l as [|x l IH]; intros sent disconnected.
  - simpl. split; intros ws; split; auto; intros [H | [H _]]; auto; inversion H.
  - cbn [fold_left fst snd].
    destruct (send_text x) as [u|e] eqn:Ex;
      [destruct (IH (sent ∪ {[x]}) disconnected) as [H1 H2]
      | destruct (IH sent (disconnected ∪ {[x]})) as [H1 H2]];
      cbv zeta in H1, H2; split; intros ws;
      [rewrite H1 | rewrite H2 | rewrite H1 | rewrite H2];
      rewrite ?elem_of_union, ?elem_of_singleton, elem_of_cons;
      split; intros H;
      repeat match goal with
        | H : _ \/ _ |- _ => destruct H
        | H : _ /\ _ |- _ => destruct H
        | H : exists _, _ |- _ => destruct H
        end; subst; eauto; try congruence.
Qed.

(** X14: a broadcast reaches every connected client whose send succeeds,
    whatever happens to the others; the clients whose send raises are
    removed, and only they: afterwards the connected clients are exactly
    those that were sent the message. *)
Theorem broadcast_isolation (active_connections : gset nat)
    (send_text : nat -> result unit) :
  let remaining := fst (broadcast active_connections send_text) in
  let sent := snd (broadcast active_connections send_text) in
  (forall ws, ws ∈ sent <->
              ws ∈ active_connections /\ exists u, send_text ws = Ok u) /\
  (forall ws, ws ∈ remaining <->
              ws ∈ active_connections /\ exists u, send_text ws = Ok u) /\
  (forall ws, ws ∈ active_connections -> ws ∉ remaining ->
              exists e, send_text ws = Raise e).
Proof.
  intros remaining sent. subst remaining sent. unfold broadcast.
  case_bool_decide as Hempty.
  - subst. cbn [fst snd].
    split; [| split]; intros ws; rewrite ?elem_of_empty; tauto.
  - destruct (broadcast_fold send_text (elements active_connections) ∅ ∅)
      as [Hs Hd].
    cbv zeta in Hs, Hd.
    destruct (fold_left _ _ _) as [sent disconnected]. cbn [fst snd] in *.
    assert (Hsent : forall ws, ws ∈ sent <->
                      ws ∈ active_connections /\ exists u, send_text ws = Ok u).
    { intros ws. rewrite Hs, elem_of_elements, elem_of_empty. tauto. }
    assert (Hdisc : forall ws, ws ∈ disconnected <->
                      ws ∈ active_connections /\ exists e, send_text ws = Raise e).
    { intros ws. rewrite Hd, elem_of_elements, elem_of_empty. tauto. }
    split; [exact Hsent |]. split.
    + intros ws. rewrite elem_of_difference, Hdisc. split.
      * intros [Hin Hno]. split; [exact Hin |].
        destruct (send_text ws) as [u|e] eqn:E; [eauto |].
        exfalso. apply Hno. eauto.
      * intros [Hin [u Hu]]. split; [exact Hin |].
        intros [_ [e He]]. congruence.
    + intros ws Hin Hno. rewrite elem_of_difference, Hdisc in Hno.
      destruct (send_text ws) as [u|e] eqn:E; [| eauto].
      exfalso. apply Hno. split; [exact Hin |]. intros [_ [e He]]. congruence.
Qed.

(** ** Cold start *)

(** X15: [initialize] returns [False] exactly when [model_path.exists()]
    raises, and the detector is then as it was: a detector that was not
    loaded stays so and the health status is "unhealthy".  In every other
    case it returns [True] with [model_loaded] set, and the health status
    is not "unhealthy" afterwards (it is "degraded" exactly when Kafka is
    not connected).  A missing or unreadable artifact, and one that holds
    no model, leave the rule-based score as the score; the windows, the
    counters and the settings are untouched in every case. *)
Theorem cold_start_outcomes (d : FraudDetector)
    (artifact : result (option (result ModelData))) :
  let started := fst (initialize d artifact) in
  let d' := snd (initialize d artifact) in
  (started = false <-> exists e, artifact = Raise e) /\
  (started = false ->
   d' = d /\
   (model_loaded d = false ->
    forall app kafka_consumer,
      fraud_detector app = d' -> health_status app kafka_consumer = unhealthy)) /\
  (started = true ->
   model_loaded d' = true /\
   forall app kafka_consumer,
     fraud_detector app = d' ->
     health_status app kafka_consumer <> unhealthy /\
     (health_status app kafka_consumer = degraded
      <-> kafka_consumer = false \/ kafka_producer app = None)) /\
  velocity_windows d' = velocity_windows d /\ settings d' = settings d /\
  transactions_processed d' = transactions_processed d /\
  alerts_generated d' = alerts_generated d /\
  velocity_violations d' = velocity_violations d /\
  ((artifact = Ok None \/ exists e, artifact = Ok (Some (Raise e))) ->
   model d' = None /\ scaler d' = None) /\
  (model d' = None -> forall f, _predict d' f = _rule_based_score f).
Proof.
  intros started d'. subst started d'. unfold initialize.
  split; [| split; [| split]].
  - destruct artifact as [[[[m s|m]|e]|]|e]; cbn; split;
      try discriminate; eauto; intros [e' H]; discriminate.
  - destruct artifact as [[[[m s|m]|e]|]|e]; cbn; try discriminate.
    intros _. split; [reflexivity |].
    intros Hl app kafka_consumer Happ.
    unfold health_status. cbn [get_stats stats_model_loaded].
    rewrite Happ, Hl. reflexivity.
  - assert (Hhealth : forall d0, model_loaded d0 = true ->
              forall app kafka_consumer,
                fraud_detector app = d0 ->
                health_status app kafka_consumer <> unhealthy /\
                (health_status app kafka_consumer = degraded
                 <-> kafka_consumer = false \/ kafka_producer app = None)).
    { intros d0 Hl app kafka_consumer Happ.
      unfold health_status. cbn [get_stats stats_model_loaded].
      rewrite Happ, Hl. cbn [negb].
      destruct kafka_consumer, (kafka_producer app); cbn; split;
        try discriminate; split; intros H; auto; try discriminate;
        destruct H; discriminate. }
    destruct artifact as [[[[m s|m]|e]|]|e]; cbn; try discriminate;
      intros _; (split; [reflexivity | apply Hhealth; reflexivity]).
  - do 5 (split; [destruct artifact as [[[[m s|m]|e]|]|e]; reflexivity |]).
    split.
    + intros [-> | [e ->]]; split; reflexivity.
    + intros Hnone f. unfold _predict. now rewrite Hnone.
Qed.

(** X16: no failure of the scaler or of the model reaches the caller of
    [_predict].  With a model loaded, the feature vector goes through the
    scaler when there is one.  When the scaler raises, when the model call
    raises, or when a classifier returns an empty row of probabilities,
    the score is the rule-based score.  Otherwise it is the model's answer
    clipped to [0, 1]: the second probability of the row (the only one of
    a row of length one), the sigmoid of the decision value, or 0.9 for
    label 1 and 0.1 for any other label. *)
Theorem predict_failure_falls_back (d : FraudDetector) (f : TransactionFeatures)
    (m : Model) (Hmodel : model d = Some m) :
  let scaled :=
    match scaler d with
    | Some transform => transform (feature_vector f)
    | None => Ok (feature_vector f)
    end in
  (forall e, scaled = Raise e -> _predict d f = _rule_based_score f) /\
  (forall v, scaled = Ok v ->
     match m with
     | WithPredictProba predict_proba =>
         match predict_proba v with
         | Raise _ | Ok [] => _predict d f = _rule_based_score f
         | Ok [p] => _predict d f = np_clip p 0 1
         | Ok (_ :: p1 :: _) => _predict d f = np_clip p1 0 1
         end
     | WithDecisionFunction decision_function =>
         match decision_function v with
         | Raise _ => _predict d f = _rule_based_score f
         | Ok score => _predict d f = np_clip (1 / (1 + np_exp score)) 0 1
         end
     | WithPredict predict =>
         match predict v with
         | Raise _ => _predict d f = _rule_based_score f
         | Ok label => _predict d f = if label =? 1 then (9 # 10)%Q else (1 # 10)%Q
         end
     end).
Proof.
  intros scaled. unfold _predict. rewrite Hmodel. cbv zeta.
  fold (feature_vector f). fold scaled. unfold mbind, result_bind.
  split.
  - intros e ->. reflexivity.
  - intros v ->. destruct m as [pp | df | p].
    + destruct (pp v) as [[|p0 [|p1 row]]|e]; reflexivity.
    + destruct (df v) as [score|e]; reflexivity.
    + destruct (p v) as [label|e]; [| reflexivity].
      destruct (label =? 1); reflexivity.
Qed.

(** ** The validators of [Transaction] *)

Lemma lstrip_spec (s : list N) :
  exists pre,
    s = pre ++ lstrip s /\
    Forall (fun c => isspace c = true) pre /\
    (forall x rest, lstrip s = x :: rest -> isspace x = false).
Proof.
  induction s as [|c s IH].
  - exists []. repeat split; [constructor | discriminate].
  - cbn [lstrip]. destruct (isspace c) eqn:E.
    + destruct IH as (pre & Hs & Hpre & Hhead).
      exists (c :: pre). split; [simpl; now rewrite <- Hs |].
      split; [now constructor | exact Hhead].
    + exists []. repeat split; [constructor |]. intros x rest [= <- _]. exact E.
Qed.

Lemma lstrip_id (s : list N) :
  (forall x rest, s = x :: rest -> isspace x = false) -> lstrip s = s.
Proof.
  destruct s as [|c s]; [reflexivity |]. intros H. cbn [lstrip].
  now rewrite (H c s eq_refl).
Qed.

Lemma lstrip_nil_iff (s : list N) :
  lstrip s = [] <-> Forall (fun c => isspace c = true) s.
Proof.
  induction s as [|c s IH]; [split; [constructor | reflexivity] |].
  cbn [lstrip]. destruct (isspace c) eqn:E.
  - rewrite IH. split; [now constructor | now inversion 1].
  - split; [discriminate |]. inversion 1. congruence.
Qed.

Lemma strip_spec (s : list N) :
  exists pre post,
    s = pre ++ strip s ++ post /\
    Forall (fun c => isspace c = true) pre /\
    Forall (fun c => isspace c = true) post /\
    (forall x rest, strip s = x :: rest -> isspace x = false) /\
    (forall x rest, rev (strip s) = x :: rest -> isspace x = false).
Proof.
  unfold strip, rstrip.
  destruct (lstrip_spec s) as (pre & Hs & Hpre & Hhead).
  destruct (lstrip_spec (rev (lstrip s))) as (pre2 & Hr & Hpre2 & Hhead2).
  assert (Hl : lstrip s = rev (lstrip (rev (lstrip s))) ++ rev pre2).
  { rewrite <- List.rev_app_distr, <- Hr. symmetry. apply List.rev_involutive. }
  exists pre, (rev pre2).
  split; [now rewrite <- Hl |]. split; [exact Hpre |].
  split; [apply List.Forall_rev; exact Hpre2 |]. split.
  - intros x rest Hx. rewrite Hx in Hl. simpl in Hl. exact (Hhead _ _ Hl).
  - intros x rest Hx. rewrite List.rev_involutive in Hx. exact (Hhead2 _ _ Hx).
Qed.

Lemma strip_nil_iff (s : list N) :
  strip s = [] <-> Forall (fun c => isspace c = true) s.
Proof.
  split.
  - intros H. destruct (strip_spec s) as (pre & post & Hs & Hpre & Hpost & _).
    rewrite H in Hs. rewrite Hs. apply Forall_app. split; assumption.
  - intros H. apply lstrip_nil_iff in H. unfold strip, rstrip. now rewrite H.
Qed.

(** X17: [validate_card_id] rejects exactly the card ids made of white
    space only (the empty one among them); an accepted card id is the
    input without its leading and trailing white space: it is not empty,
    neither begins nor ends with white space, keeps what was in between,
    and validating it again returns it unchanged. *)
Theorem validate_card_id_strips (v : list N) :
  ((exists e, validate_card_id v = Raise e)
   <-> Forall (fun c => isspace c = true) v) /\
  (forall card,
      validate_card_id v = Ok card ->
      card <> [] /\
      (exists pre post,
          v = pre ++ card ++ post /\
          Forall (fun c => isspace c = true) pre /\
          Forall (fun c => isspace c = true) post) /\
      (forall x rest, card = x :: rest -> isspace x = false) /\
      (forall body x, card = body ++ [x] -> isspace x = false) /\
      validate_card_id card = Ok card).
Proof.
  unfold validate_card_id at 1 2.
  assert (Hempty : v = [] -> strip v = []) by (intros ->; reflexivity).
  split.
  - rewrite <- strip_nil_iff. split.
    + intros [e H]. repeat case_bool_decide; simpl in H; auto; discriminate.
    + intros H. exists PydanticValidationError.
      repeat case_bool_decide; simpl; try reflexivity. contradiction.
  - intros card H.
    repeat case_bool_decide; simpl in H; try discriminate.
    injection H as <-.
    destruct (strip_spec v) as (pre & post & Hs & Hpre & Hpost & Hhead & Hlast).
    assert (Hid : strip (strip v) = strip v).
    { unfold strip at 1, rstrip. rewrite (lstrip_id (strip v) Hhead).
      rewrite (lstrip_id (rev (strip v)) Hlast). apply List.rev_involutive. }
    split; [assumption |]. split; [now exists pre, post |].
    split; [exact Hhead |]. split.
    + intros body x Hx. apply (Hlast x (rev body)).
      rewrite Hx, List.rev_app_distr. reflexivity.
    + unfold validate_card_id. rewrite Hid.
      repeat case_bool_decide; simpl; try reflexivity; contradiction.
Qed.

Lemma round2_cases (v : Q) :
  let n := Qfloor (v * 100) in
  (inject_Z n <= v * 100)%Q /\ (v * 100 < inject_Z n + 1)%Q /\
  ((round2 v = (inject_Z n / 100)%Q /\ (v * 100 - inject_Z n <= 1 # 2)%Q) \/
   (round2 v = (inject_Z (n + 1) / 100)%Q /\ (1 # 2 <= v * 100 - inject_Z n)%Q)).
Proof.
  intros n. split; [apply Qfloor_le |]. split.
  - pose proof (Qlt_floor (v * 100)) as H. fold n in H.
    rewrite inject_Z_plus in H. exact H.
  - unfold round2. cbv zeta. fold n.
    destruct (Qltb (v * 100 - inject_Z n) (1 # 2)) eqn:E1.
    + left. reflect_Q. split; [reflexivity | lra].
    + destruct (Qltb (1 # 2) (v * 100 - inject_Z n)) eqn:E2.
      * right. reflect_Q. split; [reflexivity | lra].
      * reflect_Q. destruct (Z.even n); [left | right]; split;
          reflexivity || assumption.
Qed.

Lemma round2_hundredth (k : Z) : round2 (inject_Z k / 100) = (inject_Z k / 100)%Q.
Proof.
  assert (Hx : (inject_Z k / 100 * 100 == inject_Z k)%Q) by field.
  unfold round2. cbv zeta.
  rewrite (Qfloor_comp _ _ Hx), Qfloor_Z.
  replace (Qltb (inject_Z k / 100 * 100 - inject_Z k) (1 # 2)) with true;
    [reflexivity |].
  symmetry. apply Qltb_lt. rewrite Hx. lra.
Qed.

(** X18: [validate_amount] rejects exactly the amounts below 0 or above
    1,000,000; an accepted amount is a whole number of hundredths, at most
    half a hundredth away from the input, still within [0, 1,000,000], and
    validating it again returns it unchanged. *)
Theorem validate_amount_rounds (v : Q) :
  ((exists e, validate_amount v = Raise e) <-> (v < 0)%Q \/ (1000000 < v)%Q) /\
  (forall r,
      validate_amount v = Ok r ->
      (0 <= r <= 1000000)%Q /\
      (Qabs (r - v) <= 1 # 200)%Q /\
      (exists k : Z, r = (inject_Z k / 100)%Q) /\
      validate_amount r = Ok r).
Proof.
  unfold validate_amount at 1 2. split.
  - destruct (Qltb v 0) eqn:E0; [reflect_Q; split; eauto |].
    destruct (Qltb 1000000 v) eqn:E1; [reflect_Q; split; eauto |].
    reflect_Q. split; [intros [e H]; discriminate | intros [H | H]; exfalso; lra].
  - intros r H.
    destruct (Qltb v 0) eqn:E0; [discriminate |].
    destruct (Qltb 1000000 v) eqn:E1; [discriminate |].
    injection H as <-. reflect_Q.
    destruct (round2_cases v) as (Hlo & Hhi & Hcases). cbv zeta in *.
    set (n := Qfloor (v * 100)) in *.
    assert (Hn0 : 0 <= n).
    { change 0 with (Qfloor 0). apply Qfloor_resp_le. lra. }
    assert (Hq0 : (0 <= inject_Z n)%Q).
    { pose proof Hn0 as H'. rewrite Zle_Qle in H'. exact H'. }
    assert (Hrange : (0 <= round2 v <= 1000000)%Q /\
                     (Qabs (round2 v - v) <= 1 # 200)%Q /\
                     exists k : Z, round2 v = (inject_Z k / 100)%Q).
    { assert (Hdiv : forall x : Q, (x / 100 == x * (1 # 100))%Q)
        by (intros x; field).
      destruct Hcases as [[-> Hr] | [-> Hr]].
      - split; [rewrite Hdiv; split; lra |].
        split; [apply Qabs_Qle_condition; rewrite Hdiv; split; lra |].
        now exists n.
      - assert (Hn1 : n + 1 <= 100000000).
        { assert (Hlt : (inject_Z n < inject_Z 100000000)%Q).
          { change (inject_Z 100000000) with (100000000%Q). lra. }
          rewrite <- Zlt_Qlt in Hlt. lia. }
        assert (Hq1 : (inject_Z (n + 1) <= 100000000)%Q).
        { pose proof Hn1 as H'. rewrite Zle_Qle in H'. exact H'. }
        rewrite inject_Z_plus in *.
        change (inject_Z 1) with 1%Q in *.
        split; [rewrite Hdiv; split; lra |].
        split; [apply Qabs_Qle_condition; rewrite Hdiv; split; lra |].
        exists (n + 1). rewrite inject_Z_plus. reflexivity. }
    destruct Hrange as (Hr & Habs & k & Hk).
    split; [exact Hr |]. split; [exact Habs |]. split; [now exists k |].
    unfold validate_amount.
    replace (Qltb (round2 v) 0) with false by (symmetry; apply Qltb_ge; lra).
    replace (Qltb 1000000 (round2 v)) with false by (symmetry; apply Qltb_ge; lra).
    rewrite Hk, round2_hundredth. reflexivity.
Qed.

(** ** The window getters *)

Lemma sum_Q_bounds (l : list Q) (lo hi acc : Q) :
  Forall (fun a => (lo <= a <= hi)%Q) l ->
  (acc + lo * inject_Z (Z.of_nat (length l)) <= fold_left Qplus l acc)%Q /\
  (fold_left Qplus l acc <= acc + hi * inject_Z (Z.of_nat (length l)))%Q.
Proof.
  intros H. revert acc. induction H as [|a l [Ha1 Ha2] _ IH]; intros acc.
  - cbn [fold_left length]. change (inject_Z (Z.of_nat 0)) with 0%Q. split; lra.
  - cbn [fold_left length]. destruct (IH (acc + a)%Q) as [H1 H2].
    rewrite Nat2Z.inj_succ, <- Z.add_1_r, inject_Z_plus.
    change (inject_Z 1) with 1%Q. split; lra.
Qed.

(** X19: with the amounts as exact rationals (the model of the floats;
    what [np.mean] and [sum] return in floating point is this value up to
    rounding), the mean of a window with at least one amount lies between
    any two bounds on its amounts (so between the smallest and the
    largest), and the mean times the number of amounts is the total; an
    empty window has mean and total 0. *)
Theorem mean_amount_between (w : TransactionWindow) (lo hi : Q)
    (Hbounds : Forall (fun a => (lo <= a <= hi)%Q) (amounts w)) :
  (amounts w = [] -> get_mean_amount w = 0%Q /\ get_total_amount w = 0%Q) /\
  (amounts w <> [] ->
   (lo <= get_mean_amount w <= hi)%Q /\
   (get_mean_amount w * inject_Z (Z.of_nat (length (amounts w)))
    == get_total_amount w)%Q).
Proof.
  unfold get_mean_amount, get_total_amount, sum_Q.
  destruct (amounts w) as [|a l] eqn:E.
  - split; [split; reflexivity | congruence].
  - split; [discriminate |]. intros _.
    destruct (sum_Q_bounds (a :: l) lo hi 0 Hbounds) as [H1 H2].
    set (n := inject_Z (Z.of_nat (length (a :: l)))) in *.
    assert (Hn : (0 < n)%Q).
    { assert (H' : 0 < Z.of_nat (length (a :: l))) by (simpl; lia).
      rewrite Zlt_Qlt in H'. exact H'. }
    set (s := fold_left Qplus (a :: l) 0%Q) in *.
    split; [split |].
    + apply Qle_shift_div_l; [exact Hn | lra].
    + apply Qle_shift_div_r; [exact Hn | lra].
    + field. lra.
Qed.

(** ** Metrics *)

(** Rounding keeps a value between two whole numbers of hundredths. *)
Lemma round2_between (a b : Z) (v : Q) :
  (inject_Z a <= v * 100)%Q -> (v * 100 <= inject_Z b)%Q ->
  exists k : Z, round2 v = (inject_Z k / 100)%Q /\ a <= k <= b.
Proof.
  intros Ha Hb.
  destruct (round2_cases v) as (Hlo & Hhi & Hcases). cbv zeta in *.
  set (n := Qfloor (v * 100)) in *.
  assert (Han : a <= n).
  { rewrite <- (Qfloor_Z a). now apply Qfloor_resp_le. }
  assert (Hnb : n <= b).
  { rewrite Zle_Qle. lra. }
  destruct Hcases as [[-> Hr] | [-> Hr]].
  - exists n. split; [reflexivity | lia].
  - exists (n + 1). split; [reflexivity |].
    assert (Hlt : (inject_Z n < inject_Z b)%Q) by lra.
    rewrite <- Zlt_Qlt in Hlt. lia.
Qed.

(** X20: the reported fraud rate is a percentage: with counters such that
    [0 <= alerts_generated <= transactions_processed] it lies between 0 and
    100, and it is 0, with no division, while nothing has been processed;
    the rate per second is 0 when the uptime is not positive; the velocity
    violations and the dead-letter count are reported as they are. *)
Theorem metrics_fraud_rate_is_percentage (app : App)
    (service_start_time : option Z) (now : Z)
    (Hcounters : 0 <= alerts_generated (fraud_detector app)
                 <= transactions_processed (fraud_detector app)) :
  let m := get_metrics app service_start_time now in
  (0 <= fraud_rate m <= 100)%Q /\
  (transactions_processed (fraud_detector app) = 0 -> (fraud_rate m == 0)%Q) /\
  (forall start, service_start_time = Some start -> now <= start ->
                 (transactions_per_second m == 0)%Q) /\
  metrics_velocity_violations m = velocity_violations (fraud_detector app) /\
  dlq_messages m = dlq_count app.
Proof.
  intros m. subst m. unfold get_metrics. cbv zeta.
  cbn [fraud_rate transactions_per_second metrics_velocity_violations dlq_messages
       get_stats stats_transactions_processed stats_alerts_generated
       stats_velocity_violations].
  set (tp := transactions_processed (fraud_detector app)) in *.
  set (al := alerts_generated (fraud_detector app)) in *.
  split; [| split; [| split; [| split; reflexivity]]].
  - destruct (0 <? tp) eqn:E; [| split; vm_compute; discriminate].
    apply Z.ltb_lt in E.
    assert (Htp : (0 < inject_Z tp)%Q).
    { pose proof E as H'. rewrite Zlt_Qlt in H'. exact H'. }
    assert (Hal0 : (0 <= inject_Z al)%Q).
    { destruct Hcounters as [H' _]. rewrite Zle_Qle in H'. exact H'. }
    assert (Hal1 : (inject_Z al <= inject_Z tp)%Q).
    { destruct Hcounters as [_ H']. rewrite Zle_Qle in H'. exact H'. }
    assert (Hratio : (0 <= inject_Z al / inject_Z tp <= 1)%Q).
    { split.
      - apply Qle_shift_div_l; [exact Htp | lra].
      - apply Qle_shift_div_r; [exact Htp | lra]. }
    destruct (round2_between 0 10000 (inject_Z al / inject_Z tp * 100))
      as (k & -> & Hk).
    + change (inject_Z 0) with 0%Q. lra.
    + change (inject_Z 10000) with 10000%Q. lra.
    + assert (Hk0 : (0 <= inject_Z k)%Q).
      { destruct Hk as [H' _]. rewrite Zle_Qle in H'. exact H'. }
      assert (Hk1 : (inject_Z k <= 10000)%Q).
      { destruct Hk as [_ H']. rewrite Zle_Qle in H'. exact H'. }
      split.
      * apply Qle_shift_div_l; [reflexivity | lra].
      * apply Qle_shift_div_r; [reflexivity | lra].
  - intros H0. rewrite H0. reflexivity.
  - intros start -> Hle.
    replace (Qltb 0 (inject_Z (now - start) / inject_Z usec_per_second)) with false;
      [reflexivity |].
    symmetry. apply Qltb_ge.
    apply Qle_shift_div_r; [reflexivity |].
    rewrite Qmult_0_l. change 0%Q with (inject_Z 0). rewrite <- Zle_Qle. lia.
Qed.

End Detector.

(** ** The definitions on the scenarios of the specification *)

Example hour_of_t_1430 : hour t_1430 = 14 /\ weekday t_1430 = 4.
Proof. split; reflexivity. Qed.

(** S4: a high-risk location with four transactions in the window scores
    0.1 + 0.3 + 0.2 * 0.8 = 0.56. *)
Example score_four_in_window : (_rule_based_score four_in_window == 56 # 100)%Q.
Proof. reflexivity. Qed.

(** With six transactions in the window the code adds 0.3 only, where the
    formula of the specification adds 0.8. *)
Example score_six_in_window :
  (_rule_based_score six_in_window == 44 # 100)%Q /\
  (spec_rule_based_score six_in_window == 94 # 100)%Q.
Proof. split; reflexivity. Qed.

(** S1: a single ordinary purchase raises no alert. *)
Example clean_purchase :
  fst (process_transaction constant_exp fallback_detector (purchase t_1430 25) 0)
  = Ok None.
Proof. vm_compute. reflexivity. Qed.

(** S2: the sixth purchase within five seconds is a velocity violation;
    the alert carries the floor 0.85 and is of HIGH risk. *)
Example velocity_burst :
  exists alert,
    fst (process_transaction constant_exp burst_detector
           (purchase (t_1430 + timedelta_seconds 5) 60) 0)
    = Ok (Some alert) /\
    velocity_triggered alert = true /\ alert_velocity_count alert = 6 /\
    (fraud_score alert == 85 # 100)%Q /\ risk_level alert = HIGH /\
    hd_error (fraud_reason alert) = Some (VelocityViolation 6).
Proof. eexists. split; [vm_compute; reflexivity |]. repeat split. Qed.

(** The tie-break of the eviction: an entry exactly [W] seconds old is
    kept, an entry one microsecond older is evicted. *)
Example eviction_tie_break :
  fst (_check_velocity seen_detector card_A (t_1430 + timedelta_seconds 60) 20)
  = Ok (false, 2) /\
  fst (_check_velocity seen_detector card_A (t_1430 + timedelta_seconds 60 + 1) 20)
  = Ok (false, 1).
Proof. split; vm_compute; reflexivity. Qed.

(** 1500 two-byte characters: the dead-letter record keeps 1000
    characters, which are 2000 bytes of UTF-8. *)
Example dead_letter_text_in_bytes :
  let app' :=
    send_to_dead_letter_queue (app_with (Some accepting_producer))
      (repeat 233%N 1500) "JSONDecodeError" JSONDecodeError (Some 0) (Some 42) in
  List.map (fun m => (length (original_message m), utf8_size (original_message m)))
    (dead_letters app')
  = [(1000%nat, 2000%nat)].
Proof. vm_compute. reflexivity. Qed.

(** ** Witnesses and counterexamples *)

Lemma singleton_detector_wf (d : FraudDetector) (card : string) (w : TransactionWindow) :
  window_wf w -> detector_wf (set_velocity_windows d (<[card := w]> ∅)).
Proof.
  intros Hw c w' H. simpl in H. apply lookup_insert_Some in H.
  destruct H as [[_ <-] | [_ H]]; [exact Hw |].
  rewrite lookup_empty in H. discriminate.
Defined.

Lemma window_lists_stay_paired_witness :
  let w := {| timestamps := [t_1430; t_1430 + timedelta_seconds 90];
              amounts := [10%Q; 20%Q] |} in
  window_wf w /\
  exists w',
    cleanup w 60 (t_1430 + timedelta_seconds 90) = (Ok tt, w') /\
    window_wf w' /\
    entries w'
    = List.filter
        (fun p => t_1430 + timedelta_seconds 90 - timedelta_seconds 60 <=? fst p)
        (entries w).
Proof.
  intros w. assert (H : window_wf w) by reflexivity.
  split; [exact H |].
  exact (proj1 (proj2 (proj2 (window_lists_stay_paired w H)))
           60 (t_1430 + timedelta_seconds 90)).
Defined.

Lemma window_time_bound_witness :
  detector_wf fallback_detector /\
  0 <= velocity_window_seconds (settings fallback_detector) /\
  exists d1 triggered count d2 w,
    observe_all fallback_detector card_A
      [(t_1430, 10%Q); (t_1430 + timedelta_seconds 30, 20%Q)] = (Ok tt, d1) /\
    _check_velocity d1 card_A (t_1430 + timedelta_seconds 60) 30
    = (Ok (triggered, count), d2) /\
    velocity_windows d2 !! card_A = Some w /\
    Forall (fun entry_ts =>
              t_1430 + timedelta_seconds 60
              - timedelta_seconds (velocity_window_seconds (settings fallback_detector))
              <= entry_ts)
      (timestamps w).
Proof.
  assert (Hwf : detector_wf fallback_detector).
  { intros c w H. simpl in H. rewrite lookup_empty in H. discriminate. }
  assert (HW : 0 <= velocity_window_seconds (settings fallback_detector))
    by (simpl; lia).
  split; [exact Hwf |]. split; [exact HW |].
  destruct (window_time_bound fallback_detector card_A
              [(t_1430, 10%Q); (t_1430 + timedelta_seconds 30, 20%Q)]
              (t_1430 + timedelta_seconds 60) 30 Hwf HW)
    as (d1 & triggered & count & d2 & w & H1 & H2 & H3 & H4 & _).
  exists d1, triggered, count, d2, w. auto.
Defined.

Lemma janitor_removes_stale_cards_witness :
  let w := {| timestamps := [t_1430]; amounts := [100%Q] |} in
  let now := t_1430 + timedelta_minutes 6 in
  velocity_windows seen_detector !! card_A = Some w /\
  latest_timestamp w = Some t_1430 /\
  velocity_windows (cleanup_old_windows seen_detector now) !! card_A = None /\
  exists d'',
    _check_velocity (cleanup_old_windows seen_detector now) card_A
      (now + timedelta_seconds 1) 100
    = (Ok (velocity_threshold (settings seen_detector) <? 1, 1), d'').
Proof.
  intros w now.
  assert (Hcard : velocity_windows seen_detector !! card_A = Some w)
    by (vm_compute; reflexivity).
  assert (Hlatest : latest_timestamp w = Some t_1430) by reflexivity.
  split; [exact Hcard |]. split; [exact Hlatest |].
  destruct (janitor_removes_stale_cards seen_detector now card_A w t_1430
              Hcard Hlatest) as [Hstale _].
  destruct Hstale as [Hnone Hnext]; [vm_compute; reflexivity |].
  split; [exact Hnone |].
  destruct (Hnext (now + timedelta_seconds 1) 100%Q) as (d'' & Hcv & _).
  exists d''. exact Hcv.
Defined.

Lemma rule_based_score_formula_witness :
  velocity_count four_in_window <= 5 /\
  (_rule_based_score four_in_window == spec_rule_based_score four_in_window)%Q.
Proof.
  assert (H : velocity_count four_in_window <= 5) by (simpl; lia).
  split; [exact H |].
  exact (proj1 (rule_based_score_formula four_in_window H)).
Defined.

(** C1: the code does not cumulate the two velocity bonuses.  At six
    transactions in the window (14 h, no deviation, location risk 0.2,
    amount 25) [_rule_based_score] returns 0.44 = 0.1 + 0.3 + 0.2 * 0.2:
    the test [velocity_count > 5] is the [elif] of [velocity_count > 3]
    and is never reached.  The claim's formula gives 0.94 there. *)
Theorem rule_based_score_not_cumulative :
  velocity_count six_in_window = 6 /\
  (_rule_based_score six_in_window == 44 # 100)%Q /\
  (spec_rule_based_score six_in_window == 94 # 100)%Q /\
  ~ (_rule_based_score six_in_window == spec_rule_based_score six_in_window)%Q.
Proof.
  split; [reflexivity |]. split; [reflexivity |]. split; [reflexivity |].
  vm_compute. discriminate.
Qed.

(** C8: the janitor does not remove the stale window of a card whose
    timestamps carry a UTC offset.  The card was seen once, at 14:30:00Z;
    at the tick six minutes later [current_time - latest] raises
    [TypeError], [cleanup_velocity_windows] logs it, and the window is
    still there, as it is after every later tick. *)
Theorem janitor_fails_on_aware_timestamps :
  let w := {| timestamps := [t_1430]; amounts := [100%Q] |} in
  let now := t_1430 + timedelta_minutes 6 in
  let aware := fun _ : string => true in
  velocity_windows seen_detector !! card_A = Some w /\
  latest_timestamp w = Some t_1430 /\
  t_1430 < now - timedelta_minutes 5 /\
  cleanup_old_windows_tz aware seen_detector now = (Raise TypeError, seen_detector) /\
  (forall later,
      velocity_windows (cleanup_velocity_windows aware seen_detector later) !! card_A
      = Some w).
Proof.
  intros w now aware.
  assert (Hcard : velocity_windows seen_detector !! card_A = Some w)
    by (vm_compute; reflexivity).
  assert (Hraise : forall later,
             cleanup_old_windows_tz aware seen_detector later
             = (Raise TypeError, seen_detector)).
  { intros later. unfold cleanup_old_windows_tz.
    replace (existsb _ (map_to_list (velocity_windows seen_detector))) with true
      by (vm_compute; reflexivity).
    reflexivity. }
  split; [exact Hcard |]. split; [reflexivity |].
  split; [vm_compute; reflexivity |]. split; [apply Hraise |].
  intros later. unfold cleanup_velocity_windows. rewrite Hraise. exact Hcard.
Qed.

Lemma score_range_witness :
  features_valid six_in_window = true /\
  ((0 <= _predict constant_exp predictor_detector six_in_window <= 1)%Q /\
   (0 <= _rule_based_score six_in_window <= 1)%Q).
Proof.
  assert (H : features_valid six_in_window = true) by reflexivity.
  split; [exact H |].
  exact (score_range constant_exp predictor_detector six_in_window H).
Defined.

Lemma amount_deviation_of_updated_window_witness :
  let t := purchase (t_1430 + timedelta_seconds 1) 300 in
  detector_wf seen_detector /\
  exists triggered count d1 w f,
    _check_velocity seen_detector (card_id t) (timestamp t) (amount t)
    = (Ok (triggered, count), d1) /\
    velocity_windows d1 !! card_id t = Some w /\
    _engineer_features d1 t count = Ok f /\
    amount_deviation f
    = (if 1 <? get_count w
       then deviation_from (Some (get_mean_amount w)) (amount t)
       else 0%Q).
Proof.
  intros t.
  assert (H : detector_wf seen_detector)
    by (apply singleton_detector_wf; reflexivity).
  split; [exact H |].
  destruct (amount_deviation_of_updated_window seen_detector t H)
    as (triggered & count & d1 & w & f & H1 & H2 & _ & H4 & H5 & _).
  exists triggered, count, d1, w, f. auto.
Defined.

(** C2, counterexample: on the code the second purchase of a card, 300.00
    after 100.00, has deviation |300 - 200| / 200 = 1/2, taken from the
    mean of the window that already holds the purchase; the mean read
    before the insertion is 100 and gives |300 - 100| / 100 = 2. *)
Lemma amount_deviation_not_from_prior_mean :
  let t := purchase (t_1430 + timedelta_seconds 1) 300 in
  exists triggered count d1 f,
    _check_velocity seen_detector (card_id t) (timestamp t) (amount t)
    = (Ok (triggered, count), d1) /\
    _engineer_features d1 t count = Ok f /\
    (amount_deviation f == 1 # 2)%Q /\
    (spec_amount_deviation seen_detector t == 2)%Q /\
    ~ (amount_deviation f == spec_amount_deviation seen_detector t)%Q.
Proof.
  intros t. do 4 eexists.
  split; [vm_compute; reflexivity |].
  split; [vm_compute; reflexivity |].
  split; [reflexivity |]. split; [reflexivity |].
  vm_compute. discriminate.
Qed.


Lemma alert_score_floor_witness :
  let t := purchase (t_1430 + timedelta_seconds 5) 60 in
  exists alert d',
    process_transaction constant_exp burst_detector t 0 = (Ok (Some alert), d') /\
    velocity_triggered alert = true /\
    (85 # 100 <= fraud_score alert)%Q.
Proof.
  intros t.
  pose (out := process_transaction constant_exp burst_detector t 0).
  assert (Hsome : exists alert, fst out = Ok (Some alert))
    by (eexists; vm_compute; reflexivity).
  destruct Hsome as [alert Halert]. exists alert, (snd out).
  assert (H : process_transaction constant_exp burst_detector t 0
              = (Ok (Some alert), snd out)).
  { fold out. rewrite <- Halert. destruct out; reflexivity. }
  split; [exact H |].
  destruct (alert_score_floor constant_exp burst_detector _ t 0 alert H)
    as (triggered & count & d1 & f & H1 & _ & H3 & H4 & _).
  assert (Ht : velocity_triggered alert = true).
  { rewrite H3.
    assert (Hfst : fst (_check_velocity burst_detector (card_id t) (timestamp t)
                          (amount t)) = Ok (true, 6))
      by (vm_compute; reflexivity).
    rewrite H1 in Hfst. simpl in Hfst. congruence. }
  split; [exact Ht |]. exact (proj2 (H4 Ht)).
Defined.

Lemma counters_after_process_witness :
  let t := purchase (t_1430 + timedelta_seconds 5) 60 in
  exists r d',
    process_transaction constant_exp burst_detector t 0 = (Ok r, d') /\
    transactions_processed d' = transactions_processed burst_detector + 1 /\
    match r with
    | None =>
        alerts_generated d' = alerts_generated burst_detector /\
        velocity_violations d' = velocity_violations burst_detector
    | Some alert =>
        alerts_generated d' = alerts_generated burst_detector + 1 /\
        velocity_violations d'
        = velocity_violations burst_detector
          + (if velocity_triggered alert then 1 else 0)
    end.
Proof.
  intros t.
  pose (out := process_transaction constant_exp burst_detector t 0).
  exists (match fst out with Ok r => r | Raise _ => None end), (snd out).
  assert (H : process_transaction constant_exp burst_detector t 0
              = (Ok (match fst out with Ok r => r | Raise _ => None end), snd out))
    by (vm_compute; reflexivity).
  split; [exact H |].
  exact (counters_after_process constant_exp burst_detector _ t 0 _ H).
Defined.

Lemma dead_letter_routing_witness :
  let app := app_with (Some accepting_producer) in
  let raw := List.map Byte.to_N (value malformed) in
  Rejected constant_exp unit ascii_decode not_json no_schema ascii_repr
    app malformed 0 "JSONDecodeError" (take 1000 raw) /\
  exists m,
    dead_letters
      (process_message constant_exp unit ascii_decode not_json no_schema ascii_repr
         app malformed 0)
    = dead_letters app ++ [m] /\
    error_type m = "JSONDecodeError"%string /\
    original_message m = take 1000 raw.
Proof.
  intros app raw.
  assert (Hr : Rejected constant_exp unit ascii_decode not_json no_schema ascii_repr
                 app malformed 0 "JSONDecodeError" (take 1000 raw)).
  { apply Rejected_json; reflexivity. }
  split; [exact Hr |].
  destruct (proj1 (dead_letter_routing constant_exp unit ascii_decode not_json
                     no_schema ascii_repr app malformed 0 _ _ Hr)
              accepting_producer eq_refl (fun m => eq_refl))
    as (m & _ & H2 & _ & _ & _ & H6 & H7 & _).
  exists m. auto.
Defined.

(** C3, counterexample: the bytes of [not json {] arrive while no Kafka
    producer is available: the text is rejected as not JSON, and no
    dead-letter record is produced. *)
Lemma dead_letter_lost_without_producer :
  let app := app_with None in
  let app' :=
    process_message constant_exp unit ascii_decode not_json no_schema ascii_repr
      app malformed 0 in
  Rejected constant_exp unit ascii_decode not_json no_schema ascii_repr
    app malformed 0 "JSONDecodeError" (List.map Byte.to_N (value malformed)) /\
  dead_letters app' = [] /\
  ~ (exists m, dead_letters app' = dead_letters app ++ [m]).
Proof.
  intros app app'. split; [| split].
  - apply (Rejected_json constant_exp unit ascii_decode not_json no_schema ascii_repr
             app malformed 0 (List.map Byte.to_N (value malformed))); reflexivity.
  - reflexivity.
  - intros [m H]. vm_compute in H. discriminate H.
Qed.

(** ** Witnesses of the further properties *)

Lemma risk_level_monotone_witness :
  (1 # 2 <= 9 # 10)%Q /\
  risk_rank (_get_risk_level (1 # 2)) <= risk_rank (_get_risk_level (9 # 10)).
Proof.
  assert (H : (1 # 2 <= 9 # 10)%Q) by (vm_compute; discriminate).
  split; [exact H |]. exact (proj1 (risk_level_monotone (1 # 2) (9 # 10) H)).
Defined.

Lemma returned_alert_consistent_witness :
  let t := purchase (t_1430 + timedelta_seconds 5) 60 in
  exists alert d',
    process_transaction constant_exp burst_detector t 0 = (Ok (Some alert), d') /\
    risk_level alert = get_risk_level alert /\
    (0 <= fraud_score alert <= 1)%Q.
Proof.
  intros t.
  pose (out := process_transaction constant_exp burst_detector t 0).
  assert (Hsome : exists alert, fst out = Ok (Some alert))
    by (eexists; vm_compute; reflexivity).
  destruct Hsome as [alert Halert]. exists alert, (snd out).
  assert (H : process_transaction constant_exp burst_detector t 0
              = (Ok (Some alert), snd out)).
  { fold out. rewrite <- Halert. destruct out; reflexivity. }
  split; [exact H |].
  destruct (returned_alert_consistent constant_exp burst_detector _ t 0 alert H)
    as (_ & _ & _ & _ & _ & Hscore & _ & Hrisk & _).
  split; assumption.
Defined.

Lemma engineered_features_ranges_witness :
  let f := match _engineer_features seen_detector tor_travel 2 with
           | Ok f => f
           | Raise _ => six_in_window
           end in
  (0 <= amount tor_travel)%Q /\
  _engineer_features seen_detector tor_travel 2 = Ok f /\
  (0 <= amount_normalized f <= 1)%Q /\ (0 <= amount_deviation f <= 5)%Q.
Proof.
  intros f.
  assert (Ha : (0 <= amount tor_travel)%Q) by (vm_compute; discriminate).
  assert (Hf : _engineer_features seen_detector tor_travel 2 = Ok f)
    by (vm_compute; reflexivity).
  split; [exact Ha |]. split; [exact Hf |].
  destruct (engineered_features_ranges seen_detector tor_travel 2 f Ha Hf)
    as (H1 & H2 & _).
  split; assumption.
Defined.

Lemma merchant_category_encoding_witness :
  let f := match _engineer_features seen_detector tor_travel 2 with
           | Ok f => f
           | Raise _ => six_in_window
           end in
  _engineer_features seen_detector tor_travel 2 = Ok f /\
  merchant_category_encoded f = 5.
Proof.
  intros f.
  assert (Hf : _engineer_features seen_detector tor_travel 2 = Ok f)
    by (vm_compute; reflexivity).
  split; [exact Hf |].
  apply (proj1 (merchant_category_encoding seen_detector tor_travel 2 f Hf)
           "travel"%string 5).
  - simpl. auto 10.
  - reflexivity.
Defined.

Lemma location_risk_by_substring_witness :
  let f := match _engineer_features seen_detector tor_travel 2 with
           | Ok f => f
           | Raise _ => six_in_window
           end in
  is_ascii (location tor_travel) = true /\
  _engineer_features seen_detector tor_travel 2 = Ok f /\
  location_risk f = (8 # 10)%Q.
Proof.
  intros f.
  assert (Hascii : is_ascii (location tor_travel) = true) by reflexivity.
  assert (Hf : _engineer_features seen_detector tor_travel 2 = Ok f)
    by (vm_compute; reflexivity).
  split; [exact Hascii |]. split; [exact Hf |].
  apply (proj1 (location_risk_by_substring seen_detector tor_travel 2 f Hascii Hf)).
  exists "tor"%string, ""%string, " exit node"%string.
  split; [simpl; auto | reflexivity].
Defined.

Lemma velocity_count_is_window_population_witness :
  let events := [(t_1430, 10%Q); (t_1430 + timedelta_seconds 30, 20%Q)] in
  let ts_n := t_1430 + timedelta_seconds 70 in
  detector_wf fallback_detector /\
  velocity_windows fallback_detector !! card_A = None /\
  0 <= velocity_window_seconds (settings fallback_detector) /\
  StronglySorted Z.le (List.map fst (events ++ [(ts_n, 30%Q)])) /\
  exists d1 triggered count d2,
    observe_all fallback_detector card_A events = (Ok tt, d1) /\
    _check_velocity d1 card_A ts_n 30 = (Ok (triggered, count), d2) /\
    count = 2.
Proof.
  intros events ts_n.
  assert (Hwf : detector_wf fallback_detector).
  { intros c w H. simpl in H. rewrite lookup_empty in H. discriminate. }
  assert (Hnew : velocity_windows fallback_detector !! card_A = None)
    by reflexivity.
  assert (HW : 0 <= velocity_window_seconds (settings fallback_detector))
    by (simpl; lia).
  assert (Hs : StronglySorted Z.le (List.map fst (events ++ [(ts_n, 30%Q)]))).
  { simpl. repeat constructor;
      unfold ts_n, t_1430, timedelta_seconds, usec_per_second; lia. }
  split; [exact Hwf |]. split; [exact Hnew |]. split; [exact HW |].
  split; [exact Hs |].
  destruct (velocity_count_is_window_population fallback_detector card_A events
              ts_n 30 Hwf Hnew HW Hs)
    as (d1 & triggered & count & d2 & w & H1 & H2 & _ & _ & H5 & _).
  exists d1, triggered, count, d2.
  split; [exact H1 |]. split; [exact H2 |]. rewrite H5. reflexivity.
Defined.

Lemma velocity_check_step_witness :
  detector_wf seen_detector /\
  exists triggered count d',
    _check_velocity seen_detector card_A (t_1430 + timedelta_seconds 1) 300
    = (Ok (triggered, count), d') /\
    1 <= count
    <= get_count (default new_window (velocity_windows seen_detector !! card_A)) + 1.
Proof.
  assert (H : detector_wf seen_detector)
    by (apply singleton_detector_wf; reflexivity).
  split; [exact H |].
  destruct (velocity_check_step seen_detector card_A
              (t_1430 + timedelta_seconds 1) 300 H)
    as (triggered & count & d' & w & H1 & _ & H3 & _).
  exists triggered, count, d'. split; assumption.
Defined.

Lemma janitor_only_removes_witness :
  let now := t_1430 + timedelta_minutes 6 in
  now <= now + timedelta_minutes 1 /\
  cleanup_old_windows (cleanup_old_windows seen_detector now) now
  = cleanup_old_windows seen_detector now.
Proof.
  intros now.
  assert (H : now <= now + timedelta_minutes 1)
    by (unfold timedelta_minutes, usec_per_second; lia).
  split; [exact H |].
  destruct (janitor_only_removes seen_detector now (now + timedelta_minutes 1) H)
    as (_ & _ & _ & _ & _ & _ & _ & _ & Hid & _).
  exact Hid.
Defined.

Lemma janitor_is_transparent_witness :
  let now := t_1430 + timedelta_minutes 6 in
  let ts := now + timedelta_seconds 1 in
  detector_wf seen_detector /\
  velocity_window_seconds (settings seen_detector) <= 300 /\
  now <= ts /\
  fst (_check_velocity (cleanup_old_windows seen_detector now) card_A ts 100)
  = fst (_check_velocity seen_detector card_A ts 100).
Proof.
  intros now ts.
  assert (Hwf : detector_wf seen_detector)
    by (apply singleton_detector_wf; reflexivity).
  assert (HW : velocity_window_seconds (settings seen_detector) <= 300)
    by (simpl; lia).
  assert (Hts : now <= ts)
    by (unfold ts, timedelta_seconds, usec_per_second; lia).
  split; [exact Hwf |]. split; [exact HW |]. split; [exact Hts |].
  exact (proj1 (janitor_is_transparent seen_detector now card_A ts 100 Hwf HW Hts)).
Defined.

Lemma accepted_record_outcome_witness :
  let app := app_with (Some accepting_producer) in
  let d' := snd (process_transaction constant_exp (fraud_detector app)
                   (purchase t_1430 25) 0) in
  ascii_decode (value wellformed) = Ok [123%N; 125%N] /\
  any_json [123%N; 125%N] = Ok tt /\
  fixed_schema tt = Ok (purchase t_1430 25) /\
  process_transaction constant_exp (fraud_detector app) (purchase t_1430 25) 0
  = (Ok None, d') /\
  dead_letters
    (process_message constant_exp unit ascii_decode any_json fixed_schema ascii_repr
       app wellformed 0)
  = dead_letters app.
Proof.
  intros app d'.
  assert (Hd : ascii_decode (value wellformed) = Ok [123%N; 125%N]) by reflexivity.
  assert (Hj : any_json [123%N; 125%N] = Ok tt) by reflexivity.
  assert (Hv : fixed_schema tt = Ok (purchase t_1430 25)) by reflexivity.
  assert (Hp : process_transaction constant_exp (fraud_detector app)
                 (purchase t_1430 25) 0 = (Ok None, d'))
    by (vm_compute; reflexivity).
  split; [exact Hd |]. split; [exact Hj |]. split; [exact Hv |].
  split; [exact Hp |].
  exact (proj1 (proj2 (accepted_record_outcome constant_exp unit ascii_decode
                         any_json fixed_schema ascii_repr app wellformed 0
                         _ _ _ _ _ Hd Hj Hv Hp))).
Defined.

Lemma predict_failure_falls_back_witness :
  model scaled_detector
  = Some (WithPredictProba (fun _ => Ok [(3 # 10)%Q; (7 # 10)%Q])) /\
  _predict constant_exp scaled_detector six_in_window = np_clip (7 # 10) 0 1.
Proof.
  assert (H : model scaled_detector
              = Some (WithPredictProba (fun _ => Ok [(3 # 10)%Q; (7 # 10)%Q])))
    by reflexivity.
  split; [exact H |].
  exact (proj2 (predict_failure_falls_back constant_exp scaled_detector
                  six_in_window _ H)
           (List.map (fun x => (x - (1 # 2))%Q) (feature_vector six_in_window))
           eq_refl).
Defined.

Lemma mean_amount_between_witness :
  Forall (fun a => (10 <= a <= 30)%Q) (amounts three_amounts) /\
  (10 <= get_mean_amount three_amounts <= 30)%Q.
Proof.
  assert (H : Forall (fun a => (10 <= a <= 30)%Q) (amounts three_amounts)).
  { simpl. repeat constructor; vm_compute; discriminate. }
  split; [exact H |].
  apply (proj2 (mean_amount_between three_amounts 10 30 H)).
  discriminate.
Defined.

Lemma metrics_fraud_rate_is_percentage_witness :
  let app := app_with None in
  0 <= alerts_generated (fraud_detector app)
    <= transactions_processed (fraud_detector app) /\
  (0 <= fraud_rate (get_metrics app (Some t_1430) (t_1430 + timedelta_seconds 10))
     <= 100)%Q.
Proof.
  intros app.
  assert (H : 0 <= alerts_generated (fraud_detector app)
              <= transactions_processed (fraud_detector app)) by (simpl; lia).
  split; [exact H |].
  exact (proj1 (metrics_fraud_rate_is_percentage app (Some t_1430)
                  (t_1430 + timedelta_seconds 10) H)).
Defined.
